(** * Audio HAL enumerants and their string conversions

    A shallow embedding of [audio/include/system/audio-hal-enums.h]: the
    enumerant lists that cross the framework <-> HAL boundary as strings,
    the [*_to_string] and [*_from_string] converters the header generates
    from those lists, and the properties of the converters.

    Enumerant values are 32-bit C integers, represented by [Z]; every list
    value is a constant expression built with [|], [<<] and [-] that stays
    inside the 32-bit range, so no wrap-around occurs (lemma
    [enum_values_fit_32_bits]).  A C string is represented by the
    characters that precede its terminator. *)

From Stdlib Require Import ZArith String Ascii List Bool Lia DecimalString.
Import ListNotations.
Local Open Scope string_scope.
Local Open Scope Z_scope.
Local Open Scope list_scope.

(** ** Preprocessor templates *)

(** The C operators used by the constant expressions of the lists.  As in C,
    [-] binds tighter than [|]. *)
Infix ".|" := Z.lor (at level 55, left associativity).
Infix "<<" := Z.shiftl (at level 52, left associativity).

(** One row [V(symbol, value)] of a list macro.  [AUDIO_DEFINE_ENUM_SYMBOL_V]
    makes [symbol] an enumerator equal to the value expression; the string
    templates only use [symbol], once quoted by [AUDIO_ENUM_STRINGIFY] and
    once as the enumerator, so a row carries the quoted symbol and the
    enumerator's value. *)
Record entry : Type := V { symbol : string; value : Z }.

(** [strcmp] of <string.h>: zero exactly on equal strings, otherwise the
    sign of the first difference. *)
Definition strcmp (a b : string) : Z :=
  match String.compare a b with
  | Eq => 0
  | Lt => -1
  | Gt => 1
  end.

(** [#define AUDIO_DEFINE_STRINGIFY_CASE(symbol) case symbol: return "symbol";]
    with [rest] standing for what the switch does when this label does not
    match. *)
Definition AUDIO_DEFINE_STRINGIFY_CASE (e : entry) (t : Z) (rest : string) : string :=
  if t =? value e then symbol e else rest.

(** [#define AUDIO_DEFINE_PARSE_CASE(symbol)
      if (strcmp(s, "symbol") == 0) { *t = symbol; return true; } else]
    The second component of the result is the content of [*t] when the
    function returns; [rest] is the statement after the [else]. *)
Definition AUDIO_DEFINE_PARSE_CASE (e : entry) (s : string) (rest : bool * Z) : bool * Z :=
  if strcmp s (symbol e) =? 0 then (true, value e) else rest.

(** [AUDIO_DEFINE_BIT_MASK(symbol)] expands to [symbol |]; a list expanded
    with it and closed by [0] is the union of the list's values. *)
Definition AUDIO_DEFINE_BIT_MASK (e : entry) (rest : Z) : Z :=
  value e .| rest.

(** [switch (t) { LIST(AUDIO_DEFINE_STRINGIFY_CASE_V) default: return ""; }]
    (or the same switch without [default], followed by [return ""]). *)
Definition stringify_switch (cases : list entry) (t : Z) : string :=
  fold_right (fun e rest => AUDIO_DEFINE_STRINGIFY_CASE e t rest) "" cases.

(** [LIST(AUDIO_DEFINE_PARSE_CASE_V) return false;] run with [*t] holding
    [t]: the chain of [if ... else] tests, closed by the failure return
    that does not touch [*t]. *)
Definition parse_chain (cases : list entry) (s : string) (t : Z) : bool * Z :=
  fold_right (fun e rest => AUDIO_DEFINE_PARSE_CASE e s rest) (false, t) cases.

Definition bit_mask_of (cases : list entry) : Z :=
  fold_right AUDIO_DEFINE_BIT_MASK 0 cases.

(** The header is compiled either with [AUDIO_NO_SYSTEM_DECLARATIONS]
    defined (vendor code) or without it (framework code). *)
Inductive build : Type :=
  | VendorBuild
  | FrameworkBuild.

(** ** Channel masks *)

(** Individual output channel flags, then individual input channel flags,
    the value shared by both directions, and the masks built from them. *)
Definition AUDIO_CHANNEL_OUT_FRONT_LEFT : Z := 0x1.
Definition AUDIO_CHANNEL_OUT_FRONT_RIGHT : Z := 0x2.
Definition AUDIO_CHANNEL_OUT_FRONT_CENTER : Z := 0x4.
Definition AUDIO_CHANNEL_OUT_LOW_FREQUENCY : Z := 0x8.
Definition AUDIO_CHANNEL_OUT_BACK_LEFT : Z := 0x10.
Definition AUDIO_CHANNEL_OUT_BACK_RIGHT : Z := 0x20.
Definition AUDIO_CHANNEL_OUT_FRONT_LEFT_OF_CENTER : Z := 0x40.
Definition AUDIO_CHANNEL_OUT_FRONT_RIGHT_OF_CENTER : Z := 0x80.
Definition AUDIO_CHANNEL_OUT_BACK_CENTER : Z := 0x100.
Definition AUDIO_CHANNEL_OUT_SIDE_LEFT : Z := 0x200.
Definition AUDIO_CHANNEL_OUT_SIDE_RIGHT : Z := 0x400.
Definition AUDIO_CHANNEL_OUT_TOP_CENTER : Z := 0x800.
Definition AUDIO_CHANNEL_OUT_TOP_FRONT_LEFT : Z := 0x1000.
Definition AUDIO_CHANNEL_OUT_TOP_FRONT_CENTER : Z := 0x2000.
Definition AUDIO_CHANNEL_OUT_TOP_FRONT_RIGHT : Z := 0x4000.
Definition AUDIO_CHANNEL_OUT_TOP_BACK_LEFT : Z := 0x8000.
Definition AUDIO_CHANNEL_OUT_TOP_BACK_CENTER : Z := 0x10000.
Definition AUDIO_CHANNEL_OUT_TOP_BACK_RIGHT : Z := 0x20000.
Definition AUDIO_CHANNEL_OUT_TOP_SIDE_LEFT : Z := 0x40000.
Definition AUDIO_CHANNEL_OUT_TOP_SIDE_RIGHT : Z := 0x80000.
Definition AUDIO_CHANNEL_OUT_HAPTIC_A : Z := 0x20000000.
Definition AUDIO_CHANNEL_OUT_HAPTIC_B : Z := 0x10000000.

Definition AUDIO_CHANNEL_IN_LEFT : Z := 0x4.
Definition AUDIO_CHANNEL_IN_RIGHT : Z := 0x8.
Definition AUDIO_CHANNEL_IN_FRONT : Z := 0x10.
Definition AUDIO_CHANNEL_IN_BACK : Z := 0x20.
Definition AUDIO_CHANNEL_IN_LEFT_PROCESSED : Z := 0x40.
Definition AUDIO_CHANNEL_IN_RIGHT_PROCESSED : Z := 0x80.
Definition AUDIO_CHANNEL_IN_FRONT_PROCESSED : Z := 0x100.
Definition AUDIO_CHANNEL_IN_BACK_PROCESSED : Z := 0x200.
Definition AUDIO_CHANNEL_IN_PRESSURE : Z := 0x400.
Definition AUDIO_CHANNEL_IN_X_AXIS : Z := 0x800.
Definition AUDIO_CHANNEL_IN_Y_AXIS : Z := 0x1000.
Definition AUDIO_CHANNEL_IN_Z_AXIS : Z := 0x2000.
Definition AUDIO_CHANNEL_IN_VOICE_UPLINK : Z := 0x4000.
Definition AUDIO_CHANNEL_IN_VOICE_DNLINK : Z := 0x8000.
Definition AUDIO_CHANNEL_IN_BACK_LEFT : Z := 0x10000.
Definition AUDIO_CHANNEL_IN_BACK_RIGHT : Z := 0x20000.
Definition AUDIO_CHANNEL_IN_CENTER : Z := 0x40000.
Definition AUDIO_CHANNEL_IN_LOW_FREQUENCY : Z := 0x100000.
Definition AUDIO_CHANNEL_IN_TOP_LEFT : Z := 0x200000.
Definition AUDIO_CHANNEL_IN_TOP_RIGHT : Z := 0x400000.

Definition AUDIO_CHANNEL_NONE : Z := 0x0.

Definition AUDIO_CHANNEL_OUT_MONO : Z := AUDIO_CHANNEL_OUT_FRONT_LEFT.
Definition AUDIO_CHANNEL_OUT_STEREO : Z := AUDIO_CHANNEL_OUT_FRONT_LEFT .| AUDIO_CHANNEL_OUT_FRONT_RIGHT.
Definition AUDIO_CHANNEL_OUT_2POINT1 : Z := AUDIO_CHANNEL_OUT_FRONT_LEFT .| AUDIO_CHANNEL_OUT_FRONT_RIGHT .| AUDIO_CHANNEL_OUT_LOW_FREQUENCY.
Definition AUDIO_CHANNEL_OUT_TRI : Z := AUDIO_CHANNEL_OUT_FRONT_LEFT .| AUDIO_CHANNEL_OUT_FRONT_RIGHT .| AUDIO_CHANNEL_OUT_FRONT_CENTER.
Definition AUDIO_CHANNEL_OUT_TRI_BACK : Z := AUDIO_CHANNEL_OUT_FRONT_LEFT .| AUDIO_CHANNEL_OUT_FRONT_RIGHT .| AUDIO_CHANNEL_OUT_BACK_CENTER.
Definition AUDIO_CHANNEL_OUT_3POINT1 : Z := AUDIO_CHANNEL_OUT_FRONT_LEFT .| AUDIO_CHANNEL_OUT_FRONT_RIGHT .| AUDIO_CHANNEL_OUT_FRONT_CENTER .| AUDIO_CHANNEL_OUT_LOW_FREQUENCY.
Definition AUDIO_CHANNEL_OUT_2POINT0POINT2 : Z := AUDIO_CHANNEL_OUT_FRONT_LEFT .| AUDIO_CHANNEL_OUT_FRONT_RIGHT .| AUDIO_CHANNEL_OUT_TOP_SIDE_LEFT .| AUDIO_CHANNEL_OUT_TOP_SIDE_RIGHT.
Definition AUDIO_CHANNEL_OUT_2POINT1POINT2 : Z := AUDIO_CHANNEL_OUT_FRONT_LEFT .| AUDIO_CHANNEL_OUT_FRONT_RIGHT .| AUDIO_CHANNEL_OUT_TOP_SIDE_LEFT .| AUDIO_CHANNEL_OUT_TOP_SIDE_RIGHT .| AUDIO_CHANNEL_OUT_LOW_FREQUENCY.
Definition AUDIO_CHANNEL_OUT_3POINT0POINT2 : Z := AUDIO_CHANNEL_OUT_FRONT_LEFT .| AUDIO_CHANNEL_OUT_FRONT_RIGHT .| AUDIO_CHANNEL_OUT_FRONT_CENTER .| AUDIO_CHANNEL_OUT_TOP_SIDE_LEFT .| AUDIO_CHANNEL_OUT_TOP_SIDE_RIGHT.
Definition AUDIO_CHANNEL_OUT_3POINT1POINT2 : Z := AUDIO_CHANNEL_OUT_FRONT_LEFT .| AUDIO_CHANNEL_OUT_FRONT_RIGHT .| AUDIO_CHANNEL_OUT_FRONT_CENTER .| AUDIO_CHANNEL_OUT_TOP_SIDE_LEFT .| AUDIO_CHANNEL_OUT_TOP_SIDE_RIGHT .| AUDIO_CHANNEL_OUT_LOW_FREQUENCY.
Definition AUDIO_CHANNEL_OUT_QUAD : Z := AUDIO_CHANNEL_OUT_FRONT_LEFT .| AUDIO_CHANNEL_OUT_FRONT_RIGHT .| AUDIO_CHANNEL_OUT_BACK_LEFT .| AUDIO_CHANNEL_OUT_BACK_RIGHT.
Definition AUDIO_CHANNEL_OUT_QUAD_SIDE : Z := AUDIO_CHANNEL_OUT_FRONT_LEFT .| AUDIO_CHANNEL_OUT_FRONT_RIGHT .| AUDIO_CHANNEL_OUT_SIDE_LEFT .| AUDIO_CHANNEL_OUT_SIDE_RIGHT.
Definition AUDIO_CHANNEL_OUT_SURROUND : Z := AUDIO_CHANNEL_OUT_FRONT_LEFT .| AUDIO_CHANNEL_OUT_FRONT_RIGHT .| AUDIO_CHANNEL_OUT_FRONT_CENTER .| AUDIO_CHANNEL_OUT_BACK_CENTER.
Definition AUDIO_CHANNEL_OUT_PENTA : Z := AUDIO_CHANNEL_OUT_QUAD .| AUDIO_CHANNEL_OUT_FRONT_CENTER.
Definition AUDIO_CHANNEL_OUT_5POINT1 : Z := AUDIO_CHANNEL_OUT_FRONT_LEFT .| AUDIO_CHANNEL_OUT_FRONT_RIGHT .| AUDIO_CHANNEL_OUT_FRONT_CENTER .| AUDIO_CHANNEL_OUT_LOW_FREQUENCY .| AUDIO_CHANNEL_OUT_BACK_LEFT .| AUDIO_CHANNEL_OUT_BACK_RIGHT.
Definition AUDIO_CHANNEL_OUT_5POINT1_SIDE : Z := AUDIO_CHANNEL_OUT_FRONT_LEFT .| AUDIO_CHANNEL_OUT_FRONT_RIGHT .| AUDIO_CHANNEL_OUT_FRONT_CENTER .| AUDIO_CHANNEL_OUT_LOW_FREQUENCY .| AUDIO_CHANNEL_OUT_SIDE_LEFT .| AUDIO_CHANNEL_OUT_SIDE_RIGHT.
Definition AUDIO_CHANNEL_OUT_5POINT1POINT2 : Z := AUDIO_CHANNEL_OUT_5POINT1 .| AUDIO_CHANNEL_OUT_TOP_SIDE_LEFT .| AUDIO_CHANNEL_OUT_TOP_SIDE_RIGHT.
Definition AUDIO_CHANNEL_OUT_5POINT1POINT4 : Z := AUDIO_CHANNEL_OUT_5POINT1 .| AUDIO_CHANNEL_OUT_TOP_FRONT_LEFT .| AUDIO_CHANNEL_OUT_TOP_FRONT_RIGHT .| AUDIO_CHANNEL_OUT_TOP_BACK_LEFT .| AUDIO_CHANNEL_OUT_TOP_BACK_RIGHT.
Definition AUDIO_CHANNEL_OUT_6POINT1 : Z := AUDIO_CHANNEL_OUT_FRONT_LEFT .| AUDIO_CHANNEL_OUT_FRONT_RIGHT .| AUDIO_CHANNEL_OUT_FRONT_CENTER .| AUDIO_CHANNEL_OUT_LOW_FREQUENCY .| AUDIO_CHANNEL_OUT_BACK_LEFT .| AUDIO_CHANNEL_OUT_BACK_RIGHT .| AUDIO_CHANNEL_OUT_BACK_CENTER.
Definition AUDIO_CHANNEL_OUT_7POINT1 : Z := AUDIO_CHANNEL_OUT_FRONT_LEFT .| AUDIO_CHANNEL_OUT_FRONT_RIGHT .| AUDIO_CHANNEL_OUT_FRONT_CENTER .| AUDIO_CHANNEL_OUT_LOW_FREQUENCY .| AUDIO_CHANNEL_OUT_BACK_LEFT .| AUDIO_CHANNEL_OUT_BACK_RIGHT .| AUDIO_CHANNEL_OUT_SIDE_LEFT .| AUDIO_CHANNEL_OUT_SIDE_RIGHT.
Definition AUDIO_CHANNEL_OUT_7POINT1POINT2 : Z := AUDIO_CHANNEL_OUT_7POINT1 .| AUDIO_CHANNEL_OUT_TOP_SIDE_LEFT .| AUDIO_CHANNEL_OUT_TOP_SIDE_RIGHT.
Definition AUDIO_CHANNEL_OUT_7POINT1POINT4 : Z := AUDIO_CHANNEL_OUT_7POINT1 .| AUDIO_CHANNEL_OUT_TOP_FRONT_LEFT .| AUDIO_CHANNEL_OUT_TOP_FRONT_RIGHT .| AUDIO_CHANNEL_OUT_TOP_BACK_LEFT .| AUDIO_CHANNEL_OUT_TOP_BACK_RIGHT.
Definition AUDIO_CHANNEL_OUT_MONO_HAPTIC_A : Z := AUDIO_CHANNEL_OUT_MONO .| AUDIO_CHANNEL_OUT_HAPTIC_A.
Definition AUDIO_CHANNEL_OUT_STEREO_HAPTIC_A : Z := AUDIO_CHANNEL_OUT_STEREO .| AUDIO_CHANNEL_OUT_HAPTIC_A.
Definition AUDIO_CHANNEL_OUT_HAPTIC_AB : Z := AUDIO_CHANNEL_OUT_HAPTIC_A .| AUDIO_CHANNEL_OUT_HAPTIC_B.
Definition AUDIO_CHANNEL_OUT_MONO_HAPTIC_AB : Z := AUDIO_CHANNEL_OUT_MONO .| AUDIO_CHANNEL_OUT_HAPTIC_AB.
Definition AUDIO_CHANNEL_OUT_STEREO_HAPTIC_AB : Z := AUDIO_CHANNEL_OUT_STEREO .| AUDIO_CHANNEL_OUT_HAPTIC_AB.

Definition AUDIO_CHANNEL_OUT_5POINT1_BACK : Z := AUDIO_CHANNEL_OUT_5POINT1.
Definition AUDIO_CHANNEL_OUT_QUAD_BACK : Z := AUDIO_CHANNEL_OUT_QUAD.

Definition AUDIO_CHANNEL_IN_MONO : Z := AUDIO_CHANNEL_IN_FRONT.
Definition AUDIO_CHANNEL_IN_STEREO : Z := AUDIO_CHANNEL_IN_LEFT .| AUDIO_CHANNEL_IN_RIGHT.
Definition AUDIO_CHANNEL_IN_FRONT_BACK : Z := AUDIO_CHANNEL_IN_FRONT .| AUDIO_CHANNEL_IN_BACK.
Definition AUDIO_CHANNEL_IN_6 : Z := AUDIO_CHANNEL_IN_LEFT .| AUDIO_CHANNEL_IN_RIGHT .| AUDIO_CHANNEL_IN_FRONT .| AUDIO_CHANNEL_IN_BACK .| AUDIO_CHANNEL_IN_LEFT_PROCESSED .| AUDIO_CHANNEL_IN_RIGHT_PROCESSED.
Definition AUDIO_CHANNEL_IN_2POINT0POINT2 : Z := AUDIO_CHANNEL_IN_LEFT .| AUDIO_CHANNEL_IN_RIGHT .| AUDIO_CHANNEL_IN_TOP_LEFT .| AUDIO_CHANNEL_IN_TOP_RIGHT.
Definition AUDIO_CHANNEL_IN_2POINT1POINT2 : Z := AUDIO_CHANNEL_IN_LEFT .| AUDIO_CHANNEL_IN_RIGHT .| AUDIO_CHANNEL_IN_TOP_LEFT .| AUDIO_CHANNEL_IN_TOP_RIGHT .| AUDIO_CHANNEL_IN_LOW_FREQUENCY.
Definition AUDIO_CHANNEL_IN_3POINT0POINT2 : Z := AUDIO_CHANNEL_IN_LEFT .| AUDIO_CHANNEL_IN_CENTER .| AUDIO_CHANNEL_IN_RIGHT .| AUDIO_CHANNEL_IN_TOP_LEFT .| AUDIO_CHANNEL_IN_TOP_RIGHT.
Definition AUDIO_CHANNEL_IN_3POINT1POINT2 : Z := AUDIO_CHANNEL_IN_LEFT .| AUDIO_CHANNEL_IN_CENTER .| AUDIO_CHANNEL_IN_RIGHT .| AUDIO_CHANNEL_IN_TOP_LEFT .| AUDIO_CHANNEL_IN_TOP_RIGHT .| AUDIO_CHANNEL_IN_LOW_FREQUENCY.
Definition AUDIO_CHANNEL_IN_5POINT1 : Z := AUDIO_CHANNEL_IN_LEFT .| AUDIO_CHANNEL_IN_CENTER .| AUDIO_CHANNEL_IN_RIGHT .| AUDIO_CHANNEL_IN_BACK_LEFT .| AUDIO_CHANNEL_IN_BACK_RIGHT .| AUDIO_CHANNEL_IN_LOW_FREQUENCY.
Definition AUDIO_CHANNEL_IN_VOICE_UPLINK_MONO : Z := AUDIO_CHANNEL_IN_VOICE_UPLINK .| AUDIO_CHANNEL_IN_MONO.
Definition AUDIO_CHANNEL_IN_VOICE_DNLINK_MONO : Z := AUDIO_CHANNEL_IN_VOICE_DNLINK .| AUDIO_CHANNEL_IN_MONO.
Definition AUDIO_CHANNEL_IN_VOICE_CALL_MONO : Z := AUDIO_CHANNEL_IN_VOICE_UPLINK_MONO .| AUDIO_CHANNEL_IN_VOICE_DNLINK_MONO.

Definition AUDIO_CHANNEL_COUNT_MAX : Z := 30.
Definition AUDIO_CHANNEL_INDEX_HDR : Z := 0x80000000.

Definition AUDIO_CHANNEL_INDEX_MASK_1 : Z := AUDIO_CHANNEL_INDEX_HDR .| (1 << 1) - 1.
Definition AUDIO_CHANNEL_INDEX_MASK_2 : Z := AUDIO_CHANNEL_INDEX_HDR .| (1 << 2) - 1.
Definition AUDIO_CHANNEL_INDEX_MASK_3 : Z := AUDIO_CHANNEL_INDEX_HDR .| (1 << 3) - 1.
Definition AUDIO_CHANNEL_INDEX_MASK_4 : Z := AUDIO_CHANNEL_INDEX_HDR .| (1 << 4) - 1.
Definition AUDIO_CHANNEL_INDEX_MASK_5 : Z := AUDIO_CHANNEL_INDEX_HDR .| (1 << 5) - 1.
Definition AUDIO_CHANNEL_INDEX_MASK_6 : Z := AUDIO_CHANNEL_INDEX_HDR .| (1 << 6) - 1.
Definition AUDIO_CHANNEL_INDEX_MASK_7 : Z := AUDIO_CHANNEL_INDEX_HDR .| (1 << 7) - 1.
Definition AUDIO_CHANNEL_INDEX_MASK_8 : Z := AUDIO_CHANNEL_INDEX_HDR .| (1 << 8) - 1.
Definition AUDIO_CHANNEL_INDEX_MASK_9 : Z := AUDIO_CHANNEL_INDEX_HDR .| (1 << 9) - 1.
Definition AUDIO_CHANNEL_INDEX_MASK_10 : Z := AUDIO_CHANNEL_INDEX_HDR .| (1 << 10) - 1.
Definition AUDIO_CHANNEL_INDEX_MASK_11 : Z := AUDIO_CHANNEL_INDEX_HDR .| (1 << 11) - 1.
Definition AUDIO_CHANNEL_INDEX_MASK_12 : Z := AUDIO_CHANNEL_INDEX_HDR .| (1 << 12) - 1.
Definition AUDIO_CHANNEL_INDEX_MASK_13 : Z := AUDIO_CHANNEL_INDEX_HDR .| (1 << 13) - 1.
Definition AUDIO_CHANNEL_INDEX_MASK_14 : Z := AUDIO_CHANNEL_INDEX_HDR .| (1 << 14) - 1.
Definition AUDIO_CHANNEL_INDEX_MASK_15 : Z := AUDIO_CHANNEL_INDEX_HDR .| (1 << 15) - 1.
Definition AUDIO_CHANNEL_INDEX_MASK_16 : Z := AUDIO_CHANNEL_INDEX_HDR .| (1 << 16) - 1.
Definition AUDIO_CHANNEL_INDEX_MASK_17 : Z := AUDIO_CHANNEL_INDEX_HDR .| (1 << 17) - 1.
Definition AUDIO_CHANNEL_INDEX_MASK_18 : Z := AUDIO_CHANNEL_INDEX_HDR .| (1 << 18) - 1.
Definition AUDIO_CHANNEL_INDEX_MASK_19 : Z := AUDIO_CHANNEL_INDEX_HDR .| (1 << 19) - 1.
Definition AUDIO_CHANNEL_INDEX_MASK_20 : Z := AUDIO_CHANNEL_INDEX_HDR .| (1 << 20) - 1.
Definition AUDIO_CHANNEL_INDEX_MASK_21 : Z := AUDIO_CHANNEL_INDEX_HDR .| (1 << 21) - 1.
Definition AUDIO_CHANNEL_INDEX_MASK_22 : Z := AUDIO_CHANNEL_INDEX_HDR .| (1 << 22) - 1.
Definition AUDIO_CHANNEL_INDEX_MASK_23 : Z := AUDIO_CHANNEL_INDEX_HDR .| (1 << 23) - 1.
Definition AUDIO_CHANNEL_INDEX_MASK_24 : Z := AUDIO_CHANNEL_INDEX_HDR .| (1 << 24) - 1.

Definition AUDIO_CHANNEL_OUT_DISCRETE_CHANNEL_LIST_DEF : list entry :=
  [ V "AUDIO_CHANNEL_OUT_FRONT_LEFT" AUDIO_CHANNEL_OUT_FRONT_LEFT;
    V "AUDIO_CHANNEL_OUT_FRONT_RIGHT" AUDIO_CHANNEL_OUT_FRONT_RIGHT;
    V "AUDIO_CHANNEL_OUT_FRONT_CENTER" AUDIO_CHANNEL_OUT_FRONT_CENTER;
    V "AUDIO_CHANNEL_OUT_LOW_FREQUENCY" AUDIO_CHANNEL_OUT_LOW_FREQUENCY;
    V "AUDIO_CHANNEL_OUT_BACK_LEFT" AUDIO_CHANNEL_OUT_BACK_LEFT;
    V "AUDIO_CHANNEL_OUT_BACK_RIGHT" AUDIO_CHANNEL_OUT_BACK_RIGHT;
    V "AUDIO_CHANNEL_OUT_FRONT_LEFT_OF_CENTER" AUDIO_CHANNEL_OUT_FRONT_LEFT_OF_CENTER;
    V "AUDIO_CHANNEL_OUT_FRONT_RIGHT_OF_CENTER" AUDIO_CHANNEL_OUT_FRONT_RIGHT_OF_CENTER;
    V "AUDIO_CHANNEL_OUT_BACK_CENTER" AUDIO_CHANNEL_OUT_BACK_CENTER;
    V "AUDIO_CHANNEL_OUT_SIDE_LEFT" AUDIO_CHANNEL_OUT_SIDE_LEFT;
    V "AUDIO_CHANNEL_OUT_SIDE_RIGHT" AUDIO_CHANNEL_OUT_SIDE_RIGHT;
    V "AUDIO_CHANNEL_OUT_TOP_CENTER" AUDIO_CHANNEL_OUT_TOP_CENTER;
    V "AUDIO_CHANNEL_OUT_TOP_FRONT_LEFT" AUDIO_CHANNEL_OUT_TOP_FRONT_LEFT;
    V "AUDIO_CHANNEL_OUT_TOP_FRONT_CENTER" AUDIO_CHANNEL_OUT_TOP_FRONT_CENTER;
    V "AUDIO_CHANNEL_OUT_TOP_FRONT_RIGHT" AUDIO_CHANNEL_OUT_TOP_FRONT_RIGHT;
    V "AUDIO_CHANNEL_OUT_TOP_BACK_LEFT" AUDIO_CHANNEL_OUT_TOP_BACK_LEFT;
    V "AUDIO_CHANNEL_OUT_TOP_BACK_CENTER" AUDIO_CHANNEL_OUT_TOP_BACK_CENTER;
    V "AUDIO_CHANNEL_OUT_TOP_BACK_RIGHT" AUDIO_CHANNEL_OUT_TOP_BACK_RIGHT;
    V "AUDIO_CHANNEL_OUT_TOP_SIDE_LEFT" AUDIO_CHANNEL_OUT_TOP_SIDE_LEFT;
    V "AUDIO_CHANNEL_OUT_TOP_SIDE_RIGHT" AUDIO_CHANNEL_OUT_TOP_SIDE_RIGHT;
    V "AUDIO_CHANNEL_OUT_HAPTIC_A" AUDIO_CHANNEL_OUT_HAPTIC_A;
    V "AUDIO_CHANNEL_OUT_HAPTIC_B" AUDIO_CHANNEL_OUT_HAPTIC_B ].

Definition AUDIO_CHANNEL_IN_DISCRETE_CHANNEL_LIST_DEF : list entry :=
  [ V "AUDIO_CHANNEL_IN_LEFT" AUDIO_CHANNEL_IN_LEFT;
    V "AUDIO_CHANNEL_IN_RIGHT" AUDIO_CHANNEL_IN_RIGHT;
    V "AUDIO_CHANNEL_IN_FRONT" AUDIO_CHANNEL_IN_FRONT;
    V "AUDIO_CHANNEL_IN_BACK" AUDIO_CHANNEL_IN_BACK;
    V "AUDIO_CHANNEL_IN_LEFT_PROCESSED" AUDIO_CHANNEL_IN_LEFT_PROCESSED;
    V "AUDIO_CHANNEL_IN_RIGHT_PROCESSED" AUDIO_CHANNEL_IN_RIGHT_PROCESSED;
    V "AUDIO_CHANNEL_IN_FRONT_PROCESSED" AUDIO_CHANNEL_IN_FRONT_PROCESSED;
    V "AUDIO_CHANNEL_IN_BACK_PROCESSED" AUDIO_CHANNEL_IN_BACK_PROCESSED;
    V "AUDIO_CHANNEL_IN_PRESSURE" AUDIO_CHANNEL_IN_PRESSURE;
    V "AUDIO_CHANNEL_IN_X_AXIS" AUDIO_CHANNEL_IN_X_AXIS;
    V "AUDIO_CHANNEL_IN_Y_AXIS" AUDIO_CHANNEL_IN_Y_AXIS;
    V "AUDIO_CHANNEL_IN_Z_AXIS" AUDIO_CHANNEL_IN_Z_AXIS;
    V "AUDIO_CHANNEL_IN_VOICE_UPLINK" AUDIO_CHANNEL_IN_VOICE_UPLINK;
    V "AUDIO_CHANNEL_IN_VOICE_DNLINK" AUDIO_CHANNEL_IN_VOICE_DNLINK;
    V "AUDIO_CHANNEL_IN_BACK_LEFT" AUDIO_CHANNEL_IN_BACK_LEFT;
    V "AUDIO_CHANNEL_IN_BACK_RIGHT" AUDIO_CHANNEL_IN_BACK_RIGHT;
    V "AUDIO_CHANNEL_IN_CENTER" AUDIO_CHANNEL_IN_CENTER;
    V "AUDIO_CHANNEL_IN_LOW_FREQUENCY" AUDIO_CHANNEL_IN_LOW_FREQUENCY;
    V "AUDIO_CHANNEL_IN_TOP_LEFT" AUDIO_CHANNEL_IN_TOP_LEFT;
    V "AUDIO_CHANNEL_IN_TOP_RIGHT" AUDIO_CHANNEL_IN_TOP_RIGHT ].

Definition AUDIO_CHANNEL_IN_OUT_MASK_LIST_DEF : list entry :=
  [ V "AUDIO_CHANNEL_NONE" AUDIO_CHANNEL_NONE ].

Definition AUDIO_CHANNEL_OUT_MASK_LIST_UNIQUE_DEF : list entry :=
  [ V "AUDIO_CHANNEL_OUT_MONO" AUDIO_CHANNEL_OUT_MONO;
    V "AUDIO_CHANNEL_OUT_STEREO" AUDIO_CHANNEL_OUT_STEREO;
    V "AUDIO_CHANNEL_OUT_2POINT1" AUDIO_CHANNEL_OUT_2POINT1;
    V "AUDIO_CHANNEL_OUT_TRI" AUDIO_CHANNEL_OUT_TRI;
    V "AUDIO_CHANNEL_OUT_TRI_BACK" AUDIO_CHANNEL_OUT_TRI_BACK;
    V "AUDIO_CHANNEL_OUT_3POINT1" AUDIO_CHANNEL_OUT_3POINT1;
    V "AUDIO_CHANNEL_OUT_2POINT0POINT2" AUDIO_CHANNEL_OUT_2POINT0POINT2;
    V "AUDIO_CHANNEL_OUT_2POINT1POINT2" AUDIO_CHANNEL_OUT_2POINT1POINT2;
    V "AUDIO_CHANNEL_OUT_3POINT0POINT2" AUDIO_CHANNEL_OUT_3POINT0POINT2;
    V "AUDIO_CHANNEL_OUT_3POINT1POINT2" AUDIO_CHANNEL_OUT_3POINT1POINT2;
    V "AUDIO_CHANNEL_OUT_QUAD" AUDIO_CHANNEL_OUT_QUAD;
    V "AUDIO_CHANNEL_OUT_QUAD_SIDE" AUDIO_CHANNEL_OUT_QUAD_SIDE;
    V "AUDIO_CHANNEL_OUT_SURROUND" AUDIO_CHANNEL_OUT_SURROUND;
    V "AUDIO_CHANNEL_OUT_PENTA" AUDIO_CHANNEL_OUT_PENTA;
    V "AUDIO_CHANNEL_OUT_5POINT1" AUDIO_CHANNEL_OUT_5POINT1;
    V "AUDIO_CHANNEL_OUT_5POINT1_SIDE" AUDIO_CHANNEL_OUT_5POINT1_SIDE;
    V "AUDIO_CHANNEL_OUT_5POINT1POINT2" AUDIO_CHANNEL_OUT_5POINT1POINT2;
    V "AUDIO_CHANNEL_OUT_5POINT1POINT4" AUDIO_CHANNEL_OUT_5POINT1POINT4;
    V "AUDIO_CHANNEL_OUT_6POINT1" AUDIO_CHANNEL_OUT_6POINT1;
    V "AUDIO_CHANNEL_OUT_7POINT1" AUDIO_CHANNEL_OUT_7POINT1;
    V "AUDIO_CHANNEL_OUT_7POINT1POINT2" AUDIO_CHANNEL_OUT_7POINT1POINT2;
    V "AUDIO_CHANNEL_OUT_7POINT1POINT4" AUDIO_CHANNEL_OUT_7POINT1POINT4;
    V "AUDIO_CHANNEL_OUT_MONO_HAPTIC_A" AUDIO_CHANNEL_OUT_MONO_HAPTIC_A;
    V "AUDIO_CHANNEL_OUT_STEREO_HAPTIC_A" AUDIO_CHANNEL_OUT_STEREO_HAPTIC_A;
    V "AUDIO_CHANNEL_OUT_HAPTIC_AB" AUDIO_CHANNEL_OUT_HAPTIC_AB;
    V "AUDIO_CHANNEL_OUT_MONO_HAPTIC_AB" AUDIO_CHANNEL_OUT_MONO_HAPTIC_AB;
    V "AUDIO_CHANNEL_OUT_STEREO_HAPTIC_AB" AUDIO_CHANNEL_OUT_STEREO_HAPTIC_AB ].

Definition AUDIO_CHANNEL_OUT_MASK_LIST_DEF : list entry :=
  AUDIO_CHANNEL_OUT_MASK_LIST_UNIQUE_DEF ++
  [ V "AUDIO_CHANNEL_OUT_5POINT1_BACK" AUDIO_CHANNEL_OUT_5POINT1_BACK;
    V "AUDIO_CHANNEL_OUT_QUAD_BACK" AUDIO_CHANNEL_OUT_QUAD_BACK ].

Definition AUDIO_CHANNEL_IN_MASK_LIST_DEF : list entry :=
  [ V "AUDIO_CHANNEL_IN_MONO" AUDIO_CHANNEL_IN_MONO;
    V "AUDIO_CHANNEL_IN_STEREO" AUDIO_CHANNEL_IN_STEREO;
    V "AUDIO_CHANNEL_IN_FRONT_BACK" AUDIO_CHANNEL_IN_FRONT_BACK;
    V "AUDIO_CHANNEL_IN_6" AUDIO_CHANNEL_IN_6;
    V "AUDIO_CHANNEL_IN_2POINT0POINT2" AUDIO_CHANNEL_IN_2POINT0POINT2;
    V "AUDIO_CHANNEL_IN_2POINT1POINT2" AUDIO_CHANNEL_IN_2POINT1POINT2;
    V "AUDIO_CHANNEL_IN_3POINT0POINT2" AUDIO_CHANNEL_IN_3POINT0POINT2;
    V "AUDIO_CHANNEL_IN_3POINT1POINT2" AUDIO_CHANNEL_IN_3POINT1POINT2;
    V "AUDIO_CHANNEL_IN_5POINT1" AUDIO_CHANNEL_IN_5POINT1;
    V "AUDIO_CHANNEL_IN_VOICE_UPLINK_MONO" AUDIO_CHANNEL_IN_VOICE_UPLINK_MONO;
    V "AUDIO_CHANNEL_IN_VOICE_DNLINK_MONO" AUDIO_CHANNEL_IN_VOICE_DNLINK_MONO;
    V "AUDIO_CHANNEL_IN_VOICE_CALL_MONO" AUDIO_CHANNEL_IN_VOICE_CALL_MONO ].

Definition AUDIO_CHANNEL_INDEX_MASK_LIST_DEF : list entry :=
  [ V "AUDIO_CHANNEL_INDEX_MASK_1" AUDIO_CHANNEL_INDEX_MASK_1;
    V "AUDIO_CHANNEL_INDEX_MASK_2" AUDIO_CHANNEL_INDEX_MASK_2;
    V "AUDIO_CHANNEL_INDEX_MASK_3" AUDIO_CHANNEL_INDEX_MASK_3;
    V "AUDIO_CHANNEL_INDEX_MASK_4" AUDIO_CHANNEL_INDEX_MASK_4;
    V "AUDIO_CHANNEL_INDEX_MASK_5" AUDIO_CHANNEL_INDEX_MASK_5;
    V "AUDIO_CHANNEL_INDEX_MASK_6" AUDIO_CHANNEL_INDEX_MASK_6;
    V "AUDIO_CHANNEL_INDEX_MASK_7" AUDIO_CHANNEL_INDEX_MASK_7;
    V "AUDIO_CHANNEL_INDEX_MASK_8" AUDIO_CHANNEL_INDEX_MASK_8;
    V "AUDIO_CHANNEL_INDEX_MASK_9" AUDIO_CHANNEL_INDEX_MASK_9;
    V "AUDIO_CHANNEL_INDEX_MASK_10" AUDIO_CHANNEL_INDEX_MASK_10;
    V "AUDIO_CHANNEL_INDEX_MASK_11" AUDIO_CHANNEL_INDEX_MASK_11;
    V "AUDIO_CHANNEL_INDEX_MASK_12" AUDIO_CHANNEL_INDEX_MASK_12;
    V "AUDIO_CHANNEL_INDEX_MASK_13" AUDIO_CHANNEL_INDEX_MASK_13;
    V "AUDIO_CHANNEL_INDEX_MASK_14" AUDIO_CHANNEL_INDEX_MASK_14;
    V "AUDIO_CHANNEL_INDEX_MASK_15" AUDIO_CHANNEL_INDEX_MASK_15;
    V "AUDIO_CHANNEL_INDEX_MASK_16" AUDIO_CHANNEL_INDEX_MASK_16;
    V "AUDIO_CHANNEL_INDEX_MASK_17" AUDIO_CHANNEL_INDEX_MASK_17;
    V "AUDIO_CHANNEL_INDEX_MASK_18" AUDIO_CHANNEL_INDEX_MASK_18;
    V "AUDIO_CHANNEL_INDEX_MASK_19" AUDIO_CHANNEL_INDEX_MASK_19;
    V "AUDIO_CHANNEL_INDEX_MASK_20" AUDIO_CHANNEL_INDEX_MASK_20;
    V "AUDIO_CHANNEL_INDEX_MASK_21" AUDIO_CHANNEL_INDEX_MASK_21;
    V "AUDIO_CHANNEL_INDEX_MASK_22" AUDIO_CHANNEL_INDEX_MASK_22;
    V "AUDIO_CHANNEL_INDEX_MASK_23" AUDIO_CHANNEL_INDEX_MASK_23;
    V "AUDIO_CHANNEL_INDEX_MASK_24" AUDIO_CHANNEL_INDEX_MASK_24 ].

Definition AUDIO_CHANNEL_OUT_ALL : Z :=
  bit_mask_of AUDIO_CHANNEL_OUT_DISCRETE_CHANNEL_LIST_DEF.
Definition AUDIO_CHANNEL_HAPTIC_ALL : Z :=
  AUDIO_CHANNEL_OUT_HAPTIC_B .| AUDIO_CHANNEL_OUT_HAPTIC_A.
Definition AUDIO_CHANNEL_IN_ALL : Z :=
  bit_mask_of AUDIO_CHANNEL_IN_DISCRETE_CHANNEL_LIST_DEF.
(** Part of the enum, but not a valid mask: it appears in no list. *)
Definition AUDIO_CHANNEL_INVALID : Z := 0xC0000000.

(** Flag values of input and output channels intersect, so the conversion
    to a string is defined once per direction. *)
Definition audio_channel_out_mask_to_string (t : Z) : string :=
  stringify_switch
    (AUDIO_CHANNEL_IN_OUT_MASK_LIST_DEF ++
     AUDIO_CHANNEL_OUT_MASK_LIST_UNIQUE_DEF) t.

Definition audio_channel_in_mask_to_string (t : Z) : string :=
  stringify_switch
    (AUDIO_CHANNEL_IN_OUT_MASK_LIST_DEF ++
     AUDIO_CHANNEL_IN_MASK_LIST_DEF) t.

Definition audio_channel_index_mask_to_string (t : Z) : string :=
  stringify_switch
    (AUDIO_CHANNEL_IN_OUT_MASK_LIST_DEF ++
     AUDIO_CHANNEL_INDEX_MASK_LIST_DEF) t.

(** Parsing is only done for masks, not for individual channels. *)
Definition audio_channel_mask_from_string (s : string) (t : Z) : bool * Z :=
  parse_chain
    (AUDIO_CHANNEL_IN_OUT_MASK_LIST_DEF ++
     AUDIO_CHANNEL_OUT_MASK_LIST_DEF ++
     AUDIO_CHANNEL_IN_MASK_LIST_DEF ++
     AUDIO_CHANNEL_INDEX_MASK_LIST_DEF) s t.


(** ** Content type *)

Definition AUDIO_CONTENT_TYPE_UNKNOWN : Z := 0.
Definition AUDIO_CONTENT_TYPE_SPEECH : Z := AUDIO_CONTENT_TYPE_UNKNOWN + 1.
Definition AUDIO_CONTENT_TYPE_MUSIC : Z := AUDIO_CONTENT_TYPE_SPEECH + 1.
Definition AUDIO_CONTENT_TYPE_MOVIE : Z := AUDIO_CONTENT_TYPE_MUSIC + 1.
Definition AUDIO_CONTENT_TYPE_SONIFICATION : Z := AUDIO_CONTENT_TYPE_MOVIE + 1.

Definition AUDIO_CONTENT_TYPE_LIST_DEF : list entry :=
  [ V "AUDIO_CONTENT_TYPE_UNKNOWN" AUDIO_CONTENT_TYPE_UNKNOWN;
    V "AUDIO_CONTENT_TYPE_SPEECH" AUDIO_CONTENT_TYPE_SPEECH;
    V "AUDIO_CONTENT_TYPE_MUSIC" AUDIO_CONTENT_TYPE_MUSIC;
    V "AUDIO_CONTENT_TYPE_MOVIE" AUDIO_CONTENT_TYPE_MOVIE;
    V "AUDIO_CONTENT_TYPE_SONIFICATION" AUDIO_CONTENT_TYPE_SONIFICATION ].

Definition audio_content_type_to_string (t : Z) : string :=
  stringify_switch AUDIO_CONTENT_TYPE_LIST_DEF t.

Definition audio_content_type_from_string (s : string) (t : Z) : bool * Z :=
  parse_chain AUDIO_CONTENT_TYPE_LIST_DEF s t.


(** ** Devices *)

(** Flags that never appear on their own. *)
Definition AUDIO_DEVICE_BIT_IN : Z := 0x80000000.
Definition AUDIO_DEVICE_BIT_DEFAULT : Z := 0x40000000.

Definition AUDIO_DEVICE_NONE : Z := 0x0.
Definition AUDIO_DEVICE_OUT_EARPIECE : Z := 0x1.
Definition AUDIO_DEVICE_OUT_SPEAKER : Z := 0x2.
Definition AUDIO_DEVICE_OUT_WIRED_HEADSET : Z := 0x4.
Definition AUDIO_DEVICE_OUT_WIRED_HEADPHONE : Z := 0x8.
Definition AUDIO_DEVICE_OUT_BLUETOOTH_SCO : Z := 0x10.
Definition AUDIO_DEVICE_OUT_BLUETOOTH_SCO_HEADSET : Z := 0x20.
Definition AUDIO_DEVICE_OUT_BLUETOOTH_SCO_CARKIT : Z := 0x40.
Definition AUDIO_DEVICE_OUT_BLUETOOTH_A2DP : Z := 0x80.
Definition AUDIO_DEVICE_OUT_BLUETOOTH_A2DP_HEADPHONES : Z := 0x100.
Definition AUDIO_DEVICE_OUT_BLUETOOTH_A2DP_SPEAKER : Z := 0x200.
Definition AUDIO_DEVICE_OUT_HDMI : Z := 0x400.
Definition AUDIO_DEVICE_OUT_ANLG_DOCK_HEADSET : Z := 0x800.
Definition AUDIO_DEVICE_OUT_DGTL_DOCK_HEADSET : Z := 0x1000.
Definition AUDIO_DEVICE_OUT_USB_ACCESSORY : Z := 0x2000.
Definition AUDIO_DEVICE_OUT_USB_DEVICE : Z := 0x4000.
Definition AUDIO_DEVICE_OUT_REMOTE_SUBMIX : Z := 0x8000.
Definition AUDIO_DEVICE_OUT_TELEPHONY_TX : Z := 0x10000.
Definition AUDIO_DEVICE_OUT_LINE : Z := 0x20000.
Definition AUDIO_DEVICE_OUT_HDMI_ARC : Z := 0x40000.
Definition AUDIO_DEVICE_OUT_SPDIF : Z := 0x80000.
Definition AUDIO_DEVICE_OUT_FM : Z := 0x100000.
Definition AUDIO_DEVICE_OUT_AUX_LINE : Z := 0x200000.
Definition AUDIO_DEVICE_OUT_SPEAKER_SAFE : Z := 0x400000.
Definition AUDIO_DEVICE_OUT_IP : Z := 0x800000.
Definition AUDIO_DEVICE_OUT_BUS : Z := 0x1000000.
Definition AUDIO_DEVICE_OUT_PROXY : Z := 0x2000000.
Definition AUDIO_DEVICE_OUT_USB_HEADSET : Z := 0x4000000.
Definition AUDIO_DEVICE_OUT_HEARING_AID : Z := 0x8000000.
Definition AUDIO_DEVICE_OUT_ECHO_CANCELLER : Z := 0x10000000.
Definition AUDIO_DEVICE_OUT_BLE_HEADSET : Z := 0x20000000.
Definition AUDIO_DEVICE_OUT_BLE_SPEAKER : Z := 0x20000001.
Definition AUDIO_DEVICE_OUT_DEFAULT : Z := AUDIO_DEVICE_BIT_DEFAULT.
Definition AUDIO_DEVICE_IN_COMMUNICATION : Z := AUDIO_DEVICE_BIT_IN .| 0x1.
Definition AUDIO_DEVICE_IN_AMBIENT : Z := AUDIO_DEVICE_BIT_IN .| 0x2.
Definition AUDIO_DEVICE_IN_BUILTIN_MIC : Z := AUDIO_DEVICE_BIT_IN .| 0x4.
Definition AUDIO_DEVICE_IN_BLUETOOTH_SCO_HEADSET : Z := AUDIO_DEVICE_BIT_IN .| 0x8.
Definition AUDIO_DEVICE_IN_WIRED_HEADSET : Z := AUDIO_DEVICE_BIT_IN .| 0x10.
Definition AUDIO_DEVICE_IN_HDMI : Z := AUDIO_DEVICE_BIT_IN .| 0x20.
Definition AUDIO_DEVICE_IN_TELEPHONY_RX : Z := AUDIO_DEVICE_BIT_IN .| 0x40.
Definition AUDIO_DEVICE_IN_BACK_MIC : Z := AUDIO_DEVICE_BIT_IN .| 0x80.
Definition AUDIO_DEVICE_IN_REMOTE_SUBMIX : Z := AUDIO_DEVICE_BIT_IN .| 0x100.
Definition AUDIO_DEVICE_IN_ANLG_DOCK_HEADSET : Z := AUDIO_DEVICE_BIT_IN .| 0x200.
Definition AUDIO_DEVICE_IN_DGTL_DOCK_HEADSET : Z := AUDIO_DEVICE_BIT_IN .| 0x400.
Definition AUDIO_DEVICE_IN_USB_ACCESSORY : Z := AUDIO_DEVICE_BIT_IN .| 0x800.
Definition AUDIO_DEVICE_IN_USB_DEVICE : Z := AUDIO_DEVICE_BIT_IN .| 0x1000.
Definition AUDIO_DEVICE_IN_FM_TUNER : Z := AUDIO_DEVICE_BIT_IN .| 0x2000.
Definition AUDIO_DEVICE_IN_TV_TUNER : Z := AUDIO_DEVICE_BIT_IN .| 0x4000.
Definition AUDIO_DEVICE_IN_LINE : Z := AUDIO_DEVICE_BIT_IN .| 0x8000.
Definition AUDIO_DEVICE_IN_SPDIF : Z := AUDIO_DEVICE_BIT_IN .| 0x10000.
Definition AUDIO_DEVICE_IN_BLUETOOTH_A2DP : Z := AUDIO_DEVICE_BIT_IN .| 0x20000.
Definition AUDIO_DEVICE_IN_LOOPBACK : Z := AUDIO_DEVICE_BIT_IN .| 0x40000.
Definition AUDIO_DEVICE_IN_IP : Z := AUDIO_DEVICE_BIT_IN .| 0x80000.
Definition AUDIO_DEVICE_IN_BUS : Z := AUDIO_DEVICE_BIT_IN .| 0x100000.
Definition AUDIO_DEVICE_IN_PROXY : Z := AUDIO_DEVICE_BIT_IN .| 0x1000000.
Definition AUDIO_DEVICE_IN_USB_HEADSET : Z := AUDIO_DEVICE_BIT_IN .| 0x2000000.
Definition AUDIO_DEVICE_IN_BLUETOOTH_BLE : Z := AUDIO_DEVICE_BIT_IN .| 0x4000000.
Definition AUDIO_DEVICE_IN_HDMI_ARC : Z := AUDIO_DEVICE_BIT_IN .| 0x8000000.
Definition AUDIO_DEVICE_IN_ECHO_REFERENCE : Z := AUDIO_DEVICE_BIT_IN .| 0x10000000.
Definition AUDIO_DEVICE_IN_BLE_HEADSET : Z := AUDIO_DEVICE_BIT_IN .| 0x20000000.
Definition AUDIO_DEVICE_IN_DEFAULT : Z := AUDIO_DEVICE_BIT_IN .| AUDIO_DEVICE_BIT_DEFAULT.

Definition AUDIO_DEVICE_OUT_AUX_DIGITAL : Z := AUDIO_DEVICE_OUT_HDMI.
Definition AUDIO_DEVICE_OUT_STUB : Z := AUDIO_DEVICE_OUT_DEFAULT.
Definition AUDIO_DEVICE_IN_VOICE_CALL : Z := AUDIO_DEVICE_IN_TELEPHONY_RX.
Definition AUDIO_DEVICE_IN_AUX_DIGITAL : Z := AUDIO_DEVICE_IN_HDMI.
Definition AUDIO_DEVICE_IN_STUB : Z := AUDIO_DEVICE_IN_DEFAULT.

Definition AUDIO_DEVICE_LIST_UNIQUE_DEF : list entry :=
  [ V "AUDIO_DEVICE_NONE" AUDIO_DEVICE_NONE;
    V "AUDIO_DEVICE_OUT_EARPIECE" AUDIO_DEVICE_OUT_EARPIECE;
    V "AUDIO_DEVICE_OUT_SPEAKER" AUDIO_DEVICE_OUT_SPEAKER;
    V "AUDIO_DEVICE_OUT_WIRED_HEADSET" AUDIO_DEVICE_OUT_WIRED_HEADSET;
    V "AUDIO_DEVICE_OUT_WIRED_HEADPHONE" AUDIO_DEVICE_OUT_WIRED_HEADPHONE;
    V "AUDIO_DEVICE_OUT_BLUETOOTH_SCO" AUDIO_DEVICE_OUT_BLUETOOTH_SCO;
    V "AUDIO_DEVICE_OUT_BLUETOOTH_SCO_HEADSET" AUDIO_DEVICE_OUT_BLUETOOTH_SCO_HEADSET;
    V "AUDIO_DEVICE_OUT_BLUETOOTH_SCO_CARKIT" AUDIO_DEVICE_OUT_BLUETOOTH_SCO_CARKIT;
    V "AUDIO_DEVICE_OUT_BLUETOOTH_A2DP" AUDIO_DEVICE_OUT_BLUETOOTH_A2DP;
    V "AUDIO_DEVICE_OUT_BLUETOOTH_A2DP_HEADPHONES" AUDIO_DEVICE_OUT_BLUETOOTH_A2DP_HEADPHONES;
    V "AUDIO_DEVICE_OUT_BLUETOOTH_A2DP_SPEAKER" AUDIO_DEVICE_OUT_BLUETOOTH_A2DP_SPEAKER;
    V "AUDIO_DEVICE_OUT_HDMI" AUDIO_DEVICE_OUT_HDMI;
    V "AUDIO_DEVICE_OUT_ANLG_DOCK_HEADSET" AUDIO_DEVICE_OUT_ANLG_DOCK_HEADSET;
    V "AUDIO_DEVICE_OUT_DGTL_DOCK_HEADSET" AUDIO_DEVICE_OUT_DGTL_DOCK_HEADSET;
    V "AUDIO_DEVICE_OUT_USB_ACCESSORY" AUDIO_DEVICE_OUT_USB_ACCESSORY;
    V "AUDIO_DEVICE_OUT_USB_DEVICE" AUDIO_DEVICE_OUT_USB_DEVICE;
    V "AUDIO_DEVICE_OUT_REMOTE_SUBMIX" AUDIO_DEVICE_OUT_REMOTE_SUBMIX;
    V "AUDIO_DEVICE_OUT_TELEPHONY_TX" AUDIO_DEVICE_OUT_TELEPHONY_TX;
    V "AUDIO_DEVICE_OUT_LINE" AUDIO_DEVICE_OUT_LINE;
    V "AUDIO_DEVICE_OUT_HDMI_ARC" AUDIO_DEVICE_OUT_HDMI_ARC;
    V "AUDIO_DEVICE_OUT_SPDIF" AUDIO_DEVICE_OUT_SPDIF;
    V "AUDIO_DEVICE_OUT_FM" AUDIO_DEVICE_OUT_FM;
    V "AUDIO_DEVICE_OUT_AUX_LINE" AUDIO_DEVICE_OUT_AUX_LINE;
    V "AUDIO_DEVICE_OUT_SPEAKER_SAFE" AUDIO_DEVICE_OUT_SPEAKER_SAFE;
    V "AUDIO_DEVICE_OUT_IP" AUDIO_DEVICE_OUT_IP;
    V "AUDIO_DEVICE_OUT_BUS" AUDIO_DEVICE_OUT_BUS;
    V "AUDIO_DEVICE_OUT_PROXY" AUDIO_DEVICE_OUT_PROXY;
    V "AUDIO_DEVICE_OUT_USB_HEADSET" AUDIO_DEVICE_OUT_USB_HEADSET;
    V "AUDIO_DEVICE_OUT_HEARING_AID" AUDIO_DEVICE_OUT_HEARING_AID;
    V "AUDIO_DEVICE_OUT_ECHO_CANCELLER" AUDIO_DEVICE_OUT_ECHO_CANCELLER;
    V "AUDIO_DEVICE_OUT_BLE_HEADSET" AUDIO_DEVICE_OUT_BLE_HEADSET;
    V "AUDIO_DEVICE_OUT_BLE_SPEAKER" AUDIO_DEVICE_OUT_BLE_SPEAKER;
    V "AUDIO_DEVICE_OUT_DEFAULT" AUDIO_DEVICE_OUT_DEFAULT;
    V "AUDIO_DEVICE_IN_COMMUNICATION" AUDIO_DEVICE_IN_COMMUNICATION;
    V "AUDIO_DEVICE_IN_AMBIENT" AUDIO_DEVICE_IN_AMBIENT;
    V "AUDIO_DEVICE_IN_BUILTIN_MIC" AUDIO_DEVICE_IN_BUILTIN_MIC;
    V "AUDIO_DEVICE_IN_BLUETOOTH_SCO_HEADSET" AUDIO_DEVICE_IN_BLUETOOTH_SCO_HEADSET;
    V "AUDIO_DEVICE_IN_WIRED_HEADSET" AUDIO_DEVICE_IN_WIRED_HEADSET;
    V "AUDIO_DEVICE_IN_HDMI" AUDIO_DEVICE_IN_HDMI;
    V "AUDIO_DEVICE_IN_TELEPHONY_RX" AUDIO_DEVICE_IN_TELEPHONY_RX;
    V "AUDIO_DEVICE_IN_BACK_MIC" AUDIO_DEVICE_IN_BACK_MIC;
    V "AUDIO_DEVICE_IN_REMOTE_SUBMIX" AUDIO_DEVICE_IN_REMOTE_SUBMIX;
    V "AUDIO_DEVICE_IN_ANLG_DOCK_HEADSET" AUDIO_DEVICE_IN_ANLG_DOCK_HEADSET;
    V "AUDIO_DEVICE_IN_DGTL_DOCK_HEADSET" AUDIO_DEVICE_IN_DGTL_DOCK_HEADSET;
    V "AUDIO_DEVICE_IN_USB_ACCESSORY" AUDIO_DEVICE_IN_USB_ACCESSORY;
    V "AUDIO_DEVICE_IN_USB_DEVICE" AUDIO_DEVICE_IN_USB_DEVICE;
    V "AUDIO_DEVICE_IN_FM_TUNER" AUDIO_DEVICE_IN_FM_TUNER;
    V "AUDIO_DEVICE_IN_TV_TUNER" AUDIO_DEVICE_IN_TV_TUNER;
    V "AUDIO_DEVICE_IN_LINE" AUDIO_DEVICE_IN_LINE;
    V "AUDIO_DEVICE_IN_SPDIF" AUDIO_DEVICE_IN_SPDIF;
    V "AUDIO_DEVICE_IN_BLUETOOTH_A2DP" AUDIO_DEVICE_IN_BLUETOOTH_A2DP;
    V "AUDIO_DEVICE_IN_LOOPBACK" AUDIO_DEVICE_IN_LOOPBACK;
    V "AUDIO_DEVICE_IN_IP" AUDIO_DEVICE_IN_IP;
    V "AUDIO_DEVICE_IN_BUS" AUDIO_DEVICE_IN_BUS;
    V "AUDIO_DEVICE_IN_PROXY" AUDIO_DEVICE_IN_PROXY;
    V "AUDIO_DEVICE_IN_USB_HEADSET" AUDIO_DEVICE_IN_USB_HEADSET;
    V "AUDIO_DEVICE_IN_BLUETOOTH_BLE" AUDIO_DEVICE_IN_BLUETOOTH_BLE;
    V "AUDIO_DEVICE_IN_HDMI_ARC" AUDIO_DEVICE_IN_HDMI_ARC;
    V "AUDIO_DEVICE_IN_ECHO_REFERENCE" AUDIO_DEVICE_IN_ECHO_REFERENCE;
    V "AUDIO_DEVICE_IN_BLE_HEADSET" AUDIO_DEVICE_IN_BLE_HEADSET;
    V "AUDIO_DEVICE_IN_DEFAULT" AUDIO_DEVICE_IN_DEFAULT ].

Definition AUDIO_DEVICE_LIST_DEF : list entry :=
  AUDIO_DEVICE_LIST_UNIQUE_DEF ++
  [ V "AUDIO_DEVICE_OUT_AUX_DIGITAL" AUDIO_DEVICE_OUT_AUX_DIGITAL;
    V "AUDIO_DEVICE_OUT_STUB" AUDIO_DEVICE_OUT_STUB;
    V "AUDIO_DEVICE_IN_VOICE_CALL" AUDIO_DEVICE_IN_VOICE_CALL;
    V "AUDIO_DEVICE_IN_AUX_DIGITAL" AUDIO_DEVICE_IN_AUX_DIGITAL;
    V "AUDIO_DEVICE_IN_STUB" AUDIO_DEVICE_IN_STUB ].

Definition audio_device_to_string (t : Z) : string :=
  stringify_switch AUDIO_DEVICE_LIST_UNIQUE_DEF t.

Definition audio_device_from_string (s : string) (t : Z) : bool * Z :=
  parse_chain AUDIO_DEVICE_LIST_DEF s t.


(** ** Output flags *)

Definition AUDIO_OUTPUT_FLAG_NONE : Z := 0x0.
Definition AUDIO_OUTPUT_FLAG_DIRECT : Z := 0x1.
Definition AUDIO_OUTPUT_FLAG_PRIMARY : Z := 0x2.
Definition AUDIO_OUTPUT_FLAG_FAST : Z := 0x4.
Definition AUDIO_OUTPUT_FLAG_DEEP_BUFFER : Z := 0x8.
Definition AUDIO_OUTPUT_FLAG_COMPRESS_OFFLOAD : Z := 0x10.
Definition AUDIO_OUTPUT_FLAG_NON_BLOCKING : Z := 0x20.
Definition AUDIO_OUTPUT_FLAG_HW_AV_SYNC : Z := 0x40.
Definition AUDIO_OUTPUT_FLAG_TTS : Z := 0x80.
Definition AUDIO_OUTPUT_FLAG_RAW : Z := 0x100.
Definition AUDIO_OUTPUT_FLAG_SYNC : Z := 0x200.
Definition AUDIO_OUTPUT_FLAG_IEC958_NONAUDIO : Z := 0x400.
Definition AUDIO_OUTPUT_FLAG_DIRECT_PCM : Z := 0x2000.
Definition AUDIO_OUTPUT_FLAG_MMAP_NOIRQ : Z := 0x4000.
Definition AUDIO_OUTPUT_FLAG_VOIP_RX : Z := 0x8000.
Definition AUDIO_OUTPUT_FLAG_INCALL_MUSIC : Z := 0x10000.
Definition AUDIO_OUTPUT_FLAG_GAPLESS_OFFLOAD : Z := 0x20000.

Definition AUDIO_OUTPUT_FLAG_LIST_DEF : list entry :=
  [ V "AUDIO_OUTPUT_FLAG_NONE" AUDIO_OUTPUT_FLAG_NONE;
    V "AUDIO_OUTPUT_FLAG_DIRECT" AUDIO_OUTPUT_FLAG_DIRECT;
    V "AUDIO_OUTPUT_FLAG_PRIMARY" AUDIO_OUTPUT_FLAG_PRIMARY;
    V "AUDIO_OUTPUT_FLAG_FAST" AUDIO_OUTPUT_FLAG_FAST;
    V "AUDIO_OUTPUT_FLAG_DEEP_BUFFER" AUDIO_OUTPUT_FLAG_DEEP_BUFFER;
    V "AUDIO_OUTPUT_FLAG_COMPRESS_OFFLOAD" AUDIO_OUTPUT_FLAG_COMPRESS_OFFLOAD;
    V "AUDIO_OUTPUT_FLAG_NON_BLOCKING" AUDIO_OUTPUT_FLAG_NON_BLOCKING;
    V "AUDIO_OUTPUT_FLAG_HW_AV_SYNC" AUDIO_OUTPUT_FLAG_HW_AV_SYNC;
    V "AUDIO_OUTPUT_FLAG_TTS" AUDIO_OUTPUT_FLAG_TTS;
    V "AUDIO_OUTPUT_FLAG_RAW" AUDIO_OUTPUT_FLAG_RAW;
    V "AUDIO_OUTPUT_FLAG_SYNC" AUDIO_OUTPUT_FLAG_SYNC;
    V "AUDIO_OUTPUT_FLAG_IEC958_NONAUDIO" AUDIO_OUTPUT_FLAG_IEC958_NONAUDIO;
    V "AUDIO_OUTPUT_FLAG_DIRECT_PCM" AUDIO_OUTPUT_FLAG_DIRECT_PCM;
    V "AUDIO_OUTPUT_FLAG_MMAP_NOIRQ" AUDIO_OUTPUT_FLAG_MMAP_NOIRQ;
    V "AUDIO_OUTPUT_FLAG_VOIP_RX" AUDIO_OUTPUT_FLAG_VOIP_RX;
    V "AUDIO_OUTPUT_FLAG_INCALL_MUSIC" AUDIO_OUTPUT_FLAG_INCALL_MUSIC;
    V "AUDIO_OUTPUT_FLAG_GAPLESS_OFFLOAD" AUDIO_OUTPUT_FLAG_GAPLESS_OFFLOAD ].

Definition audio_output_flag_to_string (t : Z) : string :=
  stringify_switch AUDIO_OUTPUT_FLAG_LIST_DEF t.

Definition audio_output_flag_from_string (s : string) (t : Z) : bool * Z :=
  parse_chain AUDIO_OUTPUT_FLAG_LIST_DEF s t.


(** ** Input flags *)

Definition AUDIO_INPUT_FLAG_NONE : Z := 0x0.
Definition AUDIO_INPUT_FLAG_FAST : Z := 0x1.
Definition AUDIO_INPUT_FLAG_HW_HOTWORD : Z := 0x2.
Definition AUDIO_INPUT_FLAG_RAW : Z := 0x4.
Definition AUDIO_INPUT_FLAG_SYNC : Z := 0x8.
Definition AUDIO_INPUT_FLAG_MMAP_NOIRQ : Z := 0x10.
Definition AUDIO_INPUT_FLAG_VOIP_TX : Z := 0x20.
Definition AUDIO_INPUT_FLAG_HW_AV_SYNC : Z := 0x40.
Definition AUDIO_INPUT_FLAG_DIRECT : Z := 0x80.

Definition AUDIO_INPUT_FLAG_LIST_DEF : list entry :=
  [ V "AUDIO_INPUT_FLAG_NONE" AUDIO_INPUT_FLAG_NONE;
    V "AUDIO_INPUT_FLAG_FAST" AUDIO_INPUT_FLAG_FAST;
    V "AUDIO_INPUT_FLAG_HW_HOTWORD" AUDIO_INPUT_FLAG_HW_HOTWORD;
    V "AUDIO_INPUT_FLAG_RAW" AUDIO_INPUT_FLAG_RAW;
    V "AUDIO_INPUT_FLAG_SYNC" AUDIO_INPUT_FLAG_SYNC;
    V "AUDIO_INPUT_FLAG_MMAP_NOIRQ" AUDIO_INPUT_FLAG_MMAP_NOIRQ;
    V "AUDIO_INPUT_FLAG_VOIP_TX" AUDIO_INPUT_FLAG_VOIP_TX;
    V "AUDIO_INPUT_FLAG_HW_AV_SYNC" AUDIO_INPUT_FLAG_HW_AV_SYNC;
    V "AUDIO_INPUT_FLAG_DIRECT" AUDIO_INPUT_FLAG_DIRECT ].

Definition audio_input_flag_to_string (t : Z) : string :=
  stringify_switch AUDIO_INPUT_FLAG_LIST_DEF t.

Definition audio_input_flag_from_string (s : string) (t : Z) : bool * Z :=
  parse_chain AUDIO_INPUT_FLAG_LIST_DEF s t.


(** ** Formats *)

(** Building blocks of the format values: a main class in the high byte and
    a sub-type in the low three bytes. *)
Definition AUDIO_FORMAT_MAIN_MASK : Z := 0xFF000000.
Definition AUDIO_FORMAT_SUB_MASK : Z := 0x00FFFFFF.
Definition AUDIO_FORMAT_PCM_MAIN : Z := 0.
Definition AUDIO_FORMAT_PCM_SUB_16_BIT : Z := 0x1.
Definition AUDIO_FORMAT_PCM_SUB_8_BIT : Z := 0x2.
Definition AUDIO_FORMAT_PCM_SUB_32_BIT : Z := 0x3.
Definition AUDIO_FORMAT_PCM_SUB_8_24_BIT : Z := 0x4.
Definition AUDIO_FORMAT_PCM_SUB_FLOAT : Z := 0x5.
Definition AUDIO_FORMAT_PCM_SUB_24_BIT_PACKED : Z := 0x6.
Definition AUDIO_FORMAT_AAC_SUB_MAIN : Z := 0x1.
Definition AUDIO_FORMAT_AAC_SUB_LC : Z := 0x2.
Definition AUDIO_FORMAT_AAC_SUB_SSR : Z := 0x4.
Definition AUDIO_FORMAT_AAC_SUB_LTP : Z := 0x8.
Definition AUDIO_FORMAT_AAC_SUB_HE_V1 : Z := 0x10.
Definition AUDIO_FORMAT_AAC_SUB_SCALABLE : Z := 0x20.
Definition AUDIO_FORMAT_AAC_SUB_ERLC : Z := 0x40.
Definition AUDIO_FORMAT_AAC_SUB_LD : Z := 0x80.
Definition AUDIO_FORMAT_AAC_SUB_HE_V2 : Z := 0x100.
Definition AUDIO_FORMAT_AAC_SUB_ELD : Z := 0x200.
Definition AUDIO_FORMAT_AAC_SUB_XHE : Z := 0x300.
Definition AUDIO_FORMAT_E_AC3_SUB_JOC : Z := 0x1.
Definition AUDIO_FORMAT_MAT_SUB_1_0 : Z := 0x1.
Definition AUDIO_FORMAT_MAT_SUB_2_0 : Z := 0x2.
Definition AUDIO_FORMAT_MAT_SUB_2_1 : Z := 0x3.
Definition AUDIO_FORMAT_MPEGH_SUB_BL_L3 : Z := 0x13.
Definition AUDIO_FORMAT_MPEGH_SUB_BL_L4 : Z := 0x14.
Definition AUDIO_FORMAT_MPEGH_SUB_LC_L3 : Z := 0x23.
Definition AUDIO_FORMAT_MPEGH_SUB_LC_L4 : Z := 0x24.

Definition AUDIO_FORMAT_DEFAULT : Z := AUDIO_FORMAT_PCM_MAIN.
Definition AUDIO_FORMAT_PCM_16_BIT : Z := AUDIO_FORMAT_PCM_MAIN .| AUDIO_FORMAT_PCM_SUB_16_BIT.
Definition AUDIO_FORMAT_PCM_8_BIT : Z := AUDIO_FORMAT_PCM_MAIN .| AUDIO_FORMAT_PCM_SUB_8_BIT.
Definition AUDIO_FORMAT_PCM_32_BIT : Z := AUDIO_FORMAT_PCM_MAIN .| AUDIO_FORMAT_PCM_SUB_32_BIT.
Definition AUDIO_FORMAT_PCM_8_24_BIT : Z := AUDIO_FORMAT_PCM_MAIN .| AUDIO_FORMAT_PCM_SUB_8_24_BIT.
Definition AUDIO_FORMAT_PCM_FLOAT : Z := AUDIO_FORMAT_PCM_MAIN .| AUDIO_FORMAT_PCM_SUB_FLOAT.
Definition AUDIO_FORMAT_PCM_24_BIT_PACKED : Z := AUDIO_FORMAT_PCM_MAIN .| AUDIO_FORMAT_PCM_SUB_24_BIT_PACKED.
Definition AUDIO_FORMAT_MP3 : Z := 0x01000000.
Definition AUDIO_FORMAT_AMR_NB : Z := 0x02000000.
Definition AUDIO_FORMAT_AMR_WB : Z := 0x03000000.
Definition AUDIO_FORMAT_AAC : Z := 0x04000000.
Definition AUDIO_FORMAT_AAC_MAIN : Z := AUDIO_FORMAT_AAC .| AUDIO_FORMAT_AAC_SUB_MAIN.
Definition AUDIO_FORMAT_AAC_LC : Z := AUDIO_FORMAT_AAC .| AUDIO_FORMAT_AAC_SUB_LC.
Definition AUDIO_FORMAT_AAC_SSR : Z := AUDIO_FORMAT_AAC .| AUDIO_FORMAT_AAC_SUB_SSR.
Definition AUDIO_FORMAT_AAC_LTP : Z := AUDIO_FORMAT_AAC .| AUDIO_FORMAT_AAC_SUB_LTP.
Definition AUDIO_FORMAT_AAC_HE_V1 : Z := AUDIO_FORMAT_AAC .| AUDIO_FORMAT_AAC_SUB_HE_V1.
Definition AUDIO_FORMAT_AAC_SCALABLE : Z := AUDIO_FORMAT_AAC .| AUDIO_FORMAT_AAC_SUB_SCALABLE.
Definition AUDIO_FORMAT_AAC_ERLC : Z := AUDIO_FORMAT_AAC .| AUDIO_FORMAT_AAC_SUB_ERLC.
Definition AUDIO_FORMAT_AAC_LD : Z := AUDIO_FORMAT_AAC .| AUDIO_FORMAT_AAC_SUB_LD.
Definition AUDIO_FORMAT_AAC_HE_V2 : Z := AUDIO_FORMAT_AAC .| AUDIO_FORMAT_AAC_SUB_HE_V2.
Definition AUDIO_FORMAT_AAC_ELD : Z := AUDIO_FORMAT_AAC .| AUDIO_FORMAT_AAC_SUB_ELD.
Definition AUDIO_FORMAT_AAC_XHE : Z := AUDIO_FORMAT_AAC .| AUDIO_FORMAT_AAC_SUB_XHE.
Definition AUDIO_FORMAT_HE_AAC_V1 : Z := 0x05000000.
Definition AUDIO_FORMAT_HE_AAC_V2 : Z := 0x06000000.
Definition AUDIO_FORMAT_VORBIS : Z := 0x07000000.
Definition AUDIO_FORMAT_OPUS : Z := 0x08000000.
Definition AUDIO_FORMAT_AC3 : Z := 0x09000000.
Definition AUDIO_FORMAT_E_AC3 : Z := 0x0A000000.
Definition AUDIO_FORMAT_E_AC3_JOC : Z := AUDIO_FORMAT_E_AC3 .| AUDIO_FORMAT_E_AC3_SUB_JOC.
Definition AUDIO_FORMAT_DTS : Z := 0x0B000000.
Definition AUDIO_FORMAT_DTS_HD : Z := 0x0C000000.
Definition AUDIO_FORMAT_IEC61937 : Z := 0x0D000000.
Definition AUDIO_FORMAT_DOLBY_TRUEHD : Z := 0x0E000000.
Definition AUDIO_FORMAT_EVRC : Z := 0x10000000.
Definition AUDIO_FORMAT_EVRCB : Z := 0x11000000.
Definition AUDIO_FORMAT_EVRCWB : Z := 0x12000000.
Definition AUDIO_FORMAT_EVRCNW : Z := 0x13000000.
Definition AUDIO_FORMAT_AAC_ADIF : Z := 0x14000000.
Definition AUDIO_FORMAT_WMA : Z := 0x15000000.
Definition AUDIO_FORMAT_WMA_PRO : Z := 0x16000000.
Definition AUDIO_FORMAT_AMR_WB_PLUS : Z := 0x17000000.
Definition AUDIO_FORMAT_MP2 : Z := 0x18000000.
Definition AUDIO_FORMAT_QCELP : Z := 0x19000000.
Definition AUDIO_FORMAT_DSD : Z := 0x1A000000.
Definition AUDIO_FORMAT_FLAC : Z := 0x1B000000.
Definition AUDIO_FORMAT_ALAC : Z := 0x1C000000.
Definition AUDIO_FORMAT_APE : Z := 0x1D000000.
Definition AUDIO_FORMAT_AAC_ADTS : Z := 0x1E000000.
Definition AUDIO_FORMAT_AAC_ADTS_MAIN : Z := AUDIO_FORMAT_AAC_ADTS .| AUDIO_FORMAT_AAC_SUB_MAIN.
Definition AUDIO_FORMAT_AAC_ADTS_LC : Z := AUDIO_FORMAT_AAC_ADTS .| AUDIO_FORMAT_AAC_SUB_LC.
Definition AUDIO_FORMAT_AAC_ADTS_SSR : Z := AUDIO_FORMAT_AAC_ADTS .| AUDIO_FORMAT_AAC_SUB_SSR.
Definition AUDIO_FORMAT_AAC_ADTS_LTP : Z := AUDIO_FORMAT_AAC_ADTS .| AUDIO_FORMAT_AAC_SUB_LTP.
Definition AUDIO_FORMAT_AAC_ADTS_HE_V1 : Z := AUDIO_FORMAT_AAC_ADTS .| AUDIO_FORMAT_AAC_SUB_HE_V1.
Definition AUDIO_FORMAT_AAC_ADTS_SCALABLE : Z := AUDIO_FORMAT_AAC_ADTS .| AUDIO_FORMAT_AAC_SUB_SCALABLE.
Definition AUDIO_FORMAT_AAC_ADTS_ERLC : Z := AUDIO_FORMAT_AAC_ADTS .| AUDIO_FORMAT_AAC_SUB_ERLC.
Definition AUDIO_FORMAT_AAC_ADTS_LD : Z := AUDIO_FORMAT_AAC_ADTS .| AUDIO_FORMAT_AAC_SUB_LD.
Definition AUDIO_FORMAT_AAC_ADTS_HE_V2 : Z := AUDIO_FORMAT_AAC_ADTS .| AUDIO_FORMAT_AAC_SUB_HE_V2.
Definition AUDIO_FORMAT_AAC_ADTS_ELD : Z := AUDIO_FORMAT_AAC_ADTS .| AUDIO_FORMAT_AAC_SUB_ELD.
Definition AUDIO_FORMAT_AAC_ADTS_XHE : Z := AUDIO_FORMAT_AAC_ADTS .| AUDIO_FORMAT_AAC_SUB_XHE.
Definition AUDIO_FORMAT_SBC : Z := 0x1F000000.
Definition AUDIO_FORMAT_APTX : Z := 0x20000000.
Definition AUDIO_FORMAT_APTX_HD : Z := 0x21000000.
Definition AUDIO_FORMAT_AC4 : Z := 0x22000000.
Definition AUDIO_FORMAT_LDAC : Z := 0x23000000.
Definition AUDIO_FORMAT_MAT : Z := 0x24000000.
Definition AUDIO_FORMAT_MAT_1_0 : Z := AUDIO_FORMAT_MAT .| AUDIO_FORMAT_MAT_SUB_1_0.
Definition AUDIO_FORMAT_MAT_2_0 : Z := AUDIO_FORMAT_MAT .| AUDIO_FORMAT_MAT_SUB_2_0.
Definition AUDIO_FORMAT_MAT_2_1 : Z := AUDIO_FORMAT_MAT .| AUDIO_FORMAT_MAT_SUB_2_1.
Definition AUDIO_FORMAT_AAC_LATM : Z := 0x25000000.
Definition AUDIO_FORMAT_AAC_LATM_LC : Z := AUDIO_FORMAT_AAC_LATM .| AUDIO_FORMAT_AAC_SUB_LC.
Definition AUDIO_FORMAT_AAC_LATM_HE_V1 : Z := AUDIO_FORMAT_AAC_LATM .| AUDIO_FORMAT_AAC_SUB_HE_V1.
Definition AUDIO_FORMAT_AAC_LATM_HE_V2 : Z := AUDIO_FORMAT_AAC_LATM .| AUDIO_FORMAT_AAC_SUB_HE_V2.
Definition AUDIO_FORMAT_CELT : Z := 0x26000000.
Definition AUDIO_FORMAT_APTX_ADAPTIVE : Z := 0x27000000.
Definition AUDIO_FORMAT_LHDC : Z := 0x28000000.
Definition AUDIO_FORMAT_LHDC_LL : Z := 0x29000000.
Definition AUDIO_FORMAT_APTX_TWSP : Z := 0x2A000000.
Definition AUDIO_FORMAT_LC3 : Z := 0x2B000000.
Definition AUDIO_FORMAT_MPEGH : Z := 0x2C000000.
Definition AUDIO_FORMAT_MPEGH_BL_L3 : Z := AUDIO_FORMAT_MPEGH .| AUDIO_FORMAT_MPEGH_SUB_BL_L3.
Definition AUDIO_FORMAT_MPEGH_BL_L4 : Z := AUDIO_FORMAT_MPEGH .| AUDIO_FORMAT_MPEGH_SUB_BL_L4.
Definition AUDIO_FORMAT_MPEGH_LC_L3 : Z := AUDIO_FORMAT_MPEGH .| AUDIO_FORMAT_MPEGH_SUB_LC_L3.
Definition AUDIO_FORMAT_MPEGH_LC_L4 : Z := AUDIO_FORMAT_MPEGH .| AUDIO_FORMAT_MPEGH_SUB_LC_L4.

Definition AUDIO_FORMAT_LIST_DEF : list entry :=
  [ V "AUDIO_FORMAT_DEFAULT" AUDIO_FORMAT_DEFAULT;
    V "AUDIO_FORMAT_PCM_16_BIT" AUDIO_FORMAT_PCM_16_BIT;
    V "AUDIO_FORMAT_PCM_8_BIT" AUDIO_FORMAT_PCM_8_BIT;
    V "AUDIO_FORMAT_PCM_32_BIT" AUDIO_FORMAT_PCM_32_BIT;
    V "AUDIO_FORMAT_PCM_8_24_BIT" AUDIO_FORMAT_PCM_8_24_BIT;
    V "AUDIO_FORMAT_PCM_FLOAT" AUDIO_FORMAT_PCM_FLOAT;
    V "AUDIO_FORMAT_PCM_24_BIT_PACKED" AUDIO_FORMAT_PCM_24_BIT_PACKED;
    V "AUDIO_FORMAT_MP3" AUDIO_FORMAT_MP3;
    V "AUDIO_FORMAT_AMR_NB" AUDIO_FORMAT_AMR_NB;
    V "AUDIO_FORMAT_AMR_WB" AUDIO_FORMAT_AMR_WB;
    V "AUDIO_FORMAT_AAC" AUDIO_FORMAT_AAC;
    V "AUDIO_FORMAT_AAC_MAIN" AUDIO_FORMAT_AAC_MAIN;
    V "AUDIO_FORMAT_AAC_LC" AUDIO_FORMAT_AAC_LC;
    V "AUDIO_FORMAT_AAC_SSR" AUDIO_FORMAT_AAC_SSR;
    V "AUDIO_FORMAT_AAC_LTP" AUDIO_FORMAT_AAC_LTP;
    V "AUDIO_FORMAT_AAC_HE_V1" AUDIO_FORMAT_AAC_HE_V1;
    V "AUDIO_FORMAT_AAC_SCALABLE" AUDIO_FORMAT_AAC_SCALABLE;
    V "AUDIO_FORMAT_AAC_ERLC" AUDIO_FORMAT_AAC_ERLC;
    V "AUDIO_FORMAT_AAC_LD" AUDIO_FORMAT_AAC_LD;
    V "AUDIO_FORMAT_AAC_HE_V2" AUDIO_FORMAT_AAC_HE_V2;
    V "AUDIO_FORMAT_AAC_ELD" AUDIO_FORMAT_AAC_ELD;
    V "AUDIO_FORMAT_AAC_XHE" AUDIO_FORMAT_AAC_XHE;
    V "AUDIO_FORMAT_HE_AAC_V1" AUDIO_FORMAT_HE_AAC_V1;
    V "AUDIO_FORMAT_HE_AAC_V2" AUDIO_FORMAT_HE_AAC_V2;
    V "AUDIO_FORMAT_VORBIS" AUDIO_FORMAT_VORBIS;
    V "AUDIO_FORMAT_OPUS" AUDIO_FORMAT_OPUS;
    V "AUDIO_FORMAT_AC3" AUDIO_FORMAT_AC3;
    V "AUDIO_FORMAT_E_AC3" AUDIO_FORMAT_E_AC3;
    V "AUDIO_FORMAT_E_AC3_JOC" AUDIO_FORMAT_E_AC3_JOC;
    V "AUDIO_FORMAT_DTS" AUDIO_FORMAT_DTS;
    V "AUDIO_FORMAT_DTS_HD" AUDIO_FORMAT_DTS_HD;
    V "AUDIO_FORMAT_IEC61937" AUDIO_FORMAT_IEC61937;
    V "AUDIO_FORMAT_DOLBY_TRUEHD" AUDIO_FORMAT_DOLBY_TRUEHD;
    V "AUDIO_FORMAT_EVRC" AUDIO_FORMAT_EVRC;
    V "AUDIO_FORMAT_EVRCB" AUDIO_FORMAT_EVRCB;
    V "AUDIO_FORMAT_EVRCWB" AUDIO_FORMAT_EVRCWB;
    V "AUDIO_FORMAT_EVRCNW" AUDIO_FORMAT_EVRCNW;
    V "AUDIO_FORMAT_AAC_ADIF" AUDIO_FORMAT_AAC_ADIF;
    V "AUDIO_FORMAT_WMA" AUDIO_FORMAT_WMA;
    V "AUDIO_FORMAT_WMA_PRO" AUDIO_FORMAT_WMA_PRO;
    V "AUDIO_FORMAT_AMR_WB_PLUS" AUDIO_FORMAT_AMR_WB_PLUS;
    V "AUDIO_FORMAT_MP2" AUDIO_FORMAT_MP2;
    V "AUDIO_FORMAT_QCELP" AUDIO_FORMAT_QCELP;
    V "AUDIO_FORMAT_DSD" AUDIO_FORMAT_DSD;
    V "AUDIO_FORMAT_FLAC" AUDIO_FORMAT_FLAC;
    V "AUDIO_FORMAT_ALAC" AUDIO_FORMAT_ALAC;
    V "AUDIO_FORMAT_APE" AUDIO_FORMAT_APE;
    V "AUDIO_FORMAT_AAC_ADTS" AUDIO_FORMAT_AAC_ADTS;
    V "AUDIO_FORMAT_AAC_ADTS_MAIN" AUDIO_FORMAT_AAC_ADTS_MAIN;
    V "AUDIO_FORMAT_AAC_ADTS_LC" AUDIO_FORMAT_AAC_ADTS_LC;
    V "AUDIO_FORMAT_AAC_ADTS_SSR" AUDIO_FORMAT_AAC_ADTS_SSR;
    V "AUDIO_FORMAT_AAC_ADTS_LTP" AUDIO_FORMAT_AAC_ADTS_LTP;
    V "AUDIO_FORMAT_AAC_ADTS_HE_V1" AUDIO_FORMAT_AAC_ADTS_HE_V1;
    V "AUDIO_FORMAT_AAC_ADTS_SCALABLE" AUDIO_FORMAT_AAC_ADTS_SCALABLE;
    V "AUDIO_FORMAT_AAC_ADTS_ERLC" AUDIO_FORMAT_AAC_ADTS_ERLC;
    V "AUDIO_FORMAT_AAC_ADTS_LD" AUDIO_FORMAT_AAC_ADTS_LD;
    V "AUDIO_FORMAT_AAC_ADTS_HE_V2" AUDIO_FORMAT_AAC_ADTS_HE_V2;
    V "AUDIO_FORMAT_AAC_ADTS_ELD" AUDIO_FORMAT_AAC_ADTS_ELD;
    V "AUDIO_FORMAT_AAC_ADTS_XHE" AUDIO_FORMAT_AAC_ADTS_XHE;
    V "AUDIO_FORMAT_SBC" AUDIO_FORMAT_SBC;
    V "AUDIO_FORMAT_APTX" AUDIO_FORMAT_APTX;
    V "AUDIO_FORMAT_APTX_HD" AUDIO_FORMAT_APTX_HD;
    V "AUDIO_FORMAT_AC4" AUDIO_FORMAT_AC4;
    V "AUDIO_FORMAT_LDAC" AUDIO_FORMAT_LDAC;
    V "AUDIO_FORMAT_MAT" AUDIO_FORMAT_MAT;
    V "AUDIO_FORMAT_MAT_1_0" AUDIO_FORMAT_MAT_1_0;
    V "AUDIO_FORMAT_MAT_2_0" AUDIO_FORMAT_MAT_2_0;
    V "AUDIO_FORMAT_MAT_2_1" AUDIO_FORMAT_MAT_2_1;
    V "AUDIO_FORMAT_AAC_LATM" AUDIO_FORMAT_AAC_LATM;
    V "AUDIO_FORMAT_AAC_LATM_LC" AUDIO_FORMAT_AAC_LATM_LC;
    V "AUDIO_FORMAT_AAC_LATM_HE_V1" AUDIO_FORMAT_AAC_LATM_HE_V1;
    V "AUDIO_FORMAT_AAC_LATM_HE_V2" AUDIO_FORMAT_AAC_LATM_HE_V2;
    V "AUDIO_FORMAT_CELT" AUDIO_FORMAT_CELT;
    V "AUDIO_FORMAT_APTX_ADAPTIVE" AUDIO_FORMAT_APTX_ADAPTIVE;
    V "AUDIO_FORMAT_LHDC" AUDIO_FORMAT_LHDC;
    V "AUDIO_FORMAT_LHDC_LL" AUDIO_FORMAT_LHDC_LL;
    V "AUDIO_FORMAT_APTX_TWSP" AUDIO_FORMAT_APTX_TWSP;
    V "AUDIO_FORMAT_LC3" AUDIO_FORMAT_LC3;
    V "AUDIO_FORMAT_MPEGH" AUDIO_FORMAT_MPEGH;
    V "AUDIO_FORMAT_MPEGH_BL_L3" AUDIO_FORMAT_MPEGH_BL_L3;
    V "AUDIO_FORMAT_MPEGH_BL_L4" AUDIO_FORMAT_MPEGH_BL_L4;
    V "AUDIO_FORMAT_MPEGH_LC_L3" AUDIO_FORMAT_MPEGH_LC_L3;
    V "AUDIO_FORMAT_MPEGH_LC_L4" AUDIO_FORMAT_MPEGH_LC_L4 ].

(** Not valid formats: part of the enum, absent from the list. *)
Definition AUDIO_FORMAT_INVALID : Z := 0xFFFFFFFF.
Definition AUDIO_FORMAT_PCM : Z := AUDIO_FORMAT_PCM_MAIN.

Definition audio_format_to_string (t : Z) : string :=
  stringify_switch AUDIO_FORMAT_LIST_DEF t.

Definition audio_format_from_string (s : string) (t : Z) : bool * Z :=
  parse_chain AUDIO_FORMAT_LIST_DEF s t.


(** ** Gain modes *)

Definition AUDIO_GAIN_MODE_JOINT : Z := 1.
Definition AUDIO_GAIN_MODE_CHANNELS : Z := 2.
Definition AUDIO_GAIN_MODE_RAMP : Z := 4.

Definition AUDIO_GAIN_MODE_LIST_DEF : list entry :=
  [ V "AUDIO_GAIN_MODE_JOINT" AUDIO_GAIN_MODE_JOINT;
    V "AUDIO_GAIN_MODE_CHANNELS" AUDIO_GAIN_MODE_CHANNELS;
    V "AUDIO_GAIN_MODE_RAMP" AUDIO_GAIN_MODE_RAMP ].

Definition audio_gain_mode_to_string (t : Z) : string :=
  stringify_switch AUDIO_GAIN_MODE_LIST_DEF t.

Definition audio_gain_mode_from_string (s : string) (t : Z) : bool * Z :=
  parse_chain AUDIO_GAIN_MODE_LIST_DEF s t.


(** ** Sources *)

Definition AUDIO_SOURCE_DEFAULT : Z := 0.
Definition AUDIO_SOURCE_MIC : Z := 1.
Definition AUDIO_SOURCE_VOICE_UPLINK : Z := 2.
Definition AUDIO_SOURCE_VOICE_DOWNLINK : Z := 3.
Definition AUDIO_SOURCE_VOICE_CALL : Z := 4.
Definition AUDIO_SOURCE_CAMCORDER : Z := 5.
Definition AUDIO_SOURCE_VOICE_RECOGNITION : Z := 6.
Definition AUDIO_SOURCE_VOICE_COMMUNICATION : Z := 7.
Definition AUDIO_SOURCE_REMOTE_SUBMIX : Z := 8.
Definition AUDIO_SOURCE_UNPROCESSED : Z := 9.
Definition AUDIO_SOURCE_VOICE_PERFORMANCE : Z := 10.
Definition AUDIO_SOURCE_ECHO_REFERENCE : Z := 1997.
Definition AUDIO_SOURCE_FM_TUNER : Z := 1998.
Definition AUDIO_SOURCE_HOTWORD : Z := 1999.

Definition AUDIO_SOURCE_INVALID : Z := (-1).

Definition AUDIO_SOURCE_LIST_NO_SYS_DEF : list entry :=
  [ V "AUDIO_SOURCE_DEFAULT" AUDIO_SOURCE_DEFAULT;
    V "AUDIO_SOURCE_MIC" AUDIO_SOURCE_MIC;
    V "AUDIO_SOURCE_VOICE_UPLINK" AUDIO_SOURCE_VOICE_UPLINK;
    V "AUDIO_SOURCE_VOICE_DOWNLINK" AUDIO_SOURCE_VOICE_DOWNLINK;
    V "AUDIO_SOURCE_VOICE_CALL" AUDIO_SOURCE_VOICE_CALL;
    V "AUDIO_SOURCE_CAMCORDER" AUDIO_SOURCE_CAMCORDER;
    V "AUDIO_SOURCE_VOICE_RECOGNITION" AUDIO_SOURCE_VOICE_RECOGNITION;
    V "AUDIO_SOURCE_VOICE_COMMUNICATION" AUDIO_SOURCE_VOICE_COMMUNICATION;
    V "AUDIO_SOURCE_REMOTE_SUBMIX" AUDIO_SOURCE_REMOTE_SUBMIX;
    V "AUDIO_SOURCE_UNPROCESSED" AUDIO_SOURCE_UNPROCESSED;
    V "AUDIO_SOURCE_VOICE_PERFORMANCE" AUDIO_SOURCE_VOICE_PERFORMANCE;
    V "AUDIO_SOURCE_ECHO_REFERENCE" AUDIO_SOURCE_ECHO_REFERENCE;
    V "AUDIO_SOURCE_FM_TUNER" AUDIO_SOURCE_FM_TUNER;
    V "AUDIO_SOURCE_HOTWORD" AUDIO_SOURCE_HOTWORD ].

Definition AUDIO_SOURCE_LIST_DEF (b : build) : list entry :=
  match b with
  | VendorBuild => AUDIO_SOURCE_LIST_NO_SYS_DEF
  | FrameworkBuild =>
      AUDIO_SOURCE_LIST_NO_SYS_DEF ++
      [ V "AUDIO_SOURCE_INVALID" AUDIO_SOURCE_INVALID ]
  end.

(** The switch of the projection expands the full list of the build; the
    parser always expands the list without the framework-only rows. *)
Definition audio_source_to_string (b : build) (t : Z) : string :=
  stringify_switch (AUDIO_SOURCE_LIST_DEF b) t.

Definition audio_source_from_string (s : string) (t : Z) : bool * Z :=
  parse_chain AUDIO_SOURCE_LIST_NO_SYS_DEF s t.


(** ** Stream types *)

Definition AUDIO_STREAM_VOICE_CALL : Z := 0.
Definition AUDIO_STREAM_SYSTEM : Z := 1.
Definition AUDIO_STREAM_RING : Z := 2.
Definition AUDIO_STREAM_MUSIC : Z := 3.
Definition AUDIO_STREAM_ALARM : Z := 4.
Definition AUDIO_STREAM_NOTIFICATION : Z := 5.
Definition AUDIO_STREAM_BLUETOOTH_SCO : Z := 6.
Definition AUDIO_STREAM_ENFORCED_AUDIBLE : Z := 7.
Definition AUDIO_STREAM_DTMF : Z := 8.
Definition AUDIO_STREAM_TTS : Z := 9.
Definition AUDIO_STREAM_ACCESSIBILITY : Z := 10.
Definition AUDIO_STREAM_ASSISTANT : Z := 11.
Definition AUDIO_STREAM_REROUTING : Z := 12.
Definition AUDIO_STREAM_PATCH : Z := 13.
Definition AUDIO_STREAM_CALL_ASSISTANT : Z := 14.

Definition AUDIO_STREAM_DEFAULT : Z := (-1).

Definition AUDIO_STREAM_LIST_NO_SYS_DEF : list entry :=
  [ V "AUDIO_STREAM_VOICE_CALL" AUDIO_STREAM_VOICE_CALL;
    V "AUDIO_STREAM_SYSTEM" AUDIO_STREAM_SYSTEM;
    V "AUDIO_STREAM_RING" AUDIO_STREAM_RING;
    V "AUDIO_STREAM_MUSIC" AUDIO_STREAM_MUSIC;
    V "AUDIO_STREAM_ALARM" AUDIO_STREAM_ALARM;
    V "AUDIO_STREAM_NOTIFICATION" AUDIO_STREAM_NOTIFICATION;
    V "AUDIO_STREAM_BLUETOOTH_SCO" AUDIO_STREAM_BLUETOOTH_SCO;
    V "AUDIO_STREAM_ENFORCED_AUDIBLE" AUDIO_STREAM_ENFORCED_AUDIBLE;
    V "AUDIO_STREAM_DTMF" AUDIO_STREAM_DTMF;
    V "AUDIO_STREAM_TTS" AUDIO_STREAM_TTS;
    V "AUDIO_STREAM_ACCESSIBILITY" AUDIO_STREAM_ACCESSIBILITY;
    V "AUDIO_STREAM_ASSISTANT" AUDIO_STREAM_ASSISTANT;
    V "AUDIO_STREAM_REROUTING" AUDIO_STREAM_REROUTING;
    V "AUDIO_STREAM_PATCH" AUDIO_STREAM_PATCH;
    V "AUDIO_STREAM_CALL_ASSISTANT" AUDIO_STREAM_CALL_ASSISTANT ].

Definition AUDIO_STREAM_LIST_DEF (b : build) : list entry :=
  match b with
  | VendorBuild => AUDIO_STREAM_LIST_NO_SYS_DEF
  | FrameworkBuild =>
      AUDIO_STREAM_LIST_NO_SYS_DEF ++
      [ V "AUDIO_STREAM_DEFAULT" AUDIO_STREAM_DEFAULT ]
  end.

Definition audio_stream_type_to_string (b : build) (t : Z) : string :=
  stringify_switch (AUDIO_STREAM_LIST_DEF b) t.

Definition audio_stream_type_from_string (s : string) (t : Z) : bool * Z :=
  parse_chain AUDIO_STREAM_LIST_NO_SYS_DEF s t.


(** ** Usages *)

Definition AUDIO_USAGE_UNKNOWN : Z := 0.
Definition AUDIO_USAGE_MEDIA : Z := 1.
Definition AUDIO_USAGE_VOICE_COMMUNICATION : Z := 2.
Definition AUDIO_USAGE_VOICE_COMMUNICATION_SIGNALLING : Z := 3.
Definition AUDIO_USAGE_ALARM : Z := 4.
Definition AUDIO_USAGE_NOTIFICATION : Z := 5.
Definition AUDIO_USAGE_NOTIFICATION_TELEPHONY_RINGTONE : Z := 6.
Definition AUDIO_USAGE_ASSISTANCE_ACCESSIBILITY : Z := 11.
Definition AUDIO_USAGE_ASSISTANCE_NAVIGATION_GUIDANCE : Z := 12.
Definition AUDIO_USAGE_ASSISTANCE_SONIFICATION : Z := 13.
Definition AUDIO_USAGE_GAME : Z := 14.
Definition AUDIO_USAGE_VIRTUAL_SOURCE : Z := 15.
Definition AUDIO_USAGE_ASSISTANT : Z := 16.
Definition AUDIO_USAGE_CALL_ASSISTANT : Z := 17.
Definition AUDIO_USAGE_EMERGENCY : Z := 1000.
Definition AUDIO_USAGE_SAFETY : Z := 1001.
Definition AUDIO_USAGE_VEHICLE_STATUS : Z := 1002.
Definition AUDIO_USAGE_ANNOUNCEMENT : Z := 1003.

Definition AUDIO_USAGE_NOTIFICATION_COMMUNICATION_REQUEST : Z := 7.
Definition AUDIO_USAGE_NOTIFICATION_COMMUNICATION_INSTANT : Z := 8.
Definition AUDIO_USAGE_NOTIFICATION_COMMUNICATION_DELAYED : Z := 9.
Definition AUDIO_USAGE_NOTIFICATION_EVENT : Z := 10.

Definition AUDIO_USAGE_LIST_NO_SYS_DEF : list entry :=
  [ V "AUDIO_USAGE_UNKNOWN" AUDIO_USAGE_UNKNOWN;
    V "AUDIO_USAGE_MEDIA" AUDIO_USAGE_MEDIA;
    V "AUDIO_USAGE_VOICE_COMMUNICATION" AUDIO_USAGE_VOICE_COMMUNICATION;
    V "AUDIO_USAGE_VOICE_COMMUNICATION_SIGNALLING" AUDIO_USAGE_VOICE_COMMUNICATION_SIGNALLING;
    V "AUDIO_USAGE_ALARM" AUDIO_USAGE_ALARM;
    V "AUDIO_USAGE_NOTIFICATION" AUDIO_USAGE_NOTIFICATION;
    V "AUDIO_USAGE_NOTIFICATION_TELEPHONY_RINGTONE" AUDIO_USAGE_NOTIFICATION_TELEPHONY_RINGTONE;
    V "AUDIO_USAGE_ASSISTANCE_ACCESSIBILITY" AUDIO_USAGE_ASSISTANCE_ACCESSIBILITY;
    V "AUDIO_USAGE_ASSISTANCE_NAVIGATION_GUIDANCE" AUDIO_USAGE_ASSISTANCE_NAVIGATION_GUIDANCE;
    V "AUDIO_USAGE_ASSISTANCE_SONIFICATION" AUDIO_USAGE_ASSISTANCE_SONIFICATION;
    V "AUDIO_USAGE_GAME" AUDIO_USAGE_GAME;
    V "AUDIO_USAGE_VIRTUAL_SOURCE" AUDIO_USAGE_VIRTUAL_SOURCE;
    V "AUDIO_USAGE_ASSISTANT" AUDIO_USAGE_ASSISTANT;
    V "AUDIO_USAGE_CALL_ASSISTANT" AUDIO_USAGE_CALL_ASSISTANT;
    V "AUDIO_USAGE_EMERGENCY" AUDIO_USAGE_EMERGENCY;
    V "AUDIO_USAGE_SAFETY" AUDIO_USAGE_SAFETY;
    V "AUDIO_USAGE_VEHICLE_STATUS" AUDIO_USAGE_VEHICLE_STATUS;
    V "AUDIO_USAGE_ANNOUNCEMENT" AUDIO_USAGE_ANNOUNCEMENT ].

Definition AUDIO_USAGE_LIST_DEF (b : build) : list entry :=
  match b with
  | VendorBuild => AUDIO_USAGE_LIST_NO_SYS_DEF
  | FrameworkBuild =>
      AUDIO_USAGE_LIST_NO_SYS_DEF ++
      [ V "AUDIO_USAGE_NOTIFICATION_COMMUNICATION_REQUEST" AUDIO_USAGE_NOTIFICATION_COMMUNICATION_REQUEST;
        V "AUDIO_USAGE_NOTIFICATION_COMMUNICATION_INSTANT" AUDIO_USAGE_NOTIFICATION_COMMUNICATION_INSTANT;
        V "AUDIO_USAGE_NOTIFICATION_COMMUNICATION_DELAYED" AUDIO_USAGE_NOTIFICATION_COMMUNICATION_DELAYED;
        V "AUDIO_USAGE_NOTIFICATION_EVENT" AUDIO_USAGE_NOTIFICATION_EVENT ]
  end.

Definition audio_usage_to_string (b : build) (t : Z) : string :=
  stringify_switch (AUDIO_USAGE_LIST_DEF b) t.

Definition audio_usage_from_string (s : string) (t : Z) : bool * Z :=
  parse_chain AUDIO_USAGE_LIST_NO_SYS_DEF s t.


(** ** The converters, by domain *)

(** The header generates one projection and one parser per domain, except
    for channel masks, which have one projection per direction and a single
    parser. *)
Inductive domain : Type :=
  | ChannelOutMask
  | ChannelInMask
  | ChannelIndexMask
  | ContentType
  | Device
  | OutputFlag
  | InputFlag
  | Format
  | GainMode
  | Source
  | StreamType
  | Usage.

(** The projection of domain [d] in a header compiled in mode [b]. *)
Definition to_string (b : build) (d : domain) : Z -> string :=
  match d with
  | ChannelOutMask => audio_channel_out_mask_to_string
  | ChannelInMask => audio_channel_in_mask_to_string
  | ChannelIndexMask => audio_channel_index_mask_to_string
  | ContentType => audio_content_type_to_string
  | Device => audio_device_to_string
  | OutputFlag => audio_output_flag_to_string
  | InputFlag => audio_input_flag_to_string
  | Format => audio_format_to_string
  | GainMode => audio_gain_mode_to_string
  | Source => audio_source_to_string b
  | StreamType => audio_stream_type_to_string b
  | Usage => audio_usage_to_string b
  end.

(** The parser of domain [d] in a header compiled in mode [b].  The build
    switch only selects what the [*_LIST_DEF] macros of sources, stream
    types and usages expand to, and no parser expands these macros: the
    parsers are the same functions in both modes. *)
Definition from_string (b : build) (d : domain) : string -> Z -> bool * Z :=
  match d with
  | ChannelOutMask | ChannelInMask | ChannelIndexMask =>
      audio_channel_mask_from_string
  | ContentType => audio_content_type_from_string
  | Device => audio_device_from_string
  | OutputFlag => audio_output_flag_from_string
  | InputFlag => audio_input_flag_from_string
  | Format => audio_format_from_string
  | GainMode => audio_gain_mode_from_string
  | Source => audio_source_from_string
  | StreamType => audio_stream_type_from_string
  | Usage => audio_usage_from_string
  end.

(** The rows expanded inside the switch of [to_string b d]. *)
Definition to_string_cases (b : build) (d : domain) : list entry :=
  match d with
  | ChannelOutMask =>
      AUDIO_CHANNEL_IN_OUT_MASK_LIST_DEF ++ AUDIO_CHANNEL_OUT_MASK_LIST_UNIQUE_DEF
  | ChannelInMask =>
      AUDIO_CHANNEL_IN_OUT_MASK_LIST_DEF ++ AUDIO_CHANNEL_IN_MASK_LIST_DEF
  | ChannelIndexMask =>
      AUDIO_CHANNEL_IN_OUT_MASK_LIST_DEF ++ AUDIO_CHANNEL_INDEX_MASK_LIST_DEF
  | ContentType => AUDIO_CONTENT_TYPE_LIST_DEF
  | Device => AUDIO_DEVICE_LIST_UNIQUE_DEF
  | OutputFlag => AUDIO_OUTPUT_FLAG_LIST_DEF
  | InputFlag => AUDIO_INPUT_FLAG_LIST_DEF
  | Format => AUDIO_FORMAT_LIST_DEF
  | GainMode => AUDIO_GAIN_MODE_LIST_DEF
  | Source => AUDIO_SOURCE_LIST_DEF b
  | StreamType => AUDIO_STREAM_LIST_DEF b
  | Usage => AUDIO_USAGE_LIST_DEF b
  end.

(** The rows expanded inside [from_string b d]. *)
Definition from_string_cases (d : domain) : list entry :=
  match d with
  | ChannelOutMask | ChannelInMask | ChannelIndexMask =>
      AUDIO_CHANNEL_IN_OUT_MASK_LIST_DEF ++
      AUDIO_CHANNEL_OUT_MASK_LIST_DEF ++
      AUDIO_CHANNEL_IN_MASK_LIST_DEF ++
      AUDIO_CHANNEL_INDEX_MASK_LIST_DEF
  | ContentType => AUDIO_CONTENT_TYPE_LIST_DEF
  | Device => AUDIO_DEVICE_LIST_DEF
  | OutputFlag => AUDIO_OUTPUT_FLAG_LIST_DEF
  | InputFlag => AUDIO_INPUT_FLAG_LIST_DEF
  | Format => AUDIO_FORMAT_LIST_DEF
  | GainMode => AUDIO_GAIN_MODE_LIST_DEF
  | Source => AUDIO_SOURCE_LIST_NO_SYS_DEF
  | StreamType => AUDIO_STREAM_LIST_NO_SYS_DEF
  | Usage => AUDIO_USAGE_LIST_NO_SYS_DEF
  end.

(** The framework-only rows: those a list gains when
    [AUDIO_NO_SYSTEM_DECLARATIONS] is not defined. *)
Definition framework_only_cases (d : domain) : list entry :=
  match d with
  | Source => [ V "AUDIO_SOURCE_INVALID" AUDIO_SOURCE_INVALID ]
  | StreamType => [ V "AUDIO_STREAM_DEFAULT" AUDIO_STREAM_DEFAULT ]
  | Usage =>
      [ V "AUDIO_USAGE_NOTIFICATION_COMMUNICATION_REQUEST" AUDIO_USAGE_NOTIFICATION_COMMUNICATION_REQUEST;
        V "AUDIO_USAGE_NOTIFICATION_COMMUNICATION_INSTANT" AUDIO_USAGE_NOTIFICATION_COMMUNICATION_INSTANT;
        V "AUDIO_USAGE_NOTIFICATION_COMMUNICATION_DELAYED" AUDIO_USAGE_NOTIFICATION_COMMUNICATION_DELAYED;
        V "AUDIO_USAGE_NOTIFICATION_EVENT" AUDIO_USAGE_NOTIFICATION_EVENT ]
  | _ => []
  end.

Definition framework_only_value (d : domain) (v : Z) : bool :=
  existsb (fun e => v =? value e) (framework_only_cases d).

(** Boolean checks run on the concrete lists. *)
Fixpoint distinct {A : Type} (eqb : A -> A -> bool) (l : list A) : bool :=
  match l with
  | [] => true
  | x :: r => negb (existsb (eqb x) r) && distinct eqb r
  end.

Definition entry_eqb (e1 e2 : entry) : bool :=
  String.eqb (symbol e1) (symbol e2) && (value e1 =? value e2).

Definition included (l1 l2 : list entry) : bool :=
  forallb (fun e => existsb (entry_eqb e) l2) l1.

Definition symbols (cases : list entry) : list string := map symbol cases.
Definition values (cases : list entry) : list Z := map value cases.

(** The name of the index mask of [n] channels: the common prefix followed
    by [n] in decimal. *)
Definition index_mask_name (n : Z) : string :=
  ("AUDIO_CHANNEL_INDEX_MASK_" ++ NilZero.string_of_int (Z.to_int n))%string.

(** The discrete output channels a mask contains. *)
Definition out_channels_of (mask : Z) : list entry :=
  filter (fun c => Z.land mask (value c) =? value c)
         AUDIO_CHANNEL_OUT_DISCRETE_CHANNEL_LIST_DEF.

Definition single_bit (v : Z) : bool :=
  existsb (fun k => v =? 1 << Z.of_nat k) (seq 0 32).

(** The three directions of a channel mask. *)
Definition channel_directions : list domain :=
  [ ChannelOutMask; ChannelInMask; ChannelIndexMask ].

(** ** Operands of the output masks *)

(** The value expression of every row of [AUDIO_CHANNEL_OUT_MASK_LIST_DEF],
    as the header writes it: the symbols joined by [|], in their order.
    Some operands are discrete channels, some are masks defined by an
    earlier row. *)
Definition AUDIO_CHANNEL_OUT_MASK_OPERANDS : list (string * list string) :=
  [
    ("AUDIO_CHANNEL_OUT_MONO",
     [ "AUDIO_CHANNEL_OUT_FRONT_LEFT" ]);
    ("AUDIO_CHANNEL_OUT_STEREO",
     [ "AUDIO_CHANNEL_OUT_FRONT_LEFT";
       "AUDIO_CHANNEL_OUT_FRONT_RIGHT" ]);
    ("AUDIO_CHANNEL_OUT_2POINT1",
     [ "AUDIO_CHANNEL_OUT_FRONT_LEFT";
       "AUDIO_CHANNEL_OUT_FRONT_RIGHT";
       "AUDIO_CHANNEL_OUT_LOW_FREQUENCY" ]);
    ("AUDIO_CHANNEL_OUT_TRI",
     [ "AUDIO_CHANNEL_OUT_FRONT_LEFT";
       "AUDIO_CHANNEL_OUT_FRONT_RIGHT";
       "AUDIO_CHANNEL_OUT_FRONT_CENTER" ]);
    ("AUDIO_CHANNEL_OUT_TRI_BACK",
     [ "AUDIO_CHANNEL_OUT_FRONT_LEFT";
       "AUDIO_CHANNEL_OUT_FRONT_RIGHT";
       "AUDIO_CHANNEL_OUT_BACK_CENTER" ]);
    ("AUDIO_CHANNEL_OUT_3POINT1",
     [ "AUDIO_CHANNEL_OUT_FRONT_LEFT";
       "AUDIO_CHANNEL_OUT_FRONT_RIGHT";
       "AUDIO_CHANNEL_OUT_FRONT_CENTER";
       "AUDIO_CHANNEL_OUT_LOW_FREQUENCY" ]);
    ("AUDIO_CHANNEL_OUT_2POINT0POINT2",
     [ "AUDIO_CHANNEL_OUT_FRONT_LEFT";
       "AUDIO_CHANNEL_OUT_FRONT_RIGHT";
       "AUDIO_CHANNEL_OUT_TOP_SIDE_LEFT";
       "AUDIO_CHANNEL_OUT_TOP_SIDE_RIGHT" ]);
    ("AUDIO_CHANNEL_OUT_2POINT1POINT2",
     [ "AUDIO_CHANNEL_OUT_FRONT_LEFT";
       "AUDIO_CHANNEL_OUT_FRONT_RIGHT";
       "AUDIO_CHANNEL_OUT_TOP_SIDE_LEFT";
       "AUDIO_CHANNEL_OUT_TOP_SIDE_RIGHT";
       "AUDIO_CHANNEL_OUT_LOW_FREQUENCY" ]);
    ("AUDIO_CHANNEL_OUT_3POINT0POINT2",
     [ "AUDIO_CHANNEL_OUT_FRONT_LEFT";
       "AUDIO_CHANNEL_OUT_FRONT_RIGHT";
       "AUDIO_CHANNEL_OUT_FRONT_CENTER";
       "AUDIO_CHANNEL_OUT_TOP_SIDE_LEFT";
       "AUDIO_CHANNEL_OUT_TOP_SIDE_RIGHT" ]);
    ("AUDIO_CHANNEL_OUT_3POINT1POINT2",
     [ "AUDIO_CHANNEL_OUT_FRONT_LEFT";
       "AUDIO_CHANNEL_OUT_FRONT_RIGHT";
       "AUDIO_CHANNEL_OUT_FRONT_CENTER";
       "AUDIO_CHANNEL_OUT_TOP_SIDE_LEFT";
       "AUDIO_CHANNEL_OUT_TOP_SIDE_RIGHT";
       "AUDIO_CHANNEL_OUT_LOW_FREQUENCY" ]);
    ("AUDIO_CHANNEL_OUT_QUAD",
     [ "AUDIO_CHANNEL_OUT_FRONT_LEFT";
       "AUDIO_CHANNEL_OUT_FRONT_RIGHT";
       "AUDIO_CHANNEL_OUT_BACK_LEFT";
       "AUDIO_CHANNEL_OUT_BACK_RIGHT" ]);
    ("AUDIO_CHANNEL_OUT_QUAD_SIDE",
     [ "AUDIO_CHANNEL_OUT_FRONT_LEFT";
       "AUDIO_CHANNEL_OUT_FRONT_RIGHT";
       "AUDIO_CHANNEL_OUT_SIDE_LEFT";
       "AUDIO_CHANNEL_OUT_SIDE_RIGHT" ]);
    ("AUDIO_CHANNEL_OUT_SURROUND",
     [ "AUDIO_CHANNEL_OUT_FRONT_LEFT";
       "AUDIO_CHANNEL_OUT_FRONT_RIGHT";
       "AUDIO_CHANNEL_OUT_FRONT_CENTER";
       "AUDIO_CHANNEL_OUT_BACK_CENTER" ]);
    ("AUDIO_CHANNEL_OUT_PENTA",
     [ "AUDIO_CHANNEL_OUT_QUAD";
       "AUDIO_CHANNEL_OUT_FRONT_CENTER" ]);
    ("AUDIO_CHANNEL_OUT_5POINT1",
     [ "AUDIO_CHANNEL_OUT_FRONT_LEFT";
       "AUDIO_CHANNEL_OUT_FRONT_RIGHT";
       "AUDIO_CHANNEL_OUT_FRONT_CENTER";
       "AUDIO_CHANNEL_OUT_LOW_FREQUENCY";
       "AUDIO_CHANNEL_OUT_BACK_LEFT";
       "AUDIO_CHANNEL_OUT_BACK_RIGHT" ]);
    ("AUDIO_CHANNEL_OUT_5POINT1_SIDE",
     [ "AUDIO_CHANNEL_OUT_FRONT_LEFT";
       "AUDIO_CHANNEL_OUT_FRONT_RIGHT";
       "AUDIO_CHANNEL_OUT_FRONT_CENTER";
       "AUDIO_CHANNEL_OUT_LOW_FREQUENCY";
       "AUDIO_CHANNEL_OUT_SIDE_LEFT";
       "AUDIO_CHANNEL_OUT_SIDE_RIGHT" ]);
    ("AUDIO_CHANNEL_OUT_5POINT1POINT2",
     [ "AUDIO_CHANNEL_OUT_5POINT1";
       "AUDIO_CHANNEL_OUT_TOP_SIDE_LEFT";
       "AUDIO_CHANNEL_OUT_TOP_SIDE_RIGHT" ]);
    ("AUDIO_CHANNEL_OUT_5POINT1POINT4",
     [ "AUDIO_CHANNEL_OUT_5POINT1";
       "AUDIO_CHANNEL_OUT_TOP_FRONT_LEFT";
       "AUDIO_CHANNEL_OUT_TOP_FRONT_RIGHT";
       "AUDIO_CHANNEL_OUT_TOP_BACK_LEFT";
       "AUDIO_CHANNEL_OUT_TOP_BACK_RIGHT" ]);
    ("AUDIO_CHANNEL_OUT_6POINT1",
     [ "AUDIO_CHANNEL_OUT_FRONT_LEFT";
       "AUDIO_CHANNEL_OUT_FRONT_RIGHT";
       "AUDIO_CHANNEL_OUT_FRONT_CENTER";
       "AUDIO_CHANNEL_OUT_LOW_FREQUENCY";
       "AUDIO_CHANNEL_OUT_BACK_LEFT";
       "AUDIO_CHANNEL_OUT_BACK_RIGHT";
       "AUDIO_CHANNEL_OUT_BACK_CENTER" ]);
    ("AUDIO_CHANNEL_OUT_7POINT1",
     [ "AUDIO_CHANNEL_OUT_FRONT_LEFT";
       "AUDIO_CHANNEL_OUT_FRONT_RIGHT";
       "AUDIO_CHANNEL_OUT_FRONT_CENTER";
       "AUDIO_CHANNEL_OUT_LOW_FREQUENCY";
       "AUDIO_CHANNEL_OUT_BACK_LEFT";
       "AUDIO_CHANNEL_OUT_BACK_RIGHT";
       "AUDIO_CHANNEL_OUT_SIDE_LEFT";
       "AUDIO_CHANNEL_OUT_SIDE_RIGHT" ]);
    ("AUDIO_CHANNEL_OUT_7POINT1POINT2",
     [ "AUDIO_CHANNEL_OUT_7POINT1";
       "AUDIO_CHANNEL_OUT_TOP_SIDE_LEFT";
       "AUDIO_CHANNEL_OUT_TOP_SIDE_RIGHT" ]);
    ("AUDIO_CHANNEL_OUT_7POINT1POINT4",
     [ "AUDIO_CHANNEL_OUT_7POINT1";
       "AUDIO_CHANNEL_OUT_TOP_FRONT_LEFT";
       "AUDIO_CHANNEL_OUT_TOP_FRONT_RIGHT";
       "AUDIO_CHANNEL_OUT_TOP_BACK_LEFT";
       "AUDIO_CHANNEL_OUT_TOP_BACK_RIGHT" ]);
    ("AUDIO_CHANNEL_OUT_MONO_HAPTIC_A",
     [ "AUDIO_CHANNEL_OUT_MONO";
       "AUDIO_CHANNEL_OUT_HAPTIC_A" ]);
    ("AUDIO_CHANNEL_OUT_STEREO_HAPTIC_A",
     [ "AUDIO_CHANNEL_OUT_STEREO";
       "AUDIO_CHANNEL_OUT_HAPTIC_A" ]);
    ("AUDIO_CHANNEL_OUT_HAPTIC_AB",
     [ "AUDIO_CHANNEL_OUT_HAPTIC_A";
       "AUDIO_CHANNEL_OUT_HAPTIC_B" ]);
    ("AUDIO_CHANNEL_OUT_MONO_HAPTIC_AB",
     [ "AUDIO_CHANNEL_OUT_MONO";
       "AUDIO_CHANNEL_OUT_HAPTIC_AB" ]);
    ("AUDIO_CHANNEL_OUT_STEREO_HAPTIC_AB",
     [ "AUDIO_CHANNEL_OUT_STEREO";
       "AUDIO_CHANNEL_OUT_HAPTIC_AB" ]);
    ("AUDIO_CHANNEL_OUT_5POINT1_BACK",
     [ "AUDIO_CHANNEL_OUT_5POINT1" ]);
    ("AUDIO_CHANNEL_OUT_QUAD_BACK",
     [ "AUDIO_CHANNEL_OUT_QUAD" ]) ].

(** The enumerator a symbol denotes among the rows of a list. *)
Fixpoint enumerator (cases : list entry) (sym : string) : option Z :=
  match cases with
  | [] => None
  | e :: r => if String.eqb sym (symbol e) then Some (value e) else enumerator r sym
  end.

(** [a | b | ...] for operands given by symbol; nothing when an operand
    is no enumerator of the list. *)
Fixpoint or_of (cases : list entry) (operands : list string) : option Z :=
  match operands with
  | [] => Some 0
  | o :: r =>
      match enumerator cases o, or_of cases r with
      | Some v, Some w => Some (v .| w)
      | _, _ => None
      end
  end.

Fixpoint operands_in (table : list (string * list string)) (sym : string)
  : option (list string) :=
  match table with
  | [] => None
  | (s, ops) :: r => if String.eqb sym s then Some ops else operands_in r sym
  end.

(** The discrete channels a symbol stands for: itself when it is a
    discrete output channel, otherwise those of the operands of its row,
    operand by operand. *)
Fixpoint discrete_out_channels_of (fuel : nat) (sym : string)
  : option (list string) :=
  match fuel with
  | O => None
  | S k =>
      if existsb (String.eqb sym)
                 (map symbol AUDIO_CHANNEL_OUT_DISCRETE_CHANNEL_LIST_DEF)
      then Some [sym]
      else
        match operands_in AUDIO_CHANNEL_OUT_MASK_OPERANDS sym with
        | None => None
        | Some ops =>
            fold_right
              (fun o acc =>
                 match discrete_out_channels_of k o, acc with
                 | Some l, Some r => Some (l ++ r)
                 | _, _ => None
                 end)
              (Some []) ops
        end
  end.

(** The discrete input channels a mask contains. *)
Definition in_channels_of (mask : Z) : list entry :=
  filter (fun c => Z.land mask (value c) =? value c)
         AUDIO_CHANNEL_IN_DISCRETE_CHANNEL_LIST_DEF.

(** No two values at different positions share a bit. *)
Fixpoint pairwise_disjoint (l : list Z) : bool :=
  match l with
  | [] => true
  | x :: r => forallb (fun y => Z.land x y =? 0) r && pairwise_disjoint r
  end.

(** ** The cached flag of [audio_utils/mutex.cpp] *)

Definition LOG_TAG : string := "audio_utils::mutex".

(** What [mutex_get_enable_flag] sees and changes of its process: how many
    times the flag library has been asked so far, the debug lines logged
    (tag and message), and the function-local [static const bool enable],
    which holds nothing until its initialiser has run. *)
Record process : Type := {
  flag_reads : nat;
  debug_log : list (string * string);
  enable : option bool
}.

(** [bool mutex_get_enable_flag()].  The flag library is outside the
    repository: [mutex_priority_inheritance k] stands for what
    [com::android::media::audio::flags::mutex_priority_inheritance()]
    answers when [k] calls to it came before. *)
Definition mutex_get_enable_flag
  (mutex_priority_inheritance : nat -> bool) (p : process) : bool * process :=
  match enable p with
  | Some e => (e, p)
  | None =>
      let flag := mutex_priority_inheritance (flag_reads p) in
      (flag,
       {| flag_reads := S (flag_reads p);
          debug_log :=
            debug_log p ++
            [ (LOG_TAG,
               ("get_enable_flag: mutex_priority_inheritance: " ++
                (if flag then "true" else "false"))%string) ];
          enable := Some flag |})
  end.

(** [n] calls one after the other: the values returned, in call order, and
    the process afterwards. *)
Fixpoint mutex_get_enable_flag_calls
  (mutex_priority_inheritance : nat -> bool) (n : nat) (p : process)
  : list bool * process :=
  match n with
  | O => ([], p)
  | S k =>
      let (r, p1) := mutex_get_enable_flag mutex_priority_inheritance p in
      let (rs, p2) := mutex_get_enable_flag_calls mutex_priority_inheritance k p1 in
      (r :: rs, p2)
  end.

(** * Properties of the templates *)

Section Templates.

Lemma string_compare_refl (a : string) : String.compare a a = Eq.
Proof.
  induction a as [| c a IH]; simpl; [reflexivity |].
  unfold Ascii.compare. now rewrite N.compare_refl.
Qed.

Lemma strcmp_zero (a b : string) : (strcmp a b =? 0) = String.eqb a b.
Proof.
  unfold strcmp.
  destruct (String.eqb_spec a b) as [-> | Hne].
  - now rewrite string_compare_refl.
  - destruct (String.compare a b) eqn:Hc; try reflexivity.
    apply String.compare_eq_iff in Hc. contradiction.
Qed.

Lemma strcmp_eq (a b : string) : strcmp a b = 0 <-> a = b.
Proof.
  rewrite <- Z.eqb_eq, strcmp_zero. apply String.eqb_eq.
Qed.

Lemma stringify_switch_cons (e : entry) (cases : list entry) (t : Z) :
  stringify_switch (e :: cases) t =
  if t =? value e then symbol e else stringify_switch cases t.
Proof. reflexivity. Qed.

Lemma parse_chain_cons (e : entry) (cases : list entry) (s : string) (t : Z) :
  parse_chain (e :: cases) s t =
  if String.eqb s (symbol e) then (true, value e) else parse_chain cases s t.
Proof.
  unfold parse_chain at 1; simpl. unfold AUDIO_DEFINE_PARSE_CASE.
  now rewrite strcmp_zero.
Qed.

Variable cases : list entry.

(** A non-empty projection is the symbol of a row with that value. *)
Lemma stringify_switch_hit (t : Z) :
  stringify_switch cases t <> "" ->
  In (V (stringify_switch cases t) t) cases.
Proof.
  induction cases as [| [n v] r IH]; intros H.
  - now elim H.
  - rewrite stringify_switch_cons in *. simpl in *.
    destruct (Z.eqb_spec t v) as [-> | Hne]; auto.
Qed.

Lemma stringify_switch_miss (t : Z) :
  ~ In t (values cases) -> stringify_switch cases t = "".
Proof.
  induction cases as [| [n v] r IH]; intros H; [reflexivity |].
  rewrite stringify_switch_cons. simpl in *.
  destruct (Z.eqb_spec t v) as [-> | Hne]; [tauto | apply IH; tauto].
Qed.

(** With distinct case labels the switch reaches the row of the value. *)
Lemma stringify_switch_row (e : entry) :
  NoDup (values cases) -> In e cases ->
  stringify_switch cases (value e) = symbol e.
Proof.
  induction cases as [| c r IH]; intros Hnd Hin; [destruct Hin |].
  rewrite stringify_switch_cons.
  inversion Hnd as [| x l Hx Hr]; subst.
  destruct Hin as [-> | Hin].
  - now rewrite Z.eqb_refl.
  - destruct (Z.eqb_spec (value e) (value c)) as [Heq | _]; [| now apply IH].
    exfalso. apply Hx. rewrite <- Heq. now apply in_map.
Qed.

(** Without a matching row the chain falls through to [return false]. *)
Lemma parse_chain_miss (s : string) (t : Z) :
  ~ In s (symbols cases) -> parse_chain cases s t = (false, t).
Proof.
  induction cases as [| [n v] r IH]; intros H; [reflexivity |].
  rewrite parse_chain_cons. simpl in *.
  destruct (String.eqb_spec s n) as [-> | Hne]; [tauto | apply IH; tauto].
Qed.

Lemma parse_chain_hit (s : string) (t v : Z) :
  parse_chain cases s t = (true, v) -> In (V s v) cases.
Proof.
  induction cases as [| [n w] r IH]; intros H; [discriminate |].
  rewrite parse_chain_cons in H. simpl in *.
  destruct (String.eqb_spec s n) as [-> | Hne].
  - injection H as <-. now left.
  - right. now apply IH.
Qed.

(** The chain either succeeds or returns [false] with [*t] as it was. *)
Lemma parse_chain_total (s : string) (t : Z) :
  (exists v, parse_chain cases s t = (true, v) /\ In (V s v) cases) \/
  (parse_chain cases s t = (false, t) /\ ~ In s (symbols cases)).
Proof.
  induction cases as [| [n w] r IH]; [right; split; [reflexivity | intros []] |].
  rewrite parse_chain_cons. simpl.
  destruct (String.eqb_spec s n) as [-> | Hne].
  - left. exists w. split; [reflexivity | now left].
  - destruct IH as [(v & Hv & Hin) | (Hf & Hin)].
    + left. exists v. split; [assumption | now right].
    + right. split; [assumption |]. intros [Heq | H]; [now subst | tauto].
Qed.

Lemma parse_chain_row (e : entry) (t : Z) :
  NoDup (symbols cases) -> In e cases ->
  parse_chain cases (symbol e) t = (true, value e).
Proof.
  induction cases as [| c r IH]; intros Hnd Hin; [destruct Hin |].
  rewrite parse_chain_cons.
  inversion Hnd as [| x l Hx Hr]; subst.
  destruct Hin as [-> | Hin].
  - now rewrite String.eqb_refl.
  - destruct (String.eqb_spec (symbol e) (symbol c)) as [Heq | _]; [| now apply IH].
    exfalso. apply Hx. rewrite <- Heq. now apply in_map.
Qed.

End Templates.

(** * Reflection of the boolean checks *)

Section Checks.

Context {A : Type} (eqb : A -> A -> bool).
Hypothesis eqb_eq : forall x y, eqb x y = true <-> x = y.

Lemma existsb_eqb_In (x : A) (l : list A) :
  existsb (eqb x) l = true <-> In x l.
Proof.
  rewrite existsb_exists. split.
  - intros (y & Hy & Heq). apply eqb_eq in Heq. now subst.
  - intros H. exists x. split; [assumption | now apply eqb_eq].
Qed.

Lemma distinct_NoDup (l : list A) : distinct eqb l = true -> NoDup l.
Proof.
  induction l as [| x r IH]; simpl; intros H; constructor.
  - apply andb_prop in H as [H _]. rewrite negb_true_iff in H.
    intros Hin. apply existsb_eqb_In in Hin. congruence.
  - apply IH. now apply andb_prop in H as [_ H].
Qed.

End Checks.

Lemma entry_eqb_eq (e1 e2 : entry) : entry_eqb e1 e2 = true <-> e1 = e2.
Proof.
  unfold entry_eqb. rewrite andb_true_iff, String.eqb_eq, Z.eqb_eq.
  destruct e1, e2; simpl. split; [intros [-> ->]; reflexivity | intros H; now inversion H].
Qed.

Lemma included_incl (l1 l2 : list entry) :
  included l1 l2 = true -> incl l1 l2.
Proof.
  unfold included. rewrite forallb_forall. intros H e He.
  apply (existsb_eqb_In entry_eqb entry_eqb_eq). now apply H.
Qed.

(** * Facts about the lists *)

Lemma to_string_switch (b : build) (d : domain) (t : Z) :
  to_string b d t = stringify_switch (to_string_cases b d) t.
Proof. destruct d; reflexivity. Qed.

Lemma from_string_chain (b : build) (d : domain) (s : string) (t : Z) :
  from_string b d s t = parse_chain (from_string_cases d) s t.
Proof. destruct d; reflexivity. Qed.

(** A framework build adds the framework-only rows to the switch and
    nothing else; a vendor build has none of them. *)
Lemma framework_to_string_cases (d : domain) :
  to_string_cases FrameworkBuild d =
  to_string_cases VendorBuild d ++ framework_only_cases d.
Proof. destruct d; reflexivity. Qed.

Lemma to_string_cases_split (b : build) (d : domain) (e : entry) :
  In e (to_string_cases b d) ->
  In e (to_string_cases VendorBuild d) \/
  (b = FrameworkBuild /\ In e (framework_only_cases d)).
Proof.
  destruct b; [now left |].
  rewrite framework_to_string_cases, in_app_iff. tauto.
Qed.

(** The case labels of every switch are distinct. *)
Lemma to_string_values_distinct (b : build) (d : domain) :
  NoDup (values (to_string_cases b d)).
Proof.
  apply (distinct_NoDup Z.eqb Z.eqb_eq).
  destruct b, d; vm_compute; reflexivity.
Qed.

(** The quoted symbols of every parser are distinct. *)
Lemma from_string_symbols_distinct (d : domain) :
  NoDup (symbols (from_string_cases d)).
Proof.
  apply (distinct_NoDup String.eqb String.eqb_eq).
  destruct d; vm_compute; reflexivity.
Qed.

(** Every row a vendor build projects is a row of the parser. *)
Lemma vendor_cases_parsed (d : domain) :
  incl (to_string_cases VendorBuild d) (from_string_cases d).
Proof. apply included_incl. destruct d; vm_compute; reflexivity. Qed.

(** No parser has a row for a framework-only symbol or value. *)
Lemma framework_only_unparsed (d : domain) (e : entry) :
  In e (framework_only_cases d) ->
  ~ In (symbol e) (symbols (from_string_cases d)) /\
  ~ In (value e) (values (from_string_cases d)).
Proof.
  assert (H : forallb (fun e =>
                negb (existsb (String.eqb (symbol e)) (symbols (from_string_cases d))) &&
                negb (existsb (Z.eqb (value e)) (values (from_string_cases d))))
              (framework_only_cases d) = true)
    by (destruct d; vm_compute; reflexivity).
  rewrite forallb_forall in H. intros He. specialize (H e He).
  apply andb_prop in H as [Hs Hv]. rewrite negb_true_iff in Hs, Hv.
  split; intros Hin.
  - apply (existsb_eqb_In String.eqb String.eqb_eq) in Hin. congruence.
  - apply (existsb_eqb_In Z.eqb Z.eqb_eq) in Hin. congruence.
Qed.

Lemma framework_only_value_In (d : domain) (e : entry) :
  In e (framework_only_cases d) -> framework_only_value d (value e) = true.
Proof.
  intros He. unfold framework_only_value. apply existsb_exists.
  exists e. split; [assumption | apply Z.eqb_refl].
Qed.

(** Every list value is representable in a 32-bit integer. *)
Lemma enum_values_fit_32_bits (b : build) (d : domain) (e : entry) :
  In e (to_string_cases b d ++ from_string_cases d) ->
  - 2 ^ 31 <= value e < 2 ^ 32.
Proof.
  assert (H : forallb (fun e => (- 2 ^ 31 <=? value e) && (value e <? 2 ^ 32))
                (to_string_cases b d ++ from_string_cases d) = true)
    by (destruct b, d; vm_compute; reflexivity).
  rewrite forallb_forall in H. intros He. specialize (H e He).
  apply andb_prop in H as [H1 H2].
  apply Z.leb_le in H1. apply Z.ltb_lt in H2. lia.
Qed.

Lemma no_match_check (cases : list entry) (s : string) :
  forallb (fun e => negb (strcmp s (symbol e) =? 0)) cases = true ->
  forall e, In e cases -> strcmp s (symbol e) <> 0.
Proof.
  rewrite forallb_forall. intros H e He Heq.
  specialize (H e He). rewrite negb_true_iff in H.
  apply Z.eqb_neq in H. contradiction.
Qed.

Lemma parse_chain_value (cases : list entry) (s : string) (t v : Z) :
  parse_chain cases s t = (true, v) -> existsb (Z.eqb v) (values cases) = true.
Proof.
  intros H. apply parse_chain_hit in H.
  apply (existsb_eqb_In Z.eqb Z.eqb_eq). exact (in_map value _ _ H).
Qed.

Lemma values_distinct_rows (cases : list entry) (i j : nat) (e1 e2 : entry) :
  NoDup (values cases) ->
  nth_error cases i = Some e1 -> nth_error cases j = Some e2 ->
  value e1 = value e2 -> i = j.
Proof.
  intros Hnd H1 H2 Heq.
  assert (Hi : (i < length (values cases))%nat).
  { unfold values. rewrite length_map. apply nth_error_Some. congruence. }
  apply (proj1 (NoDup_nth_error (values cases)) Hnd i j Hi).
  unfold values. rewrite !nth_error_map, H1, H2. simpl. now rewrite Heq.
Qed.

(** * Round trip *)

(** C1, as stated, fails in a framework build: the switch of
    [audio_source_to_string] names the framework-only value
    [AUDIO_SOURCE_INVALID], and [audio_source_from_string] has no row for
    that name. *)
Lemma roundtrip_fails_on_framework_only_source :
  to_string FrameworkBuild Source (-1) = "AUDIO_SOURCE_INVALID" /\
  to_string FrameworkBuild Source (-1) <> "" /\
  from_string FrameworkBuild Source (to_string FrameworkBuild Source (-1)) 0
    = (false, 0).
Proof. repeat split. vm_compute. discriminate. Qed.

(** C1 (amended): in a vendor build for every value, and in a framework
    build for every value that is not the value of a framework-only row:
    when the projection of [v] in a domain is a non-empty string, parsing
    that string in the same domain succeeds and writes back exactly [v]. *)
Theorem to_string_from_string_roundtrip (b : build) (d : domain) (v t : Z) :
  to_string b d v <> "" ->
  b = VendorBuild \/ framework_only_value d v = false ->
  from_string b d (to_string b d v) t = (true, v).
Proof.
  rewrite to_string_switch, from_string_chain. intros Hne Hfw.
  pose proof (stringify_switch_hit _ _ Hne) as Hin.
  apply to_string_cases_split in Hin as [Hin | [Hb Hin]].
  - apply vendor_cases_parsed in Hin.
    exact (parse_chain_row _ _ t (from_string_symbols_distinct d) Hin).
  - apply framework_only_value_In in Hin. simpl in Hin.
    destruct Hfw as [Hfw | Hfw]; congruence.
Qed.

Lemma to_string_from_string_roundtrip_witness :
  to_string FrameworkBuild Usage 1003 <> "" /\
  (FrameworkBuild = VendorBuild \/ framework_only_value Usage 1003 = false) /\
  from_string FrameworkBuild Usage (to_string FrameworkBuild Usage 1003) 7
    = (true, 1003).
Proof.
  split; [vm_compute; discriminate |].
  split; [right; reflexivity |].
  apply (to_string_from_string_roundtrip FrameworkBuild Usage 1003 7).
  - vm_compute; discriminate.
  - right; reflexivity.
Defined.

(** * Visibility of the framework-only rows *)

(** C2, as stated, fails in a framework build: [audio_usage_from_string]
    expands [AUDIO_USAGE_LIST_NO_SYS_DEF] whatever the build, so the
    framework-only name is rejected there too. *)
Lemma framework_build_rejects_notification_event :
  from_string FrameworkBuild Usage "AUDIO_USAGE_NOTIFICATION_EVENT" 0
    = (false, 0).
Proof. reflexivity. Qed.

(** C2 (amended): parsing a framework-only symbol name fails in a vendor
    build and in a framework build alike, leaving the output as it was;
    the build only changes the projection, which names the framework-only
    value in a framework build and returns the empty string in a vendor
    build. *)
Theorem framework_only_rows_project_but_never_parse
  (b : build) (d : domain) (e : entry) (t : Z) :
  In e (framework_only_cases d) ->
  from_string b d (symbol e) t = (false, t) /\
  to_string FrameworkBuild d (value e) = symbol e /\
  to_string VendorBuild d (value e) = "".
Proof.
  intros He. destruct (framework_only_unparsed d e He) as [Hs Hv].
  rewrite from_string_chain, !to_string_switch. repeat split.
  - now apply parse_chain_miss.
  - apply stringify_switch_row; [apply to_string_values_distinct |].
    rewrite framework_to_string_cases. apply in_or_app. now right.
  - apply stringify_switch_miss. intros Hin. apply Hv.
    unfold values in *. apply in_map_iff in Hin as (c & Hc & Hin).
    rewrite <- Hc. apply in_map. now apply vendor_cases_parsed.
Qed.

Lemma framework_only_rows_project_but_never_parse_witness :
  In (V "AUDIO_USAGE_NOTIFICATION_EVENT" 10) (framework_only_cases Usage) /\
  from_string VendorBuild Usage "AUDIO_USAGE_NOTIFICATION_EVENT" 3 = (false, 3) /\
  to_string FrameworkBuild Usage 10 = "AUDIO_USAGE_NOTIFICATION_EVENT" /\
  to_string VendorBuild Usage 10 = "".
Proof.
  split; [simpl; tauto |].
  apply (framework_only_rows_project_but_never_parse
           VendorBuild Usage (V "AUDIO_USAGE_NOTIFICATION_EVENT" 10) 3).
  simpl; tauto.
Defined.

(** * Aliases *)

(** C3: when a row [a] of a parser has the value of a row [s] of the
    projection switch under a different symbol, the projection of that
    value is the symbol of [s] and not the one of [a], parsing the symbol
    of [a] succeeds with that value, and parsing either symbol gives the
    same result. *)
Theorem alias_projects_to_canonical_symbol
  (b : build) (d : domain) (a s : entry) (t : Z) :
  In a (from_string_cases d) ->
  In s (to_string_cases b d) ->
  value a = value s ->
  symbol a <> symbol s ->
  to_string b d (value a) = symbol s /\
  to_string b d (value a) <> symbol a /\
  from_string b d (symbol a) t = (true, value a) /\
  from_string b d (symbol s) t = from_string b d (symbol a) t.
Proof.
  intros Ha Hs Hv Hne.
  assert (Hp : to_string b d (value a) = symbol s).
  { rewrite to_string_switch, Hv.
    apply stringify_switch_row; [apply to_string_values_distinct | assumption]. }
  assert (Hq : from_string b d (symbol a) t = (true, value a)).
  { rewrite from_string_chain.
    apply parse_chain_row; [apply from_string_symbols_distinct | assumption]. }
  repeat split; try assumption.
  - rewrite Hp. congruence.
  - rewrite Hq, Hv, from_string_chain.
    apply parse_chain_row; [apply from_string_symbols_distinct |].
    apply to_string_cases_split in Hs as [Hs | [_ Hs]].
    + now apply vendor_cases_parsed.
    + exfalso. apply (framework_only_unparsed d s Hs).
      rewrite <- Hv. now apply in_map.
Qed.

Lemma alias_projects_to_canonical_symbol_witness :
  In (V "AUDIO_CHANNEL_OUT_5POINT1_BACK" 0x3F) (from_string_cases ChannelOutMask) /\
  In (V "AUDIO_CHANNEL_OUT_5POINT1" 0x3F) (to_string_cases VendorBuild ChannelOutMask) /\
  to_string VendorBuild ChannelOutMask 0x3F = "AUDIO_CHANNEL_OUT_5POINT1" /\
  to_string VendorBuild ChannelOutMask 0x3F <> "AUDIO_CHANNEL_OUT_5POINT1_BACK" /\
  from_string VendorBuild ChannelOutMask "AUDIO_CHANNEL_OUT_5POINT1_BACK" 0
    = (true, 0x3F) /\
  from_string VendorBuild ChannelOutMask "AUDIO_CHANNEL_OUT_5POINT1" 0
    = from_string VendorBuild ChannelOutMask "AUDIO_CHANNEL_OUT_5POINT1_BACK" 0.
Proof.
  assert (Ha : In (V "AUDIO_CHANNEL_OUT_5POINT1_BACK" 0x3F)
                  (from_string_cases ChannelOutMask))
    by (apply (existsb_eqb_In entry_eqb entry_eqb_eq); vm_compute; reflexivity).
  assert (Hs : In (V "AUDIO_CHANNEL_OUT_5POINT1" 0x3F)
                  (to_string_cases VendorBuild ChannelOutMask))
    by (apply (existsb_eqb_In entry_eqb entry_eqb_eq); vm_compute; reflexivity).
  split; [exact Ha |]. split; [exact Hs |].
  apply (alias_projects_to_canonical_symbol VendorBuild ChannelOutMask
           (V "AUDIO_CHANNEL_OUT_5POINT1_BACK" 0x3F)
           (V "AUDIO_CHANNEL_OUT_5POINT1" 0x3F) 0 Ha Hs).
  - reflexivity.
  - simpl. discriminate.
Defined.

(** The aliases of the two lists that have some, with the symbol the
    projection returns for their value. *)
Example aliases_of_the_lists :
  map (fun e => (symbol e, audio_channel_out_mask_to_string (value e)))
      (skipn (length AUDIO_CHANNEL_OUT_MASK_LIST_UNIQUE_DEF)
             AUDIO_CHANNEL_OUT_MASK_LIST_DEF)
  = [ ("AUDIO_CHANNEL_OUT_5POINT1_BACK", "AUDIO_CHANNEL_OUT_5POINT1");
      ("AUDIO_CHANNEL_OUT_QUAD_BACK", "AUDIO_CHANNEL_OUT_QUAD") ] /\
  map (fun e => (symbol e, audio_device_to_string (value e)))
      (skipn (length AUDIO_DEVICE_LIST_UNIQUE_DEF) AUDIO_DEVICE_LIST_DEF)
  = [ ("AUDIO_DEVICE_OUT_AUX_DIGITAL", "AUDIO_DEVICE_OUT_HDMI");
      ("AUDIO_DEVICE_OUT_STUB", "AUDIO_DEVICE_OUT_DEFAULT");
      ("AUDIO_DEVICE_IN_VOICE_CALL", "AUDIO_DEVICE_IN_TELEPHONY_RX");
      ("AUDIO_DEVICE_IN_AUX_DIGITAL", "AUDIO_DEVICE_IN_HDMI");
      ("AUDIO_DEVICE_IN_STUB", "AUDIO_DEVICE_IN_DEFAULT") ].
Proof. split; vm_compute; reflexivity. Qed.

(** * Sentinels *)

(** C4: [AUDIO_CHANNEL_INVALID] (0xC0000000) and [AUDIO_FORMAT_INVALID]
    (0xFFFFFFFF) are projected to the empty string by every projection of
    their domain, and no string parses to either of them. *)
Theorem invalid_sentinels_have_no_string :
  AUDIO_CHANNEL_INVALID = 0xC0000000 /\
  AUDIO_FORMAT_INVALID = 0xFFFFFFFF /\
  audio_channel_out_mask_to_string AUDIO_CHANNEL_INVALID = "" /\
  audio_channel_in_mask_to_string AUDIO_CHANNEL_INVALID = "" /\
  audio_channel_index_mask_to_string AUDIO_CHANNEL_INVALID = "" /\
  audio_format_to_string AUDIO_FORMAT_INVALID = "" /\
  (forall (s : string) (t v : Z),
      audio_channel_mask_from_string s t = (true, v) ->
      v <> AUDIO_CHANNEL_INVALID) /\
  (forall (s : string) (t v : Z),
      audio_format_from_string s t = (true, v) ->
      v <> AUDIO_FORMAT_INVALID).
Proof.
  do 6 (split; [reflexivity |]).
  split; intros s t v H Hv; apply parse_chain_value in H; subst v;
    vm_compute in H; discriminate.
Qed.

Lemma invalid_sentinels_have_no_string_witness :
  audio_format_from_string "AUDIO_FORMAT_MP3" 0 = (true, 0x1000000) /\
  0x1000000 <> AUDIO_FORMAT_INVALID.
Proof.
  split; [reflexivity |].
  destruct invalid_sentinels_have_no_string as (_ & _ & _ & _ & _ & _ & _ & H).
  apply (H "AUDIO_FORMAT_MP3" 0 0x1000000). reflexivity.
Defined.

(** * Parse failure *)

(** C5: when no row of a parser matches the input string, the parser
    returns [false] and the output location keeps the value it had.  The
    parser is a total function: it has no other outcome than a returned
    pair. *)
Theorem from_string_no_match (b : build) (d : domain) (s : string) (t : Z) :
  (forall e, In e (from_string_cases d) -> strcmp s (symbol e) <> 0) ->
  from_string b d s t = (false, t).
Proof.
  intros H. rewrite from_string_chain. apply parse_chain_miss.
  intros Hin. unfold symbols in Hin. apply in_map_iff in Hin as (e & He & Hin).
  apply (H e Hin). apply strcmp_eq. now symmetry.
Qed.

Lemma from_string_no_match_witness :
  (forall e, In e (from_string_cases Device) ->
             strcmp "AUDIO_DEVICE_OUT_MOON" (symbol e) <> 0) /\
  from_string VendorBuild Device "AUDIO_DEVICE_OUT_MOON" 42 = (false, 42).
Proof.
  assert (H : forall e, In e (from_string_cases Device) ->
                        strcmp "AUDIO_DEVICE_OUT_MOON" (symbol e) <> 0)
    by (apply no_match_check; vm_compute; reflexivity).
  split; [exact H |].
  exact (from_string_no_match VendorBuild Device "AUDIO_DEVICE_OUT_MOON" 42 H).
Defined.

(** A parser that returns [false] did not write to the output location,
    and it returns [false] only when no row matches. *)
Lemma from_string_false (b : build) (d : domain) (s : string) (t : Z) :
  fst (from_string b d s t) = false ->
  from_string b d s t = (false, t) /\
  forall e, In e (from_string_cases d) -> strcmp s (symbol e) <> 0.
Proof.
  rewrite from_string_chain.
  destruct (parse_chain_total (from_string_cases d) s t)
    as [(v & Hv & _) | (Hf & Hin)]; [rewrite Hv; discriminate |].
  intros _. split; [assumption |].
  intros e He Heq. apply strcmp_eq in Heq. apply Hin. subst s. now apply in_map.
Qed.

(** * Index masks *)

Lemma index_mask_row (n : Z) :
  1 <= n <= 24 ->
  In (V (index_mask_name n) (0x80000000 .| (1 << n) - 1))
     AUDIO_CHANNEL_INDEX_MASK_LIST_DEF.
Proof.
  intros Hn.
  assert (H : forallb (fun k =>
                existsb (entry_eqb (V (index_mask_name (Z.of_nat k))
                                      (0x80000000 .| (1 << Z.of_nat k) - 1)))
                        AUDIO_CHANNEL_INDEX_MASK_LIST_DEF)
              (seq 1 24) = true) by (vm_compute; reflexivity).
  rewrite forallb_forall in H.
  specialize (H (Z.to_nat n)). rewrite Z2Nat.id in H by lia.
  apply (existsb_eqb_In entry_eqb entry_eqb_eq), H, in_seq. lia.
Qed.

Example index_mask_names :
  index_mask_name 1 = "AUDIO_CHANNEL_INDEX_MASK_1" /\
  index_mask_name 24 = "AUDIO_CHANNEL_INDEX_MASK_24".
Proof. split; reflexivity. Qed.

(** C6: for [n] from 1 to 24, parsing ["AUDIO_CHANNEL_INDEX_MASK_"]
    followed by [n] in decimal succeeds with the value
    [0x80000000 | ((1 << n) - 1)], and the index projection of that value
    is the same string. *)
Theorem index_mask_formula (n t : Z) :
  1 <= n <= 24 ->
  audio_channel_mask_from_string (index_mask_name n) t
    = (true, 0x80000000 .| (1 << n) - 1) /\
  audio_channel_index_mask_to_string (0x80000000 .| (1 << n) - 1)
    = index_mask_name n.
Proof.
  intros Hn. pose proof (index_mask_row n Hn) as Hrow. split.
  - apply (parse_chain_row (from_string_cases ChannelIndexMask) (V _ _) t).
    + apply from_string_symbols_distinct.
    + unfold from_string_cases. do 3 (apply in_or_app; right). exact Hrow.
  - apply (stringify_switch_row (to_string_cases VendorBuild ChannelIndexMask) (V _ _)).
    + apply to_string_values_distinct.
    + unfold to_string_cases. apply in_or_app. right. exact Hrow.
Qed.

Lemma index_mask_formula_witness :
  1 <= 3 <= 24 /\
  audio_channel_mask_from_string "AUDIO_CHANNEL_INDEX_MASK_3" 0
    = (true, 0x80000007) /\
  audio_channel_index_mask_to_string 0x80000007 = "AUDIO_CHANNEL_INDEX_MASK_3".
Proof.
  split; [lia |].
  apply (index_mask_formula 3 0). lia.
Defined.

(** * Distinct case labels *)

(** C7: in the switch of every projection, in either build, two rows at
    different positions have different values. *)
Theorem canonical_values_pairwise_distinct
  (b : build) (d : domain) (i j : nat) (e1 e2 : entry) :
  nth_error (to_string_cases b d) i = Some e1 ->
  nth_error (to_string_cases b d) j = Some e2 ->
  i <> j ->
  value e1 <> value e2.
Proof.
  intros H1 H2 Hij Heq. apply Hij.
  exact (values_distinct_rows _ i j e1 e2 (to_string_values_distinct b d) H1 H2 Heq).
Qed.

Lemma canonical_values_pairwise_distinct_witness :
  nth_error (to_string_cases VendorBuild ChannelOutMask) 2
    = Some (V "AUDIO_CHANNEL_OUT_STEREO" 0x3) /\
  nth_error (to_string_cases VendorBuild ChannelOutMask) 11
    = Some (V "AUDIO_CHANNEL_OUT_QUAD" 0x33) /\
  (2 <> 11)%nat /\
  0x3 <> 0x33.
Proof.
  split; [reflexivity |]. split; [reflexivity |]. split; [lia |].
  apply (canonical_values_pairwise_distinct VendorBuild ChannelOutMask 2 11
           (V "AUDIO_CHANNEL_OUT_STEREO" 0x3) (V "AUDIO_CHANNEL_OUT_QUAD" 0x33)).
  - reflexivity.
  - reflexivity.
  - lia.
Defined.

(** * Composite output masks *)

Lemma operands_in_In (table : list (string * list string))
  (sym : string) (ops : list string) :
  operands_in table sym = Some ops -> In (sym, ops) table.
Proof.
  induction table as [| [s o] r IH]; simpl; [discriminate |].
  destruct (String.eqb_spec sym s) as [-> | _].
  - intros H. injection H as ->. now left.
  - intros H. right. now apply IH.
Qed.

(** C8: every discrete output channel is a single bit, and every output
    mask (aliases included) is the union of the discrete output channels
    it contains.  Every row of the mask list has a row of operands, those
    the header writes; the value of the mask is the OR of the enumerators
    its operands name, and, once the operands that are masks themselves
    are replaced by their own operands, the OR of discrete output
    channels, which are exactly the discrete channels the value contains;
    parsing the symbol of the mask gives that value.  Parsing
    ["AUDIO_CHANNEL_OUT_STEREO"] gives front left and front right, 0x3;
    parsing ["AUDIO_CHANNEL_OUT_5POINT1"] gives the six channels of the
    layout, 0x3F. *)
Theorem out_masks_are_unions_of_discrete_channels :
  (forall c, In c AUDIO_CHANNEL_OUT_DISCRETE_CHANNEL_LIST_DEF ->
             exists k, 0 <= k < 32 /\ value c = 1 << k) /\
  (forall e, In e AUDIO_CHANNEL_OUT_MASK_LIST_DEF ->
             value e = bit_mask_of (out_channels_of (value e))) /\
  map fst AUDIO_CHANNEL_OUT_MASK_OPERANDS = symbols AUDIO_CHANNEL_OUT_MASK_LIST_DEF /\
  (forall e t, In e AUDIO_CHANNEL_OUT_MASK_LIST_DEF ->
     exists ops ds,
       In (symbol e, ops) AUDIO_CHANNEL_OUT_MASK_OPERANDS /\
       or_of (AUDIO_CHANNEL_OUT_DISCRETE_CHANNEL_LIST_DEF ++
              AUDIO_CHANNEL_OUT_MASK_LIST_DEF) ops = Some (value e) /\
       discrete_out_channels_of 3 (symbol e) = Some ds /\
       ds <> [] /\
       or_of AUDIO_CHANNEL_OUT_DISCRETE_CHANNEL_LIST_DEF ds = Some (value e) /\
       (forall c, In c ds <-> In c (symbols (out_channels_of (value e)))) /\
       audio_channel_mask_from_string (symbol e) t = (true, value e)) /\
  (forall t, audio_channel_mask_from_string "AUDIO_CHANNEL_OUT_STEREO" t
             = (true, AUDIO_CHANNEL_OUT_FRONT_LEFT .| AUDIO_CHANNEL_OUT_FRONT_RIGHT)) /\
  AUDIO_CHANNEL_OUT_FRONT_LEFT .| AUDIO_CHANNEL_OUT_FRONT_RIGHT = 0x3 /\
  symbols (out_channels_of AUDIO_CHANNEL_OUT_STEREO)
    = [ "AUDIO_CHANNEL_OUT_FRONT_LEFT"; "AUDIO_CHANNEL_OUT_FRONT_RIGHT" ] /\
  (forall t, audio_channel_mask_from_string "AUDIO_CHANNEL_OUT_5POINT1" t
             = (true, AUDIO_CHANNEL_OUT_FRONT_LEFT .| AUDIO_CHANNEL_OUT_FRONT_RIGHT .|
                      AUDIO_CHANNEL_OUT_FRONT_CENTER .| AUDIO_CHANNEL_OUT_LOW_FREQUENCY .|
                      AUDIO_CHANNEL_OUT_BACK_LEFT .| AUDIO_CHANNEL_OUT_BACK_RIGHT)) /\
  AUDIO_CHANNEL_OUT_FRONT_LEFT .| AUDIO_CHANNEL_OUT_FRONT_RIGHT .|
  AUDIO_CHANNEL_OUT_FRONT_CENTER .| AUDIO_CHANNEL_OUT_LOW_FREQUENCY .|
  AUDIO_CHANNEL_OUT_BACK_LEFT .| AUDIO_CHANNEL_OUT_BACK_RIGHT = 0x3F /\
  symbols (out_channels_of AUDIO_CHANNEL_OUT_5POINT1)
    = [ "AUDIO_CHANNEL_OUT_FRONT_LEFT"; "AUDIO_CHANNEL_OUT_FRONT_RIGHT";
        "AUDIO_CHANNEL_OUT_FRONT_CENTER"; "AUDIO_CHANNEL_OUT_LOW_FREQUENCY";
        "AUDIO_CHANNEL_OUT_BACK_LEFT"; "AUDIO_CHANNEL_OUT_BACK_RIGHT" ].
Proof.
  split.
  { assert (H : forallb (fun c => single_bit (value c))
                  AUDIO_CHANNEL_OUT_DISCRETE_CHANNEL_LIST_DEF = true)
      by (vm_compute; reflexivity).
    rewrite forallb_forall in H. intros c Hc. specialize (H c Hc).
    unfold single_bit in H. apply existsb_exists in H as (k & Hk & Heq).
    apply in_seq in Hk. apply Z.eqb_eq in Heq.
    exists (Z.of_nat k). split; [lia | assumption]. }
  split.
  { assert (H : forallb (fun e => value e =? bit_mask_of (out_channels_of (value e)))
                  AUDIO_CHANNEL_OUT_MASK_LIST_DEF = true)
      by (vm_compute; reflexivity).
    rewrite forallb_forall in H. intros e He. apply Z.eqb_eq. now apply H. }
  split; [vm_compute; reflexivity |].
  split.
  { intros e t He.
    assert (H : forallb (fun e =>
                  match operands_in AUDIO_CHANNEL_OUT_MASK_OPERANDS (symbol e),
                        discrete_out_channels_of 3 (symbol e) with
                  | Some ops, Some ds =>
                      match or_of (AUDIO_CHANNEL_OUT_DISCRETE_CHANNEL_LIST_DEF ++
                                   AUDIO_CHANNEL_OUT_MASK_LIST_DEF) ops,
                            or_of AUDIO_CHANNEL_OUT_DISCRETE_CHANNEL_LIST_DEF ds with
                      | Some v, Some w =>
                          (v =? value e) && (w =? value e) &&
                          negb (Nat.eqb (length ds) 0) &&
                          forallb (fun c =>
                                     existsb (String.eqb c)
                                             (symbols (out_channels_of (value e)))) ds &&
                          forallb (fun c => existsb (String.eqb c) ds)
                                  (symbols (out_channels_of (value e)))
                      | _, _ => false
                      end
                  | _, _ => false
                  end) AUDIO_CHANNEL_OUT_MASK_LIST_DEF = true)
      by (vm_compute; reflexivity).
    rewrite forallb_forall in H. pose proof (H e He) as Hc. cbv beta in Hc.
    destruct (operands_in AUDIO_CHANNEL_OUT_MASK_OPERANDS (symbol e))
      as [ops |] eqn:Hops; [| discriminate].
    destruct (discrete_out_channels_of 3 (symbol e)) as [ds |] eqn:Hds;
      [| discriminate].
    destruct (or_of (AUDIO_CHANNEL_OUT_DISCRETE_CHANNEL_LIST_DEF ++
                     AUDIO_CHANNEL_OUT_MASK_LIST_DEF) ops) as [v |] eqn:Hv;
      [| discriminate].
    destruct (or_of AUDIO_CHANNEL_OUT_DISCRETE_CHANNEL_LIST_DEF ds) as [w |] eqn:Hw;
      [| discriminate].
    apply andb_prop in Hc as [Hc H5]. apply andb_prop in Hc as [Hc H4].
    apply andb_prop in Hc as [Hc H3]. apply andb_prop in Hc as [H1 H2].
    apply Z.eqb_eq in H1, H2. subst v w.
    rewrite forallb_forall in H4, H5.
    exists ops, ds.
    split; [now apply operands_in_In |].
    split; [exact Hv |]. split; [reflexivity |].
    split; [intros ->; discriminate |].
    split; [exact Hw |].
    split.
    - intros c. split; intros Hin.
      + apply (existsb_eqb_In String.eqb String.eqb_eq). now apply H4.
      + apply (existsb_eqb_In String.eqb String.eqb_eq). now apply H5.
    - apply (parse_chain_row (from_string_cases ChannelOutMask) e t).
      + apply from_string_symbols_distinct.
      + unfold from_string_cases. apply in_or_app. right.
        apply in_or_app. now left. }
  repeat split.
Qed.

Lemma out_masks_are_unions_of_discrete_channels_witness :
  In (V "AUDIO_CHANNEL_OUT_PENTA" 0x37) AUDIO_CHANNEL_OUT_MASK_LIST_DEF /\
  0x37 = bit_mask_of (out_channels_of 0x37) /\
  symbols (out_channels_of 0x37)
    = [ "AUDIO_CHANNEL_OUT_FRONT_LEFT"; "AUDIO_CHANNEL_OUT_FRONT_RIGHT";
        "AUDIO_CHANNEL_OUT_FRONT_CENTER"; "AUDIO_CHANNEL_OUT_BACK_LEFT";
        "AUDIO_CHANNEL_OUT_BACK_RIGHT" ] /\
  operands_in AUDIO_CHANNEL_OUT_MASK_OPERANDS "AUDIO_CHANNEL_OUT_PENTA"
    = Some [ "AUDIO_CHANNEL_OUT_QUAD"; "AUDIO_CHANNEL_OUT_FRONT_CENTER" ] /\
  discrete_out_channels_of 3 "AUDIO_CHANNEL_OUT_PENTA"
    = Some [ "AUDIO_CHANNEL_OUT_FRONT_LEFT"; "AUDIO_CHANNEL_OUT_FRONT_RIGHT";
             "AUDIO_CHANNEL_OUT_BACK_LEFT"; "AUDIO_CHANNEL_OUT_BACK_RIGHT";
             "AUDIO_CHANNEL_OUT_FRONT_CENTER" ] /\
  (exists ops ds,
     In ("AUDIO_CHANNEL_OUT_PENTA", ops) AUDIO_CHANNEL_OUT_MASK_OPERANDS /\
     or_of (AUDIO_CHANNEL_OUT_DISCRETE_CHANNEL_LIST_DEF ++
            AUDIO_CHANNEL_OUT_MASK_LIST_DEF) ops = Some 0x37 /\
     discrete_out_channels_of 3 "AUDIO_CHANNEL_OUT_PENTA" = Some ds /\
     or_of AUDIO_CHANNEL_OUT_DISCRETE_CHANNEL_LIST_DEF ds = Some 0x37 /\
     audio_channel_mask_from_string "AUDIO_CHANNEL_OUT_PENTA" 9 = (true, 0x37)).
Proof.
  assert (H : In (V "AUDIO_CHANNEL_OUT_PENTA" 0x37) AUDIO_CHANNEL_OUT_MASK_LIST_DEF)
    by (apply (existsb_eqb_In entry_eqb entry_eqb_eq); vm_compute; reflexivity).
  split; [exact H |]. split; [| split; [reflexivity |]].
  - destruct out_masks_are_unions_of_discrete_channels as (_ & Hu & _).
    exact (Hu (V "AUDIO_CHANNEL_OUT_PENTA" 0x37) H).
  - split; [reflexivity |]. split; [reflexivity |].
    destruct out_masks_are_unions_of_discrete_channels as (_ & _ & _ & Ho & _).
    destruct (Ho (V "AUDIO_CHANNEL_OUT_PENTA" 0x37) 9 H)
      as (ops & ds & H1 & H2 & H3 & _ & H5 & _ & H7).
    exists ops, ds. repeat split; assumption.
Defined.

(** * Channel mask entry points *)

(** C9, as stated, fails for parsing: the header has a single parser for
    channel masks, which takes no direction and converts the mask names
    of the three directions alike; a caller that converts output masks
    gets an input mask name accepted, with a value the output projection
    does not know. *)
Lemma channel_mask_parser_accepts_every_direction :
  audio_channel_mask_from_string "AUDIO_CHANNEL_OUT_STEREO" 0 = (true, 0x3) /\
  audio_channel_mask_from_string "AUDIO_CHANNEL_IN_STEREO" 0 = (true, 0xC) /\
  audio_channel_mask_from_string "AUDIO_CHANNEL_INDEX_MASK_2" 0
    = (true, 0x80000003) /\
  from_string VendorBuild ChannelOutMask "AUDIO_CHANNEL_IN_STEREO" 0
    = (true, 0xC) /\
  ~ In "AUDIO_CHANNEL_IN_STEREO"
       (symbols (to_string_cases VendorBuild ChannelOutMask)) /\
  to_string VendorBuild ChannelOutMask 0xC = "".
Proof.
  do 4 (split; [reflexivity |]). split; [| reflexivity].
  intros H. apply (existsb_eqb_In String.eqb String.eqb_eq) in H.
  vm_compute in H. discriminate.
Qed.

(** C9 (amended): projection has one entry point per direction; the
    projection of a direction returns only the symbol of a row of its own
    switch, which is no symbol of another direction unless it is
    ["AUDIO_CHANNEL_NONE"], and a value that one direction names is not
    named by another direction unless it is 0.  Parsing has one entry
    point for the three directions together: it accepts the symbol of
    every row of every direction and writes the value of the row; it
    accepts the two output aliases as well, with the value of the mask
    they stand for, and so every row of the four lists it expands. *)
Theorem channel_mask_entry_points
  (b : build) (d1 d2 : domain) (v t : Z) (e : entry) :
  In d1 channel_directions ->
  In d2 channel_directions ->
  d1 <> d2 ->
  (to_string b d1 v <> "" ->
     In (V (to_string b d1 v) v) (to_string_cases b d1) /\
     (to_string b d1 v = "AUDIO_CHANNEL_NONE" \/
      ~ In (to_string b d1 v) (symbols (to_string_cases b d2))) /\
     (v = 0 \/ to_string b d2 v = "")) /\
  (In e (to_string_cases b d1) ->
     audio_channel_mask_from_string (symbol e) t = (true, value e)) /\
  audio_channel_mask_from_string "AUDIO_CHANNEL_OUT_5POINT1_BACK" t
    = (true, AUDIO_CHANNEL_OUT_5POINT1) /\
  audio_channel_mask_from_string "AUDIO_CHANNEL_OUT_QUAD_BACK" t
    = (true, AUDIO_CHANNEL_OUT_QUAD) /\
  (forall a, In a (AUDIO_CHANNEL_IN_OUT_MASK_LIST_DEF ++
                   AUDIO_CHANNEL_OUT_MASK_LIST_DEF ++
                   AUDIO_CHANNEL_IN_MASK_LIST_DEF ++
                   AUDIO_CHANNEL_INDEX_MASK_LIST_DEF) ->
             audio_channel_mask_from_string (symbol a) t = (true, value a)).
Proof.
  intros H1 H2 Hne.
  assert (Hf1 : from_string b d1 = audio_channel_mask_from_string)
    by (simpl in H1; destruct H1 as [<- | [<- | [<- | []]]]; reflexivity).
  assert (Hd : forallb (fun c =>
             String.eqb (symbol c) "AUDIO_CHANNEL_NONE" && (value c =? 0) ||
             negb (existsb (String.eqb (symbol c)) (symbols (to_string_cases b d2))) &&
             negb (existsb (Z.eqb (value c)) (values (to_string_cases b d2))))
           (to_string_cases b d1) = true).
  { simpl in H1, H2.
    destruct H1 as [<- | [<- | [<- | []]]], H2 as [<- | [<- | [<- | []]]];
      try (now elim Hne); destruct b; vm_compute; reflexivity. }
  rewrite forallb_forall in Hd.
  split; [| split; [| split; [| split]]].
  - intros Hs. rewrite to_string_switch in *.
    pose proof (stringify_switch_hit _ _ Hs) as Hin.
    split; [assumption |].
    specialize (Hd _ Hin). cbv beta in Hd.
    change (symbol (V (stringify_switch (to_string_cases b d1) v) v))
      with (stringify_switch (to_string_cases b d1) v) in Hd.
    change (value (V (stringify_switch (to_string_cases b d1) v) v)) with v in Hd.
    apply orb_prop in Hd as [Hd | Hd]; apply andb_prop in Hd as [Ha Hb].
    + apply String.eqb_eq in Ha. apply Z.eqb_eq in Hb. split; now left.
    + rewrite negb_true_iff in Ha, Hb. split; right.
      * intros Hc. apply (existsb_eqb_In String.eqb String.eqb_eq) in Hc. congruence.
      * rewrite to_string_switch. apply stringify_switch_miss.
        intros Hc. apply (existsb_eqb_In Z.eqb Z.eqb_eq) in Hc. congruence.
  - intros He. rewrite <- Hf1, from_string_chain.
    apply parse_chain_row; [apply from_string_symbols_distinct |].
    apply vendor_cases_parsed.
    simpl in H1. destruct H1 as [<- | [<- | [<- | []]]]; exact He.
  - vm_compute; reflexivity.
  - vm_compute; reflexivity.
  - intros a Ha.
    exact (parse_chain_row (from_string_cases ChannelOutMask) a t
             (from_string_symbols_distinct ChannelOutMask) Ha).
Qed.

Lemma channel_mask_entry_points_witness :
  In ChannelInMask channel_directions /\
  In ChannelOutMask channel_directions /\
  ChannelInMask <> ChannelOutMask /\
  to_string VendorBuild ChannelInMask 0xC = "AUDIO_CHANNEL_IN_STEREO" /\
  ~ In "AUDIO_CHANNEL_IN_STEREO" (symbols (to_string_cases VendorBuild ChannelOutMask)) /\
  to_string VendorBuild ChannelOutMask 0xC = "" /\
  audio_channel_mask_from_string "AUDIO_CHANNEL_IN_STEREO" 1 = (true, 0xC) /\
  audio_channel_mask_from_string "AUDIO_CHANNEL_OUT_5POINT1_BACK" 1 = (true, 0x3F) /\
  audio_channel_mask_from_string "AUDIO_CHANNEL_OUT_QUAD_BACK" 1 = (true, 0x33).
Proof.
  assert (Hin : In (V "AUDIO_CHANNEL_IN_STEREO" 0xC)
                   (to_string_cases VendorBuild ChannelInMask))
    by (apply (existsb_eqb_In entry_eqb entry_eqb_eq); vm_compute; reflexivity).
  assert (H1 : In ChannelInMask channel_directions) by (simpl; tauto).
  assert (H2 : In ChannelOutMask channel_directions) by (simpl; tauto).
  assert (H3 : ChannelInMask <> ChannelOutMask) by discriminate.
  do 3 (split; [assumption |]).
  destruct (channel_mask_entry_points VendorBuild ChannelInMask ChannelOutMask
              0xC 1 (V "AUDIO_CHANNEL_IN_STEREO" 0xC) H1 H2 H3)
    as (Hp & Hq & Ha1 & Ha2 & _).
  destruct Hp as (_ & Hs & Hv); [vm_compute; discriminate |].
  split; [reflexivity |].
  split; [destruct Hs as [Hs | Hs]; [vm_compute in Hs; discriminate | exact Hs] |].
  split; [destruct Hv as [Hv | Hv]; [discriminate | exact Hv] |].
  split; [exact (Hq Hin) |].
  split; [exact Ha1 | exact Ha2].
Defined.

(** * Format 0 *)

(** C10: the format value 0 is projected to ["AUDIO_FORMAT_DEFAULT"];
    [AUDIO_FORMAT_PCM], which is outside the list, is also 0 and so has
    that string form; parsing ["AUDIO_FORMAT_PCM"] fails and parsing
    ["AUDIO_FORMAT_DEFAULT"] succeeds with 0. *)
Theorem format_zero_is_default :
  audio_format_to_string 0 = "AUDIO_FORMAT_DEFAULT" /\
  AUDIO_FORMAT_PCM = 0 /\
  audio_format_to_string AUDIO_FORMAT_PCM = "AUDIO_FORMAT_DEFAULT" /\
  ~ In "AUDIO_FORMAT_PCM" (symbols AUDIO_FORMAT_LIST_DEF) /\
  (forall t, audio_format_from_string "AUDIO_FORMAT_PCM" t = (false, t)) /\
  (forall t, audio_format_from_string "AUDIO_FORMAT_DEFAULT" t = (true, 0)).
Proof.
  do 3 (split; [reflexivity |]).
  split; [| split; intros t; reflexivity].
  intros H. apply (existsb_eqb_In String.eqb String.eqb_eq) in H.
  vm_compute in H. discriminate.
Qed.

(** * Further properties of the converters *)

Lemma rows_satisfy (f : entry -> bool) (cases : list entry) (e : entry) :
  forallb f cases = true -> In e cases -> f e = true.
Proof. intros H He. rewrite forallb_forall in H. now apply H. Qed.

Lemma symbols_distinct_row (cases : list entry) (e1 e2 : entry) :
  NoDup (symbols cases) -> In e1 cases -> In e2 cases ->
  symbol e1 = symbol e2 -> e1 = e2.
Proof.
  induction cases as [| c r IH]; intros Hnd H1 H2 Heq; [destruct H1 |].
  inversion Hnd as [| x l Hx Hr]; subst.
  destruct H1 as [-> | H1], H2 as [-> | H2].
  - reflexivity.
  - exfalso. apply Hx. rewrite Heq. now apply in_map.
  - exfalso. apply Hx. rewrite <- Heq. now apply in_map.
  - now apply IH.
Qed.

Lemma to_string_symbols_distinct (b : build) (d : domain) :
  NoDup (symbols (to_string_cases b d)).
Proof.
  apply (distinct_NoDup String.eqb String.eqb_eq).
  destruct b, d; vm_compute; reflexivity.
Qed.

Lemma symbols_not_empty (b : build) (d : domain) (e : entry) :
  In e (to_string_cases b d ++ from_string_cases d) -> symbol e <> EmptyString.
Proof.
  intros He.
  assert (H : forallb (fun e => negb (String.eqb (symbol e) EmptyString))
                (to_string_cases b d ++ from_string_cases d) = true)
    by (destruct b, d; vm_compute; reflexivity).
  apply (rows_satisfy _ _ e H) in He. rewrite negb_true_iff in He.
  now apply String.eqb_neq.
Qed.

(** A projection is non-empty exactly on the values of the rows of its
    switch. *)
Lemma to_string_named_iff (b : build) (d : domain) (v : Z) :
  to_string b d v <> EmptyString <-> In v (values (to_string_cases b d)).
Proof.
  rewrite to_string_switch. split.
  - intros H. apply stringify_switch_hit in H. exact (in_map value _ _ H).
  - intros H Hs. unfold values in H. apply in_map_iff in H as (e & <- & He).
    rewrite (stringify_switch_row _ e (to_string_values_distinct b d) He) in Hs.
    apply (symbols_not_empty b d e); [apply in_or_app; now left | assumption].
Qed.

Lemma in_range_values (l : list Z) (lo : Z) (n : nat) :
  forallb (fun k => existsb (Z.eqb (lo + Z.of_nat k)) l) (seq 0 n) = true ->
  forall v, lo <= v < lo + Z.of_nat n -> In v l.
Proof.
  intros H v Hv. rewrite forallb_forall in H.
  specialize (H (Z.to_nat (v - lo))).
  replace (lo + Z.of_nat (Z.to_nat (v - lo))) with v in H by lia.
  apply (existsb_eqb_In Z.eqb Z.eqb_eq), H, in_seq. lia.
Qed.

Lemma pairwise_disjoint_nth (l : list Z) (i j : nat) (x y : Z) :
  pairwise_disjoint l = true ->
  nth_error l i = Some x -> nth_error l j = Some y -> i <> j ->
  Z.land x y = 0.
Proof.
  revert i j. induction l as [| a r IH]; intros i j Hd Hi Hj Hij.
  - destruct i; discriminate.
  - simpl in Hd. apply andb_prop in Hd as [Ha Hr].
    rewrite forallb_forall in Ha.
    destruct i as [| i], j as [| j]; simpl in Hi, Hj.
    + now elim Hij.
    + injection Hi as <-. apply Z.eqb_eq, Ha. eapply nth_error_In, Hj.
    + injection Hj as <-. rewrite Z.land_comm.
      apply Z.eqb_eq, Ha. eapply nth_error_In, Hi.
    + apply (IH i j); auto.
Qed.

(** [AUDIO_DEFINE_BIT_MASK] over a list: the union contains every row. *)
Lemma bit_mask_of_contains (cases : list entry) (e : entry) :
  In e cases -> Z.land (value e) (bit_mask_of cases) = value e.
Proof.
  induction cases as [| c r IH]; intros He; [destruct He |].
  change (bit_mask_of (c :: r)) with (value c .| bit_mask_of r).
  apply Z.bits_inj'. intros k _.
  rewrite Z.land_spec, Z.lor_spec.
  destruct He as [-> | He].
  - destruct (Z.testbit (value e) k); reflexivity.
  - pose proof (f_equal (fun z => Z.testbit z k) (IH He)) as Hk.
    cbv beta in Hk. rewrite Z.land_spec in Hk.
    destruct (Z.testbit (value e) k), (Z.testbit (bit_mask_of r) k),
      (Z.testbit (value c) k); simpl in *; congruence.
Qed.

(** X1: a projection never gives the same non-empty string for two
    different values. *)
Theorem to_string_injective_on_named_values
  (b : build) (d : domain) (v1 v2 : Z) :
  to_string b d v1 <> EmptyString ->
  to_string b d v1 = to_string b d v2 ->
  v1 = v2.
Proof.
  intros Hne Heq.
  assert (H2 : to_string b d v2 <> EmptyString) by (now rewrite <- Heq).
  rewrite !to_string_switch in *.
  apply stringify_switch_hit in Hne, H2. rewrite <- Heq in H2.
  pose proof (symbols_distinct_row _ _ _ (to_string_symbols_distinct b d)
                Hne H2 eq_refl) as Hrow.
  now inversion Hrow.
Qed.

Lemma to_string_injective_on_named_values_witness :
  to_string FrameworkBuild Source (-1) <> EmptyString /\
  to_string FrameworkBuild Source (-1) = to_string FrameworkBuild Source (0 - 1) /\
  -1 = 0 - 1.
Proof.
  split; [vm_compute; discriminate |]. split; [reflexivity |].
  apply (to_string_injective_on_named_values FrameworkBuild Source (-1) (0 - 1)).
  - vm_compute; discriminate.
  - reflexivity.
Defined.

(** X2: when a string parses to [v], the projection of [v] gives the
    string back exactly when the string is a symbol of the projection's
    own switch (that is, not an alias and, for channel masks, a name of
    that direction). *)
Theorem from_string_then_to_string
  (b : build) (d : domain) (s : string) (t v : Z) :
  from_string b d s t = (true, v) ->
  (to_string b d v = s <-> In s (symbols (to_string_cases b d))).
Proof.
  rewrite from_string_chain. intros H. apply parse_chain_hit in H.
  assert (Hs : s <> EmptyString)
    by (apply (symbols_not_empty b d (V s v)); apply in_or_app; now right).
  split.
  - intros Heq. rewrite <- Heq in Hs. rewrite to_string_switch in *.
    apply stringify_switch_hit in Hs. rewrite Heq in Hs.
    exact (in_map symbol _ _ Hs).
  - intros Hin. unfold symbols in Hin. apply in_map_iff in Hin as (c & Hc & Hin).
    pose proof Hin as Hto.
    apply to_string_cases_split in Hin as [Hin | [_ Hin]].
    + apply vendor_cases_parsed in Hin.
      pose proof (symbols_distinct_row _ _ _ (from_string_symbols_distinct d)
                    Hin H Hc) as ->.
      rewrite to_string_switch.
      exact (stringify_switch_row _ (V s v) (to_string_values_distinct b d) Hto).
    + exfalso. destruct (framework_only_unparsed d c Hin) as [Hsym _].
      apply Hsym. rewrite Hc. exact (in_map symbol _ _ H).
Qed.

Lemma from_string_then_to_string_witness :
  from_string VendorBuild Device "AUDIO_DEVICE_OUT_AUX_DIGITAL" 0 = (true, 0x400) /\
  to_string VendorBuild Device 0x400 = "AUDIO_DEVICE_OUT_HDMI" /\
  (to_string VendorBuild Device 0x400 = "AUDIO_DEVICE_OUT_AUX_DIGITAL" <->
   In "AUDIO_DEVICE_OUT_AUX_DIGITAL" (symbols (to_string_cases VendorBuild Device))).
Proof.
  split; [reflexivity |]. split; [reflexivity |].
  apply (from_string_then_to_string VendorBuild Device
           "AUDIO_DEVICE_OUT_AUX_DIGITAL" 0 0x400).
  reflexivity.
Defined.

(** X3: every value a parser writes has a name: outside channel masks the
    projection of the same domain names it, and a parsed channel mask is
    named by the projection of at least one direction. *)
Theorem parsed_value_is_named (b : build) (d : domain) (s : string) (t v : Z) :
  from_string b d s t = (true, v) ->
  (~ In d channel_directions -> to_string b d v <> EmptyString) /\
  (In d channel_directions ->
     audio_channel_out_mask_to_string v <> EmptyString \/
     audio_channel_in_mask_to_string v <> EmptyString \/
     audio_channel_index_mask_to_string v <> EmptyString).
Proof.
  rewrite from_string_chain. intros H. apply parse_chain_hit in H. split.
  - intros Hd. apply to_string_named_iff.
    assert (Hc : forallb (fun e =>
                    existsb (Z.eqb (value e)) (values (to_string_cases b d)))
                  (from_string_cases d) = true).
    { destruct d; try (exfalso; apply Hd; simpl; tauto);
        destruct b; vm_compute; reflexivity. }
    apply (rows_satisfy _ _ _ Hc) in H.
    now apply (existsb_eqb_In Z.eqb Z.eqb_eq) in H.
  - intros Hd.
    assert (Hc : forallb (fun e =>
                    existsb (Z.eqb (value e))
                      (values (to_string_cases b ChannelOutMask)) ||
                    existsb (Z.eqb (value e))
                      (values (to_string_cases b ChannelInMask)) ||
                    existsb (Z.eqb (value e))
                      (values (to_string_cases b ChannelIndexMask)))
                  (from_string_cases ChannelOutMask) = true)
      by (vm_compute; reflexivity).
    assert (Hrow : In (V s v) (from_string_cases ChannelOutMask))
      by (simpl in Hd; destruct Hd as [<- | [<- | [<- | []]]]; exact H).
    apply (rows_satisfy _ _ _ Hc) in Hrow. cbn [value] in Hrow.
    apply orb_prop in Hrow as [Hrow | Hrow]; [apply orb_prop in Hrow as [Hrow | Hrow] |];
      apply (existsb_eqb_In Z.eqb Z.eqb_eq) in Hrow;
      apply (to_string_named_iff b) in Hrow; auto.
Qed.

Lemma parsed_value_is_named_witness :
  from_string VendorBuild ChannelOutMask "AUDIO_CHANNEL_IN_6" 0 = (true, 0xFC) /\
  audio_channel_out_mask_to_string 0xFC = EmptyString /\
  (audio_channel_out_mask_to_string 0xFC <> EmptyString \/
   audio_channel_in_mask_to_string 0xFC <> EmptyString \/
   audio_channel_index_mask_to_string 0xFC <> EmptyString).
Proof.
  split; [reflexivity |]. split; [reflexivity |].
  apply (parsed_value_is_named VendorBuild ChannelOutMask "AUDIO_CHANNEL_IN_6" 0 0xFC).
  - reflexivity.
  - simpl; tauto.
Defined.

(** X4: what a vendor build names, a framework build names with the same
    string. *)
Theorem framework_build_keeps_vendor_names (d : domain) (v : Z) :
  to_string VendorBuild d v <> EmptyString ->
  to_string FrameworkBuild d v = to_string VendorBuild d v.
Proof.
  intros H. rewrite !to_string_switch in *.
  apply stringify_switch_hit in H.
  apply (stringify_switch_row (to_string_cases FrameworkBuild d) (V _ v)).
  - apply to_string_values_distinct.
  - rewrite framework_to_string_cases. apply in_or_app. now left.
Qed.

Lemma framework_build_keeps_vendor_names_witness :
  to_string VendorBuild StreamType 14 <> EmptyString /\
  to_string FrameworkBuild StreamType 14 = "AUDIO_STREAM_CALL_ASSISTANT" /\
  to_string FrameworkBuild StreamType 14 = to_string VendorBuild StreamType 14.
Proof.
  split; [vm_compute; discriminate |]. split; [reflexivity |].
  apply (framework_build_keeps_vendor_names StreamType 14).
  vm_compute; discriminate.
Defined.

(** X5: a parser succeeds with [v] on [s] exactly when [(s, v)] is a row
    of its list: the outcome depends neither on the previous content of the
    output location, nor on the build, nor on the order of the rows. *)
Theorem from_string_succeeds_on_rows
  (b : build) (d : domain) (s : string) (t v : Z) :
  from_string b d s t = (true, v) <-> In (V s v) (from_string_cases d).
Proof.
  rewrite from_string_chain. split.
  - apply parse_chain_hit.
  - intros H.
    exact (parse_chain_row _ (V s v) t (from_string_symbols_distinct d) H).
Qed.

(** * Further properties of the lists *)

(** X6: every discrete channel is contained in the [ALL] mask of its
    direction, and so is every value the direction's projection names; a
    value the index projection names is 0 or carries the index header. *)
Theorem named_channel_masks_are_within_all (c : entry) (v : Z) :
  (In c AUDIO_CHANNEL_OUT_DISCRETE_CHANNEL_LIST_DEF ->
     Z.land (value c) AUDIO_CHANNEL_OUT_ALL = value c) /\
  (In c AUDIO_CHANNEL_IN_DISCRETE_CHANNEL_LIST_DEF ->
     Z.land (value c) AUDIO_CHANNEL_IN_ALL = value c) /\
  (audio_channel_out_mask_to_string v <> EmptyString ->
     Z.land v AUDIO_CHANNEL_OUT_ALL = v) /\
  (audio_channel_in_mask_to_string v <> EmptyString ->
     Z.land v AUDIO_CHANNEL_IN_ALL = v) /\
  (audio_channel_index_mask_to_string v <> EmptyString ->
     v = 0 \/ Z.land v AUDIO_CHANNEL_INDEX_HDR = AUDIO_CHANNEL_INDEX_HDR).
Proof.
  split; [apply bit_mask_of_contains |].
  split; [apply bit_mask_of_contains |].
  split; [| split]; intros H; apply stringify_switch_hit in H.
  - assert (Hc : forallb (fun e => Z.land (value e) AUDIO_CHANNEL_OUT_ALL =? value e)
                   (to_string_cases VendorBuild ChannelOutMask) = true)
      by (vm_compute; reflexivity).
    apply (rows_satisfy _ _ _ Hc) in H. now apply Z.eqb_eq in H.
  - assert (Hc : forallb (fun e => Z.land (value e) AUDIO_CHANNEL_IN_ALL =? value e)
                   (to_string_cases VendorBuild ChannelInMask) = true)
      by (vm_compute; reflexivity).
    apply (rows_satisfy _ _ _ Hc) in H. now apply Z.eqb_eq in H.
  - assert (Hc : forallb (fun e =>
                     (value e =? 0) ||
                     (Z.land (value e) AUDIO_CHANNEL_INDEX_HDR =? AUDIO_CHANNEL_INDEX_HDR))
                   (to_string_cases VendorBuild ChannelIndexMask) = true)
      by (vm_compute; reflexivity).
    apply (rows_satisfy _ _ _ Hc) in H. cbn [value] in H.
    apply orb_prop in H as [H | H]; apply Z.eqb_eq in H; auto.
Qed.

Lemma named_channel_masks_are_within_all_witness :
  audio_channel_out_mask_to_string 0x30000003 = "AUDIO_CHANNEL_OUT_STEREO_HAPTIC_AB" /\
  Z.land 0x30000003 AUDIO_CHANNEL_OUT_ALL = 0x30000003.
Proof.
  split; [reflexivity |].
  destruct (named_channel_masks_are_within_all (V "AUDIO_CHANNEL_NONE" 0) 0x30000003)
    as (_ & _ & H & _).
  apply H. vm_compute; discriminate.
Defined.

(** X7: every discrete input channel is a single bit, and every input
    mask is the union of the discrete input channels it contains. *)
Theorem in_masks_are_unions_of_discrete_channels :
  (forall c, In c AUDIO_CHANNEL_IN_DISCRETE_CHANNEL_LIST_DEF ->
             exists k, 0 <= k < 32 /\ value c = 1 << k) /\
  (forall e, In e AUDIO_CHANNEL_IN_MASK_LIST_DEF ->
             value e = bit_mask_of (in_channels_of (value e))).
Proof.
  split.
  - assert (H : forallb (fun c => single_bit (value c))
                  AUDIO_CHANNEL_IN_DISCRETE_CHANNEL_LIST_DEF = true)
      by (vm_compute; reflexivity).
    intros c Hc. apply (rows_satisfy _ _ _ H) in Hc.
    unfold single_bit in Hc. apply existsb_exists in Hc as (k & Hk & Heq).
    apply in_seq in Hk. apply Z.eqb_eq in Heq.
    exists (Z.of_nat k). split; [lia | assumption].
  - assert (H : forallb (fun e => value e =? bit_mask_of (in_channels_of (value e)))
                  AUDIO_CHANNEL_IN_MASK_LIST_DEF = true)
      by (vm_compute; reflexivity).
    intros e He. apply Z.eqb_eq. exact (rows_satisfy _ _ _ H He).
Qed.

Lemma in_masks_are_unions_of_discrete_channels_witness :
  In (V "AUDIO_CHANNEL_IN_VOICE_CALL_MONO" 0xC010) AUDIO_CHANNEL_IN_MASK_LIST_DEF /\
  0xC010 = bit_mask_of (in_channels_of 0xC010) /\
  symbols (in_channels_of 0xC010)
    = [ "AUDIO_CHANNEL_IN_FRONT"; "AUDIO_CHANNEL_IN_VOICE_UPLINK";
        "AUDIO_CHANNEL_IN_VOICE_DNLINK" ].
Proof.
  assert (H : In (V "AUDIO_CHANNEL_IN_VOICE_CALL_MONO" 0xC010)
                 AUDIO_CHANNEL_IN_MASK_LIST_DEF)
    by (apply (existsb_eqb_In entry_eqb entry_eqb_eq); vm_compute; reflexivity).
  split; [exact H |]. split; [| reflexivity].
  destruct in_masks_are_unions_of_discrete_channels as (_ & Hu).
  exact (Hu (V "AUDIO_CHANNEL_IN_VOICE_CALL_MONO" 0xC010) H).
Defined.

(** X8: the two bits above [AUDIO_CHANNEL_COUNT_MAX] of a parsed channel
    mask tell its representation: they are 2 when the string is an index
    mask name and 0 otherwise. *)
Theorem parsed_channel_mask_representation (s : string) (t v : Z) :
  audio_channel_mask_from_string s t = (true, v) ->
  Z.shiftr v AUDIO_CHANNEL_COUNT_MAX
  = if prefix "AUDIO_CHANNEL_INDEX_MASK_" s then 2 else 0.
Proof.
  intros H. apply parse_chain_hit in H.
  assert (Hc : forallb (fun e =>
                  Z.shiftr (value e) AUDIO_CHANNEL_COUNT_MAX =?
                  (if prefix "AUDIO_CHANNEL_INDEX_MASK_" (symbol e) then 2 else 0))
                (from_string_cases ChannelIndexMask) = true)
    by (vm_compute; reflexivity).
  apply (rows_satisfy _ _ _ Hc) in H. now apply Z.eqb_eq in H.
Qed.

Lemma parsed_channel_mask_representation_witness :
  audio_channel_mask_from_string "AUDIO_CHANNEL_INDEX_MASK_8" 0 = (true, 0x800000FF) /\
  Z.shiftr 0x800000FF AUDIO_CHANNEL_COUNT_MAX = 2.
Proof.
  split; [reflexivity |].
  apply (parsed_channel_mask_representation "AUDIO_CHANNEL_INDEX_MASK_8" 0 0x800000FF).
  reflexivity.
Defined.

(** X9: in the value parsed from the index mask name of [n] channels,
    bit [i] is set exactly for the [n] lowest positions and for the
    header position 31: the channel count is the number of low bits set. *)
Theorem index_mask_bits (n t v i : Z) :
  1 <= n <= 24 ->
  audio_channel_mask_from_string (index_mask_name n) t = (true, v) ->
  0 <= i ->
  Z.testbit v i = (i <? n) || (i =? 31).
Proof.
  intros Hn H Hi.
  pose proof (index_mask_row n Hn) as Hrow.
  assert (Hp : audio_channel_mask_from_string (index_mask_name n) t
               = (true, 0x80000000 .| (1 << n) - 1)).
  { apply (parse_chain_row (from_string_cases ChannelIndexMask) (V _ _) t).
    - apply from_string_symbols_distinct.
    - unfold from_string_cases. do 3 (apply in_or_app; right). exact Hrow. }
  rewrite Hp in H. apply (f_equal snd) in H. cbn [snd] in H. subst v.
  change 0x80000000 with (2 ^ 31).
  rewrite Z.shiftl_1_l.
  replace (2 ^ n - 1) with (Z.ones n) by (rewrite Z.ones_equiv; lia).
  rewrite Z.lor_spec, Z.pow2_bits_eqb, Z.testbit_ones_nonneg by lia.
  rewrite orb_comm. f_equal. apply Z.eqb_sym.
Qed.

Lemma index_mask_bits_witness :
  1 <= 5 <= 24 /\
  audio_channel_mask_from_string (index_mask_name 5) 0 = (true, 0x8000001F) /\
  0 <= 4 /\
  Z.testbit 0x8000001F 4 = true.
Proof.
  split; [lia |]. split; [reflexivity |]. split; [lia |].
  apply (index_mask_bits 5 0 0x8000001F 4); [lia | reflexivity | lia].
Defined.

(** X10: a parsed device has [AUDIO_DEVICE_BIT_IN] set exactly when its
    name starts with [AUDIO_DEVICE_IN_]; the aliases keep the direction
    of their name. *)
Theorem parsed_device_direction (s : string) (t v : Z) :
  audio_device_from_string s t = (true, v) ->
  Z.land v AUDIO_DEVICE_BIT_IN
  = if prefix "AUDIO_DEVICE_IN_" s then AUDIO_DEVICE_BIT_IN else 0.
Proof.
  intros H. apply parse_chain_hit in H.
  assert (Hc : forallb (fun e =>
                  Z.land (value e) AUDIO_DEVICE_BIT_IN =?
                  (if prefix "AUDIO_DEVICE_IN_" (symbol e)
                   then AUDIO_DEVICE_BIT_IN else 0))
                AUDIO_DEVICE_LIST_DEF = true)
    by (vm_compute; reflexivity).
  apply (rows_satisfy _ _ _ Hc) in H. now apply Z.eqb_eq in H.
Qed.

Lemma parsed_device_direction_witness :
  audio_device_from_string "AUDIO_DEVICE_IN_VOICE_CALL" 0 = (true, 0x80000040) /\
  Z.land 0x80000040 AUDIO_DEVICE_BIT_IN = AUDIO_DEVICE_BIT_IN.
Proof.
  split; [reflexivity |].
  apply (parsed_device_direction "AUDIO_DEVICE_IN_VOICE_CALL" 0 0x80000040).
  reflexivity.
Defined.

(** X11: the main class of a named format (its bits under
    [AUDIO_FORMAT_MAIN_MASK]) is a named format too, whose name parses
    back to it, and a named format is the union of its main class and its
    sub-type bits. *)
Theorem named_format_has_named_main_class (v t : Z) :
  audio_format_to_string v <> EmptyString ->
  audio_format_to_string (Z.land v AUDIO_FORMAT_MAIN_MASK) <> EmptyString /\
  audio_format_from_string
    (audio_format_to_string (Z.land v AUDIO_FORMAT_MAIN_MASK)) t
    = (true, Z.land v AUDIO_FORMAT_MAIN_MASK) /\
  v = Z.land v AUDIO_FORMAT_MAIN_MASK .| Z.land v AUDIO_FORMAT_SUB_MASK.
Proof.
  intros H. apply stringify_switch_hit in H.
  assert (Hc : forallb (fun e =>
                  existsb (Z.eqb (Z.land (value e) AUDIO_FORMAT_MAIN_MASK))
                          (values AUDIO_FORMAT_LIST_DEF) &&
                  (value e =? Z.land (value e) AUDIO_FORMAT_MAIN_MASK .|
                              Z.land (value e) AUDIO_FORMAT_SUB_MASK))
                AUDIO_FORMAT_LIST_DEF = true)
    by (vm_compute; reflexivity).
  apply (rows_satisfy _ _ _ Hc) in H. cbn [value] in H.
  apply andb_prop in H as [Hm Hu].
  apply (existsb_eqb_In Z.eqb Z.eqb_eq) in Hm. apply Z.eqb_eq in Hu.
  unfold values in Hm. apply in_map_iff in Hm as (c & Hcv & Hin).
  rewrite <- Hcv.
  assert (Hs : audio_format_to_string (value c) = symbol c)
    by exact (stringify_switch_row _ c (to_string_values_distinct VendorBuild Format) Hin).
  rewrite Hs. repeat split.
  - apply (symbols_not_empty VendorBuild Format c). apply in_or_app. now left.
  - exact (parse_chain_row _ c t (from_string_symbols_distinct Format) Hin).
  - now rewrite Hcv.
Qed.

Lemma named_format_has_named_main_class_witness :
  audio_format_to_string 0x1E000002 = "AUDIO_FORMAT_AAC_ADTS_LC" /\
  audio_format_to_string (Z.land 0x1E000002 AUDIO_FORMAT_MAIN_MASK)
    = "AUDIO_FORMAT_AAC_ADTS" /\
  audio_format_from_string
    (audio_format_to_string (Z.land 0x1E000002 AUDIO_FORMAT_MAIN_MASK)) 0
    = (true, Z.land 0x1E000002 AUDIO_FORMAT_MAIN_MASK).
Proof.
  split; [reflexivity |]. split; [reflexivity |].
  destruct (named_format_has_named_main_class 0x1E000002 0) as (_ & H & _).
  - vm_compute; discriminate.
  - exact H.
Defined.

(** X12: the rows of the output flag, input flag and gain mode lists are
    flags: two rows at different positions have no bit in common. *)
Theorem flag_rows_share_no_bit (d : domain) (i j : nat) (e1 e2 : entry) :
  In d [ OutputFlag; InputFlag; GainMode ] ->
  nth_error (from_string_cases d) i = Some e1 ->
  nth_error (from_string_cases d) j = Some e2 ->
  i <> j ->
  Z.land (value e1) (value e2) = 0.
Proof.
  intros Hd H1 H2 Hij.
  apply (pairwise_disjoint_nth (values (from_string_cases d)) i j).
  - simpl in Hd. destruct Hd as [<- | [<- | [<- | []]]]; vm_compute; reflexivity.
  - unfold values. now rewrite nth_error_map, H1.
  - unfold values. now rewrite nth_error_map, H2.
  - assumption.
Qed.

Lemma flag_rows_share_no_bit_witness :
  nth_error (from_string_cases OutputFlag) 12
    = Some (V "AUDIO_OUTPUT_FLAG_DIRECT_PCM" 0x2000) /\
  nth_error (from_string_cases OutputFlag) 16
    = Some (V "AUDIO_OUTPUT_FLAG_GAPLESS_OFFLOAD" 0x20000) /\
  Z.land 0x2000 0x20000 = 0.
Proof.
  split; [reflexivity |]. split; [reflexivity |].
  apply (flag_rows_share_no_bit OutputFlag 12 16
           (V "AUDIO_OUTPUT_FLAG_DIRECT_PCM" 0x2000)
           (V "AUDIO_OUTPUT_FLAG_GAPLESS_OFFLOAD" 0x20000)).
  - simpl; tauto.
  - reflexivity.
  - reflexivity.
  - lia.
Defined.

(** X13: content types and stream types are dense: a content type has a
    name exactly from 0 to 4, and a stream type exactly from 0 to 14, to
    which a framework build adds -1. *)
Theorem content_and_stream_types_are_dense (b : build) (v : Z) :
  (audio_content_type_to_string v <> EmptyString <-> 0 <= v <= 4) /\
  (audio_stream_type_to_string b v <> EmptyString <->
     0 <= v <= 14 \/ (b = FrameworkBuild /\ v = -1)).
Proof.
  split.
  - rewrite (to_string_named_iff b ContentType v). split.
    + intros H.
      assert (Hc : forallb (fun x => (0 <=? x) && (x <=? 4))
                     (values (to_string_cases b ContentType)) = true)
        by (vm_compute; reflexivity).
      rewrite forallb_forall in Hc. apply Hc in H. lia.
    + intros H. apply (in_range_values _ 0 5); [vm_compute; reflexivity | lia].
  - rewrite (to_string_named_iff b StreamType v). split.
    + intros H.
      assert (Hc : forallb (fun x =>
                      (0 <=? x) && (x <=? 14) ||
                      (match b with FrameworkBuild => true | VendorBuild => false end)
                      && (x =? -1))
                     (values (to_string_cases b StreamType)) = true)
        by (destruct b; vm_compute; reflexivity).
      rewrite forallb_forall in Hc. apply Hc in H.
      destruct b; [left | destruct (Z.eqb_spec v (-1)); [right; split; auto | left]]; lia.
    + intros [H | [-> ->]].
      * apply (in_range_values _ 0 15); [destruct b; vm_compute; reflexivity | lia].
      * apply (existsb_eqb_In Z.eqb Z.eqb_eq). vm_compute; reflexivity.
Qed.

(** * The cached flag *)

Lemma mutex_get_enable_flag_cached
  (mutex_priority_inheritance : nat -> bool) (n : nat) (p : process) (e : bool) :
  enable p = Some e ->
  mutex_get_enable_flag_calls mutex_priority_inheritance n p = (repeat e n, p).
Proof.
  intros He. induction n as [| n IH]; [reflexivity |].
  simpl. unfold mutex_get_enable_flag. rewrite He, IH. reflexivity.
Qed.

(** X14: however many calls follow one another, the flag library is asked
    at most once, by the first call that finds the static uninitialised;
    that call logs one debug line, and every call returns the value read
    then, whatever the library would answer later.  Once the static is
    initialised the calls change nothing. *)
Theorem mutex_get_enable_flag_reads_the_flag_once
  (mutex_priority_inheritance : nat -> bool) (n : nat) (p p' : process)
  (rs : list bool) :
  mutex_get_enable_flag_calls mutex_priority_inheritance (S n) p = (rs, p') ->
  let first :=
    match enable p with
    | Some e => e
    | None => mutex_priority_inheritance (flag_reads p)
    end in
  rs = repeat first (S n) /\
  enable p' = Some first /\
  (enable p = None ->
     flag_reads p' = S (flag_reads p) /\
     debug_log p' =
       debug_log p ++
       [ (LOG_TAG,
          ("get_enable_flag: mutex_priority_inheritance: " ++
           (if first then "true" else "false"))%string) ]) /\
  (enable p <> None -> p' = p).
Proof.
  simpl. unfold mutex_get_enable_flag at 1.
  destruct (enable p) as [e |] eqn:He.
  - rewrite (mutex_get_enable_flag_cached _ n p e He). intros H.
    injection H as <- <-.
    split; [reflexivity |]. split; [assumption |].
    split; [discriminate | reflexivity].
  - rewrite mutex_get_enable_flag_cached
      with (e := mutex_priority_inheritance (flag_reads p)) by reflexivity.
    intros H.
    injection H as <- <-.
    split; [reflexivity |]. split; [reflexivity |].
    split; [intros _; split; reflexivity | intros H; now elim H].
Qed.

Lemma mutex_get_enable_flag_reads_the_flag_once_witness :
  mutex_get_enable_flag_calls Nat.even 3
    {| flag_reads := 0; debug_log := []; enable := None |}
  = ([true; true; true],
     {| flag_reads := 1;
        debug_log :=
          [ (LOG_TAG, "get_enable_flag: mutex_priority_inheritance: true") ];
        enable := Some true |}) /\
  [true; true; true] = repeat true 3.
Proof.
  split; [reflexivity |].
  destruct (mutex_get_enable_flag_reads_the_flag_once Nat.even 2
              {| flag_reads := 0; debug_log := []; enable := None |}
              {| flag_reads := 1;
                 debug_log :=
                   [ (LOG_TAG, "get_enable_flag: mutex_priority_inheritance: true") ];
                 enable := Some true |}
              [true; true; true] eq_refl) as (H & _).
  exact H.
Defined.
